(** * EKS custom-resource handlers: a shallow embedding

    This development models the three Python Lambda handlers of the
    repository

    - [packages/@aws-cdk/aws-eks-legacy/lib/cluster-resource/index.py]
    - [packages/@aws-cdk/aws-eks-legacy/lib/helm-chart/index.py]
    - [packages/@aws-cdk/aws-eks/lib/kubectl-handler/helm/__init__.py]

    as executable Rocq functions, and states the properties of the
    specification about them.

    Python values that travel through the handlers (the JSON event, the
    responses of the EKS client) are values of [pyval]; a [dict] is an
    insertion-ordered association list, as Python's is.  Everything the
    handlers ask of the outside (the EKS client, subprocesses, the file
    system, the HTTP PUT of the response) is a [call] answered by an oracle
    [world], which sees the calls issued so far; a handler is a function
    from the event to the sequence of calls it issues. *)

From Stdlib Require Import List String Ascii ZArith Bool Lia Permutation DecimalString.
Import ListNotations.
Local Open Scope list_scope.
Local Open Scope string_scope.
Set Warnings "-register-all".

(** ** Python values *)

Module Py.

(** JSON-shaped Python values.  Floats do not occur in the events the
    handlers receive and are left out. *)
Inductive pyval : Type :=
| PNone
| PBool (b : bool)
| PInt (z : Z)
| PStr (s : string)
| PList (l : list pyval)
| PDict (d : list (string * pyval)).

Definition dict : Type := list (string * pyval).

(** [d.get(k)] at the level of the association list. *)
Fixpoint assoc (k : string) (d : dict) : option pyval :=
  match d with
  | [] => None
  | (k', v) :: d' => if String.eqb k k' then Some v else assoc k d'
  end.

(** [d.get(k, default)]. *)
Definition dict_get_default (d : dict) (k : string) (default : pyval) : pyval :=
  match assoc k d with
  | Some v => v
  | None => default
  end.

(** [d.get(k, None)]: a missing key and a key bound to [None] both give
    [None]. *)
Definition dict_get (d : dict) (k : string) : pyval :=
  dict_get_default d k PNone.

(** [d[k] = v]: an existing key keeps its position, a new key goes last. *)
Fixpoint dict_set (d : dict) (k : string) (v : pyval) : dict :=
  match d with
  | [] => [(k, v)]
  | (k', v') :: d' =>
      if String.eqb k k' then (k', v) :: d' else (k', v') :: dict_set d' k v
  end.

Definition keys (d : dict) : list string := map fst d.

(** Python's [==].  Lists compare element-wise; dicts compare by size and
    then key by key, whatever the insertion order; [bool] is a subclass of
    [int], so [True == 1] and [False == 0]. *)
Fixpoint py_eq (a b : pyval) {struct a} : bool :=
  match a, b with
  | PNone, PNone => true
  | PBool x, PBool y => Bool.eqb x y
  | PInt x, PInt y => Z.eqb x y
  | PBool x, PInt y => Z.eqb (Z.b2z x) y
  | PInt x, PBool y => Z.eqb x (Z.b2z y)
  | PStr x, PStr y => String.eqb x y
  | PList l1, PList l2 =>
      (fix eq_list (l1 l2 : list pyval) {struct l1} : bool :=
         match l1, l2 with
         | [], [] => true
         | x :: l1', y :: l2' => py_eq x y && eq_list l1' l2'
         | _, _ => false
         end) l1 l2
  | PDict d1, PDict d2 =>
      Nat.eqb (List.length d1) (List.length d2) &&
      (fix eq_items (d : dict) {struct d} : bool :=
         match d with
         | [] => true
         | (k, v) :: d' =>
             match assoc k d2 with
             | Some v' => py_eq v v'
             | None => false
             end && eq_items d'
         end) d1
  | _, _ => false
  end.

(** Python's [!=]. *)
Definition py_ne (a b : pyval) : bool := negb (py_eq a b).

(** Truth value of an object, as [if x:] and [x or y] test it. *)
Definition truthy (v : pyval) : bool :=
  match v with
  | PNone => false
  | PBool b => b
  | PInt z => negb (Z.eqb z 0)
  | PStr s => negb (String.eqb s "")
  | PList l => match l with [] => false | _ => true end
  | PDict d => match d with [] => false | _ => true end
  end.

(** [x or y]. *)
Definition py_or (x y : pyval) : pyval := if truthy x then x else y.

(** [x is None]. *)
Definition is_none (v : pyval) : bool :=
  match v with PNone => true | _ => false end.

(** [type(v).__name__]. *)
Definition type_name (v : pyval) : string :=
  match v with
  | PNone => "NoneType"
  | PBool _ => "bool"
  | PInt _ => "int"
  | PStr _ => "str"
  | PList _ => "list"
  | PDict _ => "dict"
  end.

(** An optional string of the event seen as a Python value. *)
Definition of_option (o : option string) : pyval :=
  match o with Some s => PStr s | None => PNone end.

(** [needle in haystack] on strings and on bytes. *)
Fixpoint contains (needle haystack : string) : bool :=
  String.prefix needle haystack ||
  match haystack with
  | EmptyString => false
  | String _ rest => contains needle rest
  end.

(** Exceptions, by the classes the handlers raise or tell apart. *)
Inductive exn : Type :=
| KeyError (key : string)
| TypeError (msg : string)
| AttributeError (msg : string)
| CalledProcessError (msg : string) (output : string)
| ExceptionMsg (msg : string)
| ExceptionBytes (output : string)
| OtherError (msg : string).

Definition result (A : Type) : Type := (exn + A)%type.

(** [v.get(k, default)] as a method call: only dicts have the method. *)
Definition get (v : pyval) (k : string) (default : pyval) : result pyval :=
  match v with
  | PDict d => inr (dict_get_default d k default)
  | _ => inl (AttributeError ("'" ++ type_name v ++ "' object has no attribute 'get'"))
  end.

(** [v[k]] with a string key. *)
Definition getitem (v : pyval) (k : string) : result pyval :=
  match v with
  | PDict d =>
      match assoc k d with
      | Some x => inr x
      | None => inl (KeyError k)
      end
  | PStr _ => inl (TypeError "string indices must be integers")
  | PList _ => inl (TypeError "list indices must be integers or slices, not str")
  | _ => inl (TypeError ("'" ++ type_name v ++ "' object is not subscriptable"))
  end.

(** *** Text of values and of exceptions *)

Definition dquote : ascii := ascii_of_nat 34.
Definition squote : ascii := "'"%char.
Definition backslash : ascii := "\"%char.

Definition hex_digit (n : nat) : ascii :=
  nth n ["0"; "1"; "2"; "3"; "4"; "5"; "6"; "7"; "8"; "9";
         "a"; "b"; "c"; "d"; "e"; "f"]%char "0"%char.

Fixpoint has_char (c : ascii) (s : string) : bool :=
  match s with
  | EmptyString => false
  | String c' s' => Ascii.eqb c c' || has_char c s'
  end.

(** The quote [repr] chooses: a single quote, unless the text has single
    quotes and no double quote. *)
Definition repr_quote (s : string) : ascii :=
  if has_char squote s && negb (has_char dquote s) then dquote else squote.

Definition escape_char (quote c : ascii) : string :=
  let n := nat_of_ascii c in
  if Ascii.eqb c quote || Ascii.eqb c backslash then String backslash (String c "")
  else if Nat.eqb n 9 then "\t"
  else if Nat.eqb n 10 then "\n"
  else if Nat.eqb n 13 then "\r"
  else if Nat.ltb n 32 || Nat.leb 127 n then
    "\x" ++ String (hex_digit (Nat.div n 16)) (String (hex_digit (Nat.modulo n 16)) "")
  else String c "".

Fixpoint escape (quote : ascii) (s : string) : string :=
  match s with
  | EmptyString => ""
  | String c s' => escape_char quote c ++ escape quote s'
  end.

(** [repr(s)] of a [str] (of ASCII text). *)
Definition str_repr (s : string) : string :=
  let q := repr_quote s in String q (escape q s ++ String q "").

(** [repr(b)] of a [bytes] object, which is also its [str(b)]. *)
Definition bytes_repr (b : string) : string := "b" ++ str_repr b.

Definition str_of_Z (z : Z) : string := NilZero.string_of_int (Z.to_int z).
Definition str_of_nat (n : nat) : string := NilZero.string_of_uint (Nat.to_uint n).

(** [repr(v)]. *)
Fixpoint py_repr (v : pyval) : string :=
  match v with
  | PNone => "None"
  | PBool true => "True"
  | PBool false => "False"
  | PInt z => str_of_Z z
  | PStr s => str_repr s
  | PList l =>
      "[" ++
      (fix items (l : list pyval) : string :=
         match l with
         | [] => ""
         | [x] => py_repr x
         | x :: l' => py_repr x ++ ", " ++ items l'
         end) l ++ "]"
  | PDict d =>
      "{" ++
      (fix items (d : dict) : string :=
         match d with
         | [] => ""
         | [(k, x)] => str_repr k ++ ": " ++ py_repr x
         | (k, x) :: d' => str_repr k ++ ": " ++ py_repr x ++ ", " ++ items d'
         end) d ++ "}"
  end.

(** [str(v)], which an f-string and [%s] apply: a [str] is itself, any
    other value is its [repr]. *)
Definition py_str (v : pyval) : string :=
  match v with
  | PStr s => s
  | _ => py_repr v
  end.

(** [str(e)]. *)
Definition exn_str (e : exn) : string :=
  match e with
  | KeyError k => str_repr k
  | TypeError m | AttributeError m | ExceptionMsg m | OtherError m => m
  | CalledProcessError m _ => m
  | ExceptionBytes b => bytes_repr b
  end.

(** [os.path.join(a, b)] for a relative [b] (posixpath). *)
Fixpoint ends_with_slash (a : string) : bool :=
  match a with
  | EmptyString => false
  | String c EmptyString => Ascii.eqb c "/"%char
  | String _ a' => ends_with_slash a'
  end.

Definition path_join (a b : string) : string :=
  if String.eqb a "" || ends_with_slash a then a ++ b else a ++ "/" ++ b.

End Py.

(** ** The CloudFormation protocol and the outside world *)

(** The body of the response PUT to CloudFormation ([responseBody] of
    [cfn_send]), kept as a record rather than as its [json.dumps] text. *)
Module Response.
Record body : Type := {
  Status : string;
  Reason : string;
  PhysicalResourceId : Py.pyval;
  StackId : string;
  RequestId : string;
  LogicalResourceId : string;
  NoEcho : bool;
  Data : Py.dict
}.
End Response.

(** The inbound event.  The envelope fields CloudFormation always sends
    are strings; the physical id and the old properties may be absent; the
    properties are arbitrary JSON. *)
Module Event.
Record event : Type := {
  RequestType : string;
  StackId : string;
  RequestId : string;
  LogicalResourceId : string;
  ResponseURL : string;
  PhysicalResourceId : option string;
  ResourceProperties : Py.pyval;
  OldResourceProperties : option Py.pyval
}.
End Event.

Module Effects.
Import Py.

(** What a handler asks of the outside. *)
Inductive call : Type :=
| EksDeleteCluster (name : pyval)
| EksWaitClusterDeleted (name : pyval)
| EksCreateCluster (config : dict)
| EksDescribeCluster (name : pyval)
| EksUpdateClusterVersion (name version : pyval)
| EksWaitClusterActive (name : pyval) (delay max_attempts : Z)
| CheckCall (cmnd : list pyval)
| CheckOutput (cmnd : list pyval) (cwd : string)
| WriteJsonFile (path : string) (value : pyval)
| PathIsFile (path : string)
| Chmod (path : string) (mode : Z)
| Uuid4
| RequestsPut (url : string) (body : Response.body).

(** The calls issued so far, oldest first. *)
Definition trace : Type := list call.

(** The outside answers a call, knowing the calls before it, with a value
    or with an exception. *)
Definition world : Type := trace -> call -> result pyval.

(** A computation reads the world and extends the trace; an exception
    keeps the trace of what was issued before it. *)
Definition M (A : Type) : Type := world -> trace -> trace * result A.

Definition ret {A} (a : A) : M A := fun _ t => (t, inr a).
Definition raise {A} (e : exn) : M A := fun _ t => (t, inl e).

Definition bind {A B} (m : M A) (k : A -> M B) : M B :=
  fun w t =>
    match m w t with
    | (t', inr a) => k a w t'
    | (t', inl e) => (t', inl e)
    end.

(** A pure step that may raise. *)
Definition lift {A} (r : result A) : M A := fun _ t => (t, r).

(** Issue a call. *)
Definition invoke (c : call) : M pyval := fun w t => ((t ++ [c])%list, w t c).

(** [try: m except Exception as e: h e]. *)
Definition try_except {A} (m : M A) (h : exn -> M A) : M A :=
  fun w t =>
    match m w t with
    | (t', inl e) => h e w t'
    | r => r
    end.

Declare Scope py_scope.
Delimit Scope py_scope with py.
Notation "x <- m ;; k" := (bind m (fun x => k))
  (at level 100, m at next level, right associativity) : py_scope.
Notation "m ;;; k" := (bind m (fun _ => k))
  (at level 100, right associativity) : py_scope.

Definition is_put (c : call) : bool :=
  match c with RequestsPut _ _ => true | _ => false end.

Definition is_delete (c : call) : bool :=
  match c with EksDeleteCluster _ => true | _ => false end.

Definition is_create (c : call) : bool :=
  match c with EksCreateCluster _ => true | _ => false end.

(** A run of [helm uninstall]. *)
Definition is_uninstall (c : call) : bool :=
  match c with
  | CheckOutput (PStr "helm" :: PStr verb :: _) _ => String.eqb verb "uninstall"
  | _ => false
  end.

(** The responses a trace holds. *)
Definition responses (t : trace) : list Response.body :=
  flat_map (fun c => match c with RequestsPut _ b => [b] | _ => [] end) t.

(** The first call of [d], issued after [t], that the world answers with
    an exception; the PUT of a response is passed over, since its failure
    is only logged. *)
Fixpoint first_raise (w : world) (t d : trace) : option (call * exn) :=
  match d with
  | [] => None
  | c :: d' =>
      if is_put c then first_raise w (t ++ [c])%list d'
      else
        match w t c with
        | inl e => Some (c, e)
        | inr _ => first_raise w (t ++ [c])%list d'
        end
  end.

Definition CFN_SUCCESS : string := "SUCCESS".
Definition CFN_FAILED : string := "FAILED".

(** The Lambda context, of which only the log stream name is read. *)
Record context : Type := { log_stream_name : string }.

(** [reason or f'See the details in CloudWatch Log Stream: ...']. *)
Definition reason_or_default (ctx : context) (reason : option string) : string :=
  match reason with
  | Some r =>
      if String.eqb r "" then "See the details in CloudWatch Log Stream: " ++ log_stream_name ctx
      else r
  | None => "See the details in CloudWatch Log Stream: " ++ log_stream_name ctx
  end.

End Effects.

(** ** aws-eks-legacy/lib/cluster-resource/index.py *)

Module ClusterResource.
Import Py Effects.
Local Open Scope py_scope.

(** [cfn_send]: the physical id falls back on the one of the request, and
    on the log stream name when the request has none; a failure of the PUT
    is logged and goes no further. *)
Definition cfn_send (event : Event.event) (ctx : context) (responseStatus : string)
    (responseData : dict) (physicalResourceId : pyval) (reason : option string) : M unit :=
  let responseUrl := Event.ResponseURL event in
  let physicalResourceId :=
    py_or physicalResourceId
      (match Event.PhysicalResourceId event with
       | Some p => PStr p
       | None => PStr (log_stream_name ctx)
       end) in
  let responseBody := {|
    Response.Status := responseStatus;
    Response.Reason := reason_or_default ctx reason;
    Response.PhysicalResourceId := physicalResourceId;
    Response.StackId := Event.StackId event;
    Response.RequestId := Event.RequestId event;
    Response.LogicalResourceId := Event.LogicalResourceId event;
    Response.NoEcho := false;
    Response.Data := responseData |} in
  try_except (invoke (RequestsPut responseUrl responseBody) ;;; ret tt)
             (fun _ => ret tt).

Definition cfn_error (event : Event.event) (ctx : context) (message : string) : M unit :=
  cfn_send event ctx CFN_FAILED [] PNone (Some message).

Definition new_cluster_name (request_id : string) : string :=
  "cluster-" ++ request_id.

(** Lines 53-57: the name of the configuration, else the physical id, else
    for a Create a name made from the request id. *)
Definition determine_cluster_name (request_type request_id : string)
    (physical_id : pyval) (config : dict) : result pyval :=
  let cluster_name := dict_get config "name" in
  if is_none cluster_name then
    if truthy physical_id then inr physical_id
    else if String.eqb request_type "Create" then inr (PStr (new_cluster_name request_id))
    else inl (ExceptionMsg "unexpected error. cannot determine cluster name")
  else inr cluster_name.

(** [should_replace_cluster], with the variables it closes over as
    arguments. *)
Definition should_replace_cluster (physical_id cluster_name old_config
    resourcesVpcConfig roleArn : pyval) : result bool :=
  let old_name := physical_id in
  if py_ne old_name cluster_name then inr true
  else
    match get old_config "resourcesVpcConfig" PNone with
    | inl e => inl e
    | inr old_resourcesVpcConfig =>
        if py_ne old_resourcesVpcConfig resourcesVpcConfig then inr true
        else
          match get old_config "roleArn" PNone with
          | inl e => inl e
          | inr old_roleArn =>
              if py_ne old_roleArn roleArn then inr true else inr false
          end
    end.

(** The [Update] branch, lines 100-136; it returns the cluster name to
    wait for. *)
Definition update (request_id : string) (physical_id cluster_name : pyval)
    (config : dict) (old_config resourcesVpcConfig roleArn version : pyval) : M pyval :=
  described <- invoke (EksDescribeCluster physical_id) ;;
  current_state <- lift (getitem described "cluster") ;;
  replace <- lift (should_replace_cluster physical_id cluster_name old_config
                     resourcesVpcConfig roleArn) ;;
  if (replace : bool) then
    let '(cluster_name, config) :=
      if py_eq cluster_name physical_id
      then (PStr (new_cluster_name request_id),
            dict_set config "name" (PStr (new_cluster_name request_id)))
      else (cluster_name, config) in
    invoke (EksCreateCluster config) ;;;
    ret cluster_name
  else
    old_version <- lift (get old_config "version" PNone) ;;
    if is_none old_version && is_none version then ret cluster_name
    else
      old_version_actual <- lift (getitem current_state "version") ;;
      if py_ne version old_version_actual then
        if is_none version then
          raise (ExceptionMsg ("Version cannot be changed from a specific value ("
                               ++ py_str old_version ++ ") to undefined"))
        else
          invoke (EksUpdateClusterVersion cluster_name version) ;;;
          ret cluster_name
      else ret cluster_name.

(** The attributes read off the final [describe_cluster] response. *)
Definition attributes (resp : pyval) : result dict :=
  match getitem resp "cluster" with
  | inl e => inl e
  | inr cluster =>
      match getitem cluster "name" with
      | inl e => inl e
      | inr name =>
          match getitem cluster "endpoint" with
          | inl e => inl e
          | inr endpoint =>
              match getitem cluster "arn" with
              | inl e => inl e
              | inr arn =>
                  match getitem cluster "certificateAuthority" with
                  | inl e => inl e
                  | inr ca =>
                      match getitem ca "data" with
                      | inl e => inl e
                      | inr data =>
                          inr [("Name", name); ("Endpoint", endpoint); ("Arn", arn);
                               ("CertificateAuthorityData", data)]
                      end
                  end
              end
          end
      end
  end.

(** Lines 60-157 of [handler]: what is done once the configuration and
    the cluster name are known.  [config] already holds the name. *)
Definition reconcile (event : Event.event) (ctx : context)
    (physical_id cluster_name : pyval) (config : dict) (old_config : pyval) : M unit :=
  let request_id := Event.RequestId event in
  let request_type := Event.RequestType event in
  let resourcesVpcConfig := dict_get config "resourcesVpcConfig" in
  let roleArn := dict_get config "roleArn" in
  let version := dict_get config "version" in
  if String.eqb request_type "Delete" then
    invoke (EksDeleteCluster cluster_name) ;;;
    invoke (EksWaitClusterDeleted cluster_name) ;;;
    cfn_send event ctx CFN_SUCCESS [] cluster_name None
  else
    cluster_name <-
      (if String.eqb request_type "Create" then
         invoke (EksCreateCluster config) ;;;
         ret cluster_name
       else if String.eqb request_type "Update" then
         update request_id physical_id cluster_name config old_config
                resourcesVpcConfig roleArn version
       else raise (ExceptionMsg ("Invalid request type " ++ request_type))) ;;
    invoke (EksWaitClusterActive cluster_name 30 26) ;;;
    resp <- invoke (EksDescribeCluster cluster_name) ;;
    attrs <- lift (attributes resp) ;;
    cfn_send event ctx CFN_SUCCESS attrs cluster_name None.

(** [event.get('OldResourceProperties', {})]. *)
Definition old_props (event : Event.event) : pyval :=
  match Event.OldResourceProperties event with Some p => p | None => PDict [] end.

(** The body of the [try] of [handler]: lines 30-58 read the event and
    settle the cluster name, then [reconcile]. *)
Definition handler_body (event : Event.event) (ctx : context) : M unit :=
  let request_id := Event.RequestId event in
  let request_type := Event.RequestType event in
  let props := Event.ResourceProperties event in
  let physical_id := of_option (Event.PhysicalResourceId event) in
  config <- lift (getitem props "Config") ;;
  old_config <- lift (get (old_props event) "Config" (PDict [])) ;;
  match config with
  | PDict config =>
      cluster_name <- lift (determine_cluster_name request_type request_id physical_id config) ;;
      let config := dict_set config "name" cluster_name in
      reconcile event ctx physical_id cluster_name config old_config
  | other =>
      lift (get other "name" PNone) ;;;
      raise (AttributeError ("'" ++ type_name other ++ "' object has no attribute 'get'"))
  end.

(** [handler]: whatever the body raises is reported by [cfn_error]. *)
Definition handler (event : Event.event) (ctx : context) : M unit :=
  try_except (handler_body event ctx)
             (fun e => cfn_error event ctx (exn_str e)).

(** Run a handler from an empty trace; the calls it issued. *)
Definition run (w : world) (event : Event.event) (ctx : context) : trace :=
  fst (handler event ctx w []).

End ClusterResource.

(** The process environment the helm handlers read. *)
Module Environ.
Record environ : Type := {
  CLUSTER_NAME : option string;
  TEST_OUTDIR : option string
}.

Definition outdir (env : environ) : string :=
  match TEST_OUTDIR env with Some d => d | None => "/tmp" end.

Definition kubeconfig (env : environ) : string :=
  Py.path_join (outdir env) "kubeconfig".
End Environ.

(** ** aws-eks-legacy/lib/helm-chart/index.py *)

Module HelmChart.
Import Py Effects.
Local Open Scope py_scope.

(** [cfn_send] of this file: the physical id falls back on the log stream
    name only. *)
Definition cfn_send (event : Event.event) (ctx : context) (responseStatus : string)
    (responseData : dict) (physicalResourceId : pyval) (reason : option string) : M unit :=
  let responseUrl := Event.ResponseURL event in
  let responseBody := {|
    Response.Status := responseStatus;
    Response.Reason := reason_or_default ctx reason;
    Response.PhysicalResourceId := py_or physicalResourceId (PStr (log_stream_name ctx));
    Response.StackId := Event.StackId event;
    Response.RequestId := Event.RequestId event;
    Response.LogicalResourceId := Event.LogicalResourceId event;
    Response.NoEcho := false;
    Response.Data := responseData |} in
  try_except (invoke (RequestsPut responseUrl responseBody) ;;; ret tt)
             (fun _ => ret tt).

Definition cfn_error (event : Event.event) (ctx : context) (message : string) : M unit :=
  cfn_send event ctx CFN_FAILED [] PNone (Some message).

(** [['--flag', x]] when [x is not None]. *)
Definition option_args (flag : string) (x : pyval) : list pyval :=
  if is_none x then [] else [PStr flag; x].

(** The command line [helm] builds. *)
Definition helm_command (env : Environ.environ) (verb : string)
    (release chart repo file namespace version : pyval) : list pyval :=
  ([PStr "helm"; PStr verb; release]
   ++ (if is_none chart then [] else [chart])
   ++ (if String.eqb verb "upgrade" then [PStr "--install"] else [])
   ++ option_args "--repo" repo
   ++ option_args "--values" file
   ++ option_args "--version" version
   ++ option_args "--namespace" namespace
   ++ [PStr "--kubeconfig"; PStr (Environ.kubeconfig env)])%list.

(** [helm]: one run of the command; a non-zero exit is raised again as an
    [Exception] holding the output. *)
Definition helm (env : Environ.environ) (verb : string)
    (release chart repo file namespace version : pyval) : M unit :=
  try_except
    (invoke (CheckOutput (helm_command env verb release chart repo file namespace version)
                         (Environ.outdir env)) ;;;
     ret tt)
    (fun e =>
       match e with
       | CalledProcessError _ output => raise (ExceptionBytes output)
       | _ => raise e
       end).

Section Handler.

(** [json.loads], applied to the [Values] property. *)
Variable json_loads : pyval -> result pyval.

(** The body of the [try] of [handler]. *)
Definition handler_body (env : Environ.environ) (event : Event.event) (ctx : context) : M unit :=
  let request_type := Event.RequestType event in
  let props := Event.ResourceProperties event in
  let physical_id := of_option (Event.PhysicalResourceId event) in
  release <- lift (getitem props "Release") ;;
  chart <- lift (getitem props "Chart") ;;
  version <- lift (get props "Version" PNone) ;;
  namespace <- lift (get props "Namespace" PNone) ;;
  repository <- lift (get props "Repository" PNone) ;;
  values_text <- lift (get props "Values" PNone) ;;
  match Environ.CLUSTER_NAME env with
  | None => cfn_error event ctx "CLUSTER_NAME is missing in environment"
  | Some cluster_name =>
      invoke (CheckCall [PStr "aws"; PStr "eks"; PStr "update-kubeconfig";
                         PStr "--name"; PStr cluster_name;
                         PStr "--kubeconfig"; PStr (Environ.kubeconfig env)]) ;;;
      values_file <-
        (if negb (String.eqb request_type "Delete") && negb (is_none values_text) then
           values <- lift (json_loads values_text) ;;
           let values_file := path_join (Environ.outdir env) "values.yaml" in
           invoke (WriteJsonFile values_file values) ;;;
           ret (PStr values_file)
         else ret PNone) ;;
      (if String.eqb request_type "Create" || String.eqb request_type "Update" then
         helm env "upgrade" release chart repository values_file namespace version
       else if String.eqb request_type "Delete" then
         try_except (helm env "uninstall" release PNone PNone PNone namespace PNone)
                    (fun _ => ret tt)
       else ret tt) ;;;
      if String.eqb request_type "Create" then
        uuid <- invoke Uuid4 ;;
        cfn_send event ctx CFN_SUCCESS [] (PStr (cluster_name ++ "/" ++ py_str uuid)) None
      else if negb (truthy physical_id) then
        cfn_error event ctx
          ("invalid request: request type is '" ++ request_type
           ++ "' but 'PhysicalResourceId' is not defined")
      else cfn_send event ctx CFN_SUCCESS [] physical_id None
  end.

(** [handler]: a [KeyError] and any other exception are both reported by
    [cfn_error], with different texts. *)
Definition handler (env : Environ.environ) (event : Event.event) (ctx : context) : M unit :=
  try_except (handler_body env event ctx)
    (fun e =>
       match e with
       | KeyError _ => cfn_error event ctx ("invalid request. Missing '" ++ exn_str e ++ "'")
       | _ => cfn_error event ctx (exn_str e)
       end).

Definition run (w : world) (env : Environ.environ) (event : Event.event) (ctx : context) : trace :=
  fst (handler env event ctx w []).

End Handler.
End HelmChart.

(** ** aws-eks/lib/kubectl-handler/helm/__init__.py *)

Module KubectlHelm.
Import Py Effects.
Local Open Scope py_scope.

Definition maxAttempts : nat := 3.

Definition option_args (flag : string) (x : pyval) : list pyval :=
  if is_none x then [] else [PStr flag; x].

Definition flag_arg (flag : string) (x : pyval) : list pyval :=
  if truthy x then [PStr flag] else [].

(** The command line [helm] builds. *)
Definition helm_command (env : Environ.environ) (verb : string)
    (release chart repo file namespace version wait timeout create_namespace : pyval)
    : list pyval :=
  ([PStr "helm"; PStr verb; release]
   ++ (if is_none chart then [] else [chart])
   ++ (if String.eqb verb "upgrade" then [PStr "--install"] else [])
   ++ flag_arg "--create-namespace" create_namespace
   ++ option_args "--repo" repo
   ++ option_args "--values" file
   ++ option_args "--version" version
   ++ option_args "--namespace" namespace
   ++ flag_arg "--wait" wait
   ++ option_args "--timeout" timeout
   ++ [PStr "--kubeconfig"; PStr (Environ.kubeconfig env)])%list.

(** The [while retry > 0] loop: [retry] attempts are left and [output] is
    the output of the last failed one. *)
Fixpoint attempts (cmnd : list pyval) (cwd : string) (retry : nat) (output : string)
    : M unit :=
  match retry with
  | O =>
      raise (ExceptionMsg ("Operation failed after " ++ str_of_nat maxAttempts
                           ++ " attempts: " ++ bytes_repr output))
  | S retry' =>
      try_except (invoke (CheckOutput cmnd cwd) ;;; ret tt)
        (fun e =>
           match e with
           | CalledProcessError _ output =>
               if negb (contains "Broken pipe" output) then raise (ExceptionBytes output)
               else attempts cmnd cwd retry' output
           | _ => raise e
           end)
  end.

Definition helm (env : Environ.environ) (verb : string)
    (release chart repo file namespace version wait timeout create_namespace : pyval)
    : M unit :=
  attempts
    (helm_command env verb release chart repo file namespace version wait timeout
                  create_namespace)
    (Environ.outdir env) maxAttempts "".

Section Handler.

Variable json_loads : pyval -> result pyval.

(** [helm_handler]: no response is sent from here and nothing is caught
    but the errors of an uninstall. *)
Definition helm_handler (env : Environ.environ) (event : Event.event) : M unit :=
  let request_type := Event.RequestType event in
  let props := Event.ResourceProperties event in
  cluster_name <- lift (getitem props "ClusterName") ;;
  role_arn <- lift (getitem props "RoleArn") ;;
  release <- lift (getitem props "Release") ;;
  chart <- lift (getitem props "Chart") ;;
  version <- lift (get props "Version" PNone) ;;
  wait <- lift (get props "Wait" (PBool false)) ;;
  timeout <- lift (get props "Timeout" PNone) ;;
  namespace <- lift (get props "Namespace" PNone) ;;
  create_namespace <- lift (get props "CreateNamespace" PNone) ;;
  repository <- lift (get props "Repository" PNone) ;;
  values_text <- lift (get props "Values" PNone) ;;
  invoke (CheckCall [PStr "aws"; PStr "eks"; PStr "update-kubeconfig";
                     PStr "--role-arn"; role_arn;
                     PStr "--name"; cluster_name;
                     PStr "--kubeconfig"; PStr (Environ.kubeconfig env)]) ;;;
  is_file <- invoke (PathIsFile (Environ.kubeconfig env)) ;;
  (if truthy is_file then invoke (Chmod (Environ.kubeconfig env) 384) ;;; ret tt
   else ret tt) ;;;
  values_file <-
    (if negb (String.eqb request_type "Delete") && negb (is_none values_text) then
       values <- lift (json_loads values_text) ;;
       let values_file := path_join (Environ.outdir env) "values.yaml" in
       invoke (WriteJsonFile values_file values) ;;;
       ret (PStr values_file)
     else ret PNone) ;;
  if String.eqb request_type "Create" || String.eqb request_type "Update" then
    helm env "upgrade" release chart repository values_file namespace version wait
         timeout create_namespace
  else if String.eqb request_type "Delete" then
    try_except (helm env "uninstall" release PNone PNone PNone namespace PNone
                     (PBool false) timeout PNone)
               (fun _ => ret tt)
  else ret tt.

End Handler.
End KubectlHelm.

(** ** Requests and worlds to run the handlers on *)

Module Scenarios.
Import Py Effects.

Definition ctx : context := {| log_stream_name := "2019/11/04/[$LATEST]6c1f" |}.

Definition vpc_config : pyval :=
  PDict [("subnetIds", PList [PStr "subnet-1"; PStr "subnet-2"]);
         ("securityGroupIds", PList [PStr "sg-1"])].

(** A cluster configuration, with or without a name and a version. *)
Definition cluster_config (name : option string) (role : string) (version : option string)
    : dict :=
  ((match name with Some n => [("name", PStr n)] | None => [] end)
   ++ [("roleArn", PStr role); ("resourcesVpcConfig", vpc_config)]
   ++ (match version with Some v => [("version", PStr v)] | None => [] end))%list.

(** A request for the cluster resource. *)
Definition cluster_request (request_type request_id : string) (physical_id : option string)
    (config : dict) (old_config : option dict) : Event.event :=
  {| Event.RequestType := request_type;
     Event.StackId := "arn:aws:cloudformation:eu-west-1:1:stack/app/1";
     Event.RequestId := request_id;
     Event.LogicalResourceId := "Cluster";
     Event.ResponseURL := "https://cloudformation-custom-resource-response/put";
     Event.PhysicalResourceId := physical_id;
     Event.ResourceProperties := PDict [("ServiceToken", PStr "arn:aws:lambda:handler");
                                        ("Config", PDict config)];
     Event.OldResourceProperties :=
       option_map (fun c => PDict [("ServiceToken", PStr "arn:aws:lambda:handler");
                                   ("Config", PDict c)]) old_config |}.

(** What [describe_cluster] answers for a cluster that is there. *)
Definition described (name : pyval) (version : string) : pyval :=
  PDict [("cluster",
          PDict [("name", name);
                 ("arn", PStr "arn:aws:eks:eu-west-1:1:cluster/c");
                 ("version", PStr version);
                 ("endpoint", PStr "https://c.eks.amazonaws.com");
                 ("certificateAuthority", PDict [("data", PStr "LS0t")]);
                 ("status", PStr "ACTIVE")])].

(** A world in which every call succeeds and clusters run [version]. *)
Definition cooperative (version : string) : world :=
  fun _ c =>
    match c with
    | EksDescribeCluster name => inr (described name version)
    | _ => inr (PDict [])
    end.

(** A world in which the cluster to delete is not there. *)
Definition cluster_gone : world :=
  fun _ c =>
    match c with
    | EksDeleteCluster _ =>
        inl (OtherError "An error occurred (ResourceNotFoundException) when calling the DeleteCluster operation: No cluster found for name: prod.")
    | _ => inr (PDict [])
    end.

(** Scenario B: the role changes, the cluster is called by its physical id. *)
Definition role_change : Event.event :=
  cluster_request "Update" "req-42" (Some "prod")
    (cluster_config None "arn:aws:iam::1:role/new" (Some "1.20"))
    (Some (cluster_config None "arn:aws:iam::1:role/old" (Some "1.20"))).

(** Scenario C: only the version changes. *)
Definition version_change : Event.event :=
  cluster_request "Update" "req-43" (Some "prod")
    (cluster_config None "arn:aws:iam::1:role/eks" (Some "1.21"))
    (Some (cluster_config None "arn:aws:iam::1:role/eks" (Some "1.20"))).

(** Scenario D: the version is dropped. *)
Definition version_unset : Event.event :=
  cluster_request "Update" "req-44" (Some "prod")
    (cluster_config None "arn:aws:iam::1:role/eks" None)
    (Some (cluster_config None "arn:aws:iam::1:role/eks" (Some "1.20"))).

(** Nothing changes between the old and the new configuration. *)
Definition no_change : Event.event :=
  cluster_request "Update" "req-45" (Some "prod")
    (cluster_config None "arn:aws:iam::1:role/eks" (Some "1.20"))
    (Some (cluster_config None "arn:aws:iam::1:role/eks" (Some "1.20"))).

(** Only the version changes, for a cluster that a replacement has renamed:
    the configuration still names it "prod". *)
Definition version_change_renamed : Event.event :=
  cluster_request "Update" "req-46" (Some "cluster-req-42")
    (cluster_config (Some "prod") "arn:aws:iam::1:role/eks" (Some "1.21"))
    (Some (cluster_config (Some "prod") "arn:aws:iam::1:role/eks" (Some "1.20"))).

Definition create_unnamed : Event.event :=
  cluster_request "Create" "req-41" None
    (cluster_config None "arn:aws:iam::1:role/eks" (Some "1.20")) None.

Definition delete_prod : Event.event :=
  cluster_request "Delete" "req-47" (Some "prod")
    (cluster_config None "arn:aws:iam::1:role/eks" (Some "1.20")) None.

(** The helm-chart handler: its environment, a request for a release and
    the parser of the values. *)
Definition env : Environ.environ :=
  {| Environ.CLUSTER_NAME := Some "prod"; Environ.TEST_OUTDIR := None |}.

Definition chart_request (request_type : string) (physical_id : option string)
    : Event.event :=
  {| Event.RequestType := request_type;
     Event.StackId := "arn:aws:cloudformation:eu-west-1:1:stack/app/1";
     Event.RequestId := "req-51";
     Event.LogicalResourceId := "Ingress";
     Event.ResponseURL := "https://cloudformation-custom-resource-response/put";
     Event.PhysicalResourceId := physical_id;
     Event.ResourceProperties := PDict [("ServiceToken", PStr "arn:aws:lambda:handler");
                                        ("Release", PStr "ingress");
                                        ("Chart", PStr "nginx-ingress");
                                        ("Namespace", PStr "kube-system")];
     Event.OldResourceProperties := None |}.

Definition no_values (text : pyval) : result pyval := inr (PDict []).

(** A world in which helm fails with [output], and all else succeeds. *)
Definition helm_fails (output : string) : world :=
  fun _ c =>
    match c with
    | CheckOutput _ _ =>
        inl (CalledProcessError "Command 'helm' returned non-zero exit status 1." output)
    | _ => inr PNone
    end.


End Scenarios.

(** * Properties *)

(** ** Dictionaries and equality *)

Module PyFacts.
Import Py.

Lemma assoc_set_same (d : dict) (k : string) (v : pyval) :
  assoc k (dict_set d k v) = Some v.
Proof.
  induction d as [|[k' v'] d IH]; simpl.
  - now rewrite String.eqb_refl.
  - destruct (String.eqb k k') eqn:E; simpl; rewrite E; auto.
Qed.

Lemma assoc_set_other (d : dict) (k k' : string) (v : pyval) :
  k <> k' -> assoc k' (dict_set d k v) = assoc k' d.
Proof.
  intros Hne. induction d as [|[k0 v0] d IH]; simpl.
  - destruct (String.eqb_spec k' k); congruence.
  - destruct (String.eqb_spec k k0) as [->|]; simpl.
    + destruct (String.eqb_spec k' k0); congruence.
    + now rewrite IH.
Qed.

Lemma dict_get_set_same (d : dict) (k : string) (v : pyval) :
  dict_get (dict_set d k v) k = v.
Proof. unfold dict_get, dict_get_default. now rewrite assoc_set_same. Qed.

Lemma dict_get_set_other (d : dict) (k k' : string) (v : pyval) :
  k <> k' -> dict_get (dict_set d k v) k' = dict_get d k'.
Proof.
  intros. unfold dict_get, dict_get_default. now rewrite assoc_set_other.
Qed.

Lemma py_ne_false (a b : pyval) : py_ne a b = false <-> py_eq a b = true.
Proof. unfold py_ne. destruct (py_eq a b); simpl; intuition congruence. Qed.

(** *** Equality of dicts and the order of their keys *)

(** The test [py_eq] makes of each item of the left dict. *)
Definition item_in (d2 : dict) (kv : string * pyval) : bool :=
  match assoc (fst kv) d2 with
  | Some v' => py_eq (snd kv) v'
  | None => false
  end.

Lemma py_eq_dict (d1 d2 : dict) :
  py_eq (PDict d1) (PDict d2)
  = Nat.eqb (List.length d1) (List.length d2) && forallb (item_in d2) d1.
Proof.
  simpl. f_equal. induction d1 as [|[k v] d1 IH]; simpl; [reflexivity|].
  now rewrite IH.
Qed.

Lemma forallb_permutation {A} (f : A -> bool) (l l' : list A) :
  Permutation l l' -> forallb f l = forallb f l'.
Proof.
  induction 1 as [|x l l' _ IH|x y l|l l' l'' _ IH1 _ IH2]; simpl.
  - reflexivity.
  - now rewrite IH.
  - now rewrite !andb_assoc, (andb_comm (f y)).
  - now rewrite IH1.
Qed.

Lemma forallb_pointwise {A} (f g : A -> bool) (l : list A) :
  (forall x, f x = g x) -> forallb f l = forallb g l.
Proof. intros H. induction l as [|x l IH]; simpl; [reflexivity|]. now rewrite H, IH. Qed.

(** With no key twice, a lookup does not depend on the order of the
    items. *)
Lemma assoc_permutation (d d' : dict) :
  Permutation d d' -> NoDup (keys d) -> forall k, assoc k d = assoc k d'.
Proof.
  induction 1 as [|[k0 v0] d d' Hp IH|[k1 v1] [k2 v2] d|d d' d'' Hp1 IH1 Hp2 IH2];
    intros Hnd k; simpl.
  - reflexivity.
  - inversion Hnd; subst. now rewrite IH.
  - inversion Hnd as [|? ? Hnotin _]; subst.
    destruct (String.eqb_spec k k1) as [->|]; [|reflexivity].
    destruct (String.eqb_spec k1 k2) as [->|]; [|reflexivity].
    exfalso. apply Hnotin. now left.
  - rewrite IH1 by assumption. apply IH2.
    apply (Permutation_NoDup (l := keys d)); [|assumption].
    now apply Permutation_map.
Qed.

(** The key order of the left dict is irrelevant. *)
Lemma py_eq_permutation_l (d d' : dict) (v : pyval) :
  Permutation d d' -> py_eq (PDict d) v = py_eq (PDict d') v.
Proof.
  intros Hp. destruct v; try reflexivity.
  rewrite !py_eq_dict. rewrite (Permutation_length Hp).
  now rewrite (forallb_permutation _ _ _ Hp).
Qed.

(** So is the key order of the right dict, which as any dict has no key
    twice. *)
Lemma py_eq_permutation_r (d d' : dict) (v : pyval) :
  Permutation d d' -> NoDup (keys d) -> py_eq v (PDict d) = py_eq v (PDict d').
Proof.
  intros Hp Hnd. destruct v as [| | | | |d1]; try reflexivity.
  rewrite !py_eq_dict. rewrite (Permutation_length Hp). f_equal.
  apply forallb_pointwise. intros [k x]. unfold item_in. simpl.
  now rewrite (assoc_permutation _ _ Hp Hnd).
Qed.

End PyFacts.

(** ** Computations and their traces *)

Module Traces.
Import Py Effects.
Local Open Scope list_scope.

(** No call of [d] satisfies [f]. *)
Definition none_of (f : call -> bool) (d : trace) : Prop :=
  forallb (fun c => negb (f c)) d = true.

Lemma none_of_app f d1 d2 : none_of f d1 -> none_of f d2 -> none_of f (d1 ++ d2).
Proof. unfold none_of. intros H1 H2. now rewrite forallb_app, H1, H2. Qed.

Lemma none_of_one f c : f c = false -> none_of f [c].
Proof. unfold none_of. simpl. now intros ->. Qed.

Lemma none_of_put_responses d : none_of is_put d -> responses d = [].
Proof.
  unfold none_of. induction d as [|c d IH]; simpl; [reflexivity|].
  intros H. apply andb_true_iff in H as [Hc Hd].
  destruct c; simpl in *; try discriminate; auto.
Qed.

Lemma responses_app d1 d2 : responses (d1 ++ d2) = (responses d1 ++ responses d2)%list.
Proof. unfold responses. apply flat_map_app. Qed.

Lemma first_raise_app w t d1 d2 :
  first_raise w t (d1 ++ d2) =
  match first_raise w t d1 with
  | Some x => Some x
  | None => first_raise w (t ++ d1) d2
  end.
Proof.
  revert t. induction d1 as [|c d1 IH]; intros t; simpl.
  - now rewrite app_nil_r.
  - destruct (is_put c).
    + rewrite IH. now rewrite <- app_assoc.
    + destruct (w t c); [reflexivity|]. rewrite IH. now rewrite <- app_assoc.
Qed.

(** A computation is [plain f] when it only appends to the trace, issues
    no call satisfying [f] and sends no response, and raises the exception
    of the first call the world answers with one: nothing in it catches an
    exception. *)
Definition plain (f : call -> bool) {A} (m : M A) : Prop :=
  forall w t, exists d r,
      m w t = (t ++ d, r)
      /\ none_of f d
      /\ none_of is_put d
      /\ (forall c e, first_raise w t d = Some (c, e) -> r = inl e).

Section Plain.
Variable f : call -> bool.

Lemma plain_ret {A} (a : A) : plain f (ret a).
Proof.
  intros w t. exists [], (inr a). unfold ret. rewrite app_nil_r.
  repeat split. discriminate.
Qed.

Lemma plain_raise {A} (e : exn) : plain f (@raise A e).
Proof.
  intros w t. exists [], (inl e). unfold raise. rewrite app_nil_r.
  repeat split. discriminate.
Qed.

Lemma plain_lift {A} (r : result A) : plain f (lift r).
Proof.
  intros w t. exists [], r. unfold lift. rewrite app_nil_r.
  repeat split. discriminate.
Qed.

Lemma plain_invoke (c : call) : f c = false -> is_put c = false -> plain f (invoke c).
Proof.
  intros Hf Hp w t. exists [c], (w t c). unfold invoke. repeat split.
  - now apply none_of_one.
  - now apply none_of_one.
  - intros c' e. simpl. rewrite Hp. destruct (w t c); congruence.
Qed.

Lemma plain_bind {A B} (m : M A) (k : A -> M B) :
  plain f m -> (forall a, plain f (k a)) -> plain f (bind m k).
Proof.
  intros Hm Hk w t. unfold bind.
  destruct (Hm w t) as (d1 & r1 & E1 & N1 & P1 & R1). rewrite E1.
  destruct r1 as [e|a].
  - exists d1, (inl e). repeat split; auto.
    intros c e0 F. specialize (R1 _ _ F). congruence.
  - destruct (Hk a w (t ++ d1)) as (d2 & r2 & E2 & N2 & P2 & R2). rewrite E2.
    exists (d1 ++ d2), r2. rewrite app_assoc. repeat split.
    + now apply none_of_app.
    + now apply none_of_app.
    + intros c e. rewrite first_raise_app.
      destruct (first_raise w t d1) as [[c1 e1]|] eqn:F1.
      * specialize (R1 _ _ eq_refl). discriminate.
      * apply R2.
Qed.

(** What a computation that ends in [cfn_send] leaves: either an
    exception and no response, or a value and exactly one response, sent
    last and satisfying [ok]. *)
Definition reports {A} (m : M A) (url : string) (ok : Response.body -> Prop) : Prop :=
  forall w t, exists d r,
      none_of f d
      /\ none_of is_put d
      /\ (forall c e, first_raise w t d = Some (c, e) -> r = inl e)
      /\ match r with
         | inl e => m w t = (t ++ d, inl e)
         | inr a => exists b, m w t = (t ++ d ++ [RequestsPut url b], inr a) /\ ok b
         end.

Lemma reports_raise {A} (e : exn) url ok : reports (@raise A e) url ok.
Proof.
  intros w t. exists [], (inl e). unfold raise. rewrite app_nil_r.
  repeat split. discriminate.
Qed.

Lemma reports_bind {A B} (m : M A) (k : A -> M B) url ok :
  plain f m -> (forall a, reports (k a) url ok) -> reports (bind m k) url ok.
Proof.
  intros Hm Hk w t. unfold bind.
  destruct (Hm w t) as (d1 & r1 & E1 & N1 & P1 & R1). rewrite E1.
  destruct r1 as [e|a].
  - exists d1, (inl e). repeat split; auto.
    intros c e0 F. specialize (R1 _ _ F). congruence.
  - destruct (Hk a w (t ++ d1)) as (d2 & r2 & N2 & P2 & R2 & E2).
    exists (d1 ++ d2), r2. repeat split.
    + now apply none_of_app.
    + now apply none_of_app.
    + intros c e. rewrite first_raise_app.
      destruct (first_raise w t d1) as [[c1 e1]|] eqn:F1.
      * specialize (R1 _ _ eq_refl). discriminate.
      * apply R2.
    + destruct r2 as [e|b].
      * now rewrite E2, app_assoc.
      * destruct E2 as (body & E2 & Hok). exists body.
        now rewrite E2, !app_assoc.
Qed.

End Plain.

(** Walk through a computation made of binds, calls and tests. *)
Ltac plain_steps :=
  repeat first
    [ apply plain_ret
    | apply plain_raise
    | apply plain_lift
    | apply plain_invoke; reflexivity
    | apply plain_bind; [|intros]
    | match goal with
      | |- plain _ (if ?b then _ else _) => destruct b
      | |- plain _ (match ?x with _ => _ end) => destruct x
      end ].

(** *** Computations that may catch

    The helm handlers raise the failure of a command again as an
    [Exception] holding its output, and ignore the failure of an
    uninstall. *)

(** [e'] is [e], or [Exception(e.output)] for a failed command [e]. *)
Definition reraised (e e' : exn) : Prop :=
  e' = e \/ exists msg output, e = CalledProcessError msg output /\ e' = ExceptionBytes output.

Section Passing.
Variable sw : call -> bool.

(** [passes m]: [m] only appends to the trace and sends no response; the
    first exception the world answers with is raised by [m], as it is or
    reraised, unless the call is one of [sw]. *)
Definition passes {A} (m : M A) : Prop :=
  forall w t, exists d r,
      m w t = (t ++ d, r)
      /\ none_of is_put d
      /\ (forall c e, first_raise w t d = Some (c, e) ->
                      (exists e', r = inl e' /\ reraised e e') \/ sw c = true).

Lemma passes_ret {A} (a : A) : passes (ret a).
Proof.
  intros w t. exists [], (inr a). unfold ret. rewrite app_nil_r.
  repeat split. discriminate.
Qed.

Lemma passes_lift {A} (r : result A) : passes (lift r).
Proof.
  intros w t. exists [], r. unfold lift. rewrite app_nil_r.
  repeat split. discriminate.
Qed.

Lemma passes_invoke (c : call) : is_put c = false -> passes (invoke c).
Proof.
  intros Hp w t. exists [c], (w t c). unfold invoke. repeat split.
  - now apply none_of_one.
  - intros c' e. simpl. rewrite Hp. destruct (w t c) as [e0|]; [|discriminate].
    intros [= <- <-]. left. exists e0. split; [reflexivity|now left].
Qed.

Lemma passes_bind {A B} (m : M A) (k : A -> M B) :
  passes m -> (forall a, passes (k a)) -> passes (bind m k).
Proof.
  intros Hm Hk w t. unfold bind.
  destruct (Hm w t) as (d1 & r1 & E1 & P1 & R1). rewrite E1.
  destruct r1 as [e|a].
  - exists d1, (inl e). repeat split; auto.
    intros c e0 F. destruct (R1 _ _ F) as [(e' & [= <-] & Hre)|Hsw]; eauto.
  - destruct (Hk a w (t ++ d1)) as (d2 & r2 & E2 & P2 & R2). rewrite E2.
    exists (d1 ++ d2), r2. rewrite app_assoc. repeat split.
    + now apply none_of_app.
    + intros c e. rewrite first_raise_app.
      destruct (first_raise w t d1) as [[c1 e1]|] eqn:F1.
      * intros [= <- <-]. destruct (R1 _ _ eq_refl) as [(e' & E & _)|Hsw]; [discriminate|].
        now right.
      * apply R2.
Qed.

(** What a computation that ends in a response leaves: an exception and
    no response, or a value and exactly one response, sent last and
    satisfying [ok]. *)
Definition settles {A} (m : M A) (url : string) (ok : Response.body -> Prop) : Prop :=
  forall w t, exists d r,
      none_of is_put d
      /\ (forall c e, first_raise w t d = Some (c, e) ->
                      (exists e', r = inl e' /\ reraised e e') \/ sw c = true)
      /\ match r with
         | inl e => m w t = (t ++ d, inl e)
         | inr a => exists b, m w t = (t ++ d ++ [RequestsPut url b], inr a) /\ ok b
         end.

Lemma settles_bind {A B} (m : M A) (k : A -> M B) url ok :
  passes m -> (forall a, settles (k a) url ok) -> settles (bind m k) url ok.
Proof.
  intros Hm Hk w t. unfold bind.
  destruct (Hm w t) as (d1 & r1 & E1 & P1 & R1). rewrite E1.
  destruct r1 as [e|a].
  - exists d1, (inl e). repeat split; auto.
    intros c e0 F. destruct (R1 _ _ F) as [(e' & [= <-] & Hre)|Hsw]; eauto.
  - destruct (Hk a w (t ++ d1)) as (d2 & r2 & P2 & R2 & E2).
    exists (d1 ++ d2), r2. repeat split.
    + now apply none_of_app.
    + intros c e. rewrite first_raise_app.
      destruct (first_raise w t d1) as [[c1 e1]|] eqn:F1.
      * intros [= <- <-]. destruct (R1 _ _ eq_refl) as [(e' & E & _)|Hsw]; [discriminate|].
        now right.
      * apply R2.
    + destruct r2 as [e|b].
      * now rewrite E2, app_assoc.
      * destruct E2 as (body & E2 & Hok). exists body. now rewrite E2, !app_assoc.
Qed.

End Passing.

End Traces.

(** ** The cluster handler *)

Module ClusterResourceSpec.
Import Py Effects ClusterResource PyFacts Traces.
Local Open Scope list_scope.

(** Two configurations agree on every field but [field], by Python's
    equality. *)
Definition equal_except (field : string) (old new : dict) : Prop :=
  forall k, k <> field -> py_eq (dict_get old k) (dict_get new k) = true.

(** The name the handler settles on is never [None]. *)
Lemma determine_cluster_name_not_none request_type request_id physical_id config name :
  determine_cluster_name request_type request_id physical_id config = inr name ->
  is_none name = false.
Proof.
  unfold determine_cluster_name.
  destruct (is_none (dict_get config "name")) eqn:E1.
  - destruct (truthy physical_id) eqn:E2.
    + intros [= <-]. destruct physical_id; simpl in *; congruence.
    + destruct (String.eqb request_type "Create"); [intros [= <-]; reflexivity | discriminate].
  - now intros [= <-].
Qed.

(** Without a name in the configuration, the name is the physical id when
    there is one. *)
Lemma determine_cluster_name_physical_id request_type request_id p config :
  is_none (dict_get config "name") = true ->
  p <> "" ->
  determine_cluster_name request_type request_id (PStr p) config = inr (PStr p).
Proof.
  intros Hn Hp. unfold determine_cluster_name. rewrite Hn. simpl.
  destruct (String.eqb_spec p ""); [contradiction | reflexivity].
Qed.

(** What [should_replace_cluster] returns on an old configuration that is
    a mapping. *)
Lemma should_replace_cluster_eq physical_id cluster_name old_config vpc role :
  should_replace_cluster physical_id cluster_name (PDict old_config) vpc role
  = inr (py_ne physical_id cluster_name
         || py_ne (dict_get old_config "resourcesVpcConfig") vpc
         || py_ne (dict_get old_config "roleArn") role).
Proof.
  unfold should_replace_cluster. simpl. fold (dict_get old_config "resourcesVpcConfig").
  fold (dict_get old_config "roleArn").
  destruct (py_ne physical_id cluster_name); simpl; [reflexivity|].
  destruct (py_ne (dict_get old_config "resourcesVpcConfig") vpc); simpl; [reflexivity|].
  destruct (py_ne (dict_get old_config "roleArn") role); reflexivity.
Qed.

(** The response [cfn_send] builds. *)
Definition sent (event : Event.event) (ctx : context) (status : string) (data : dict)
    (physicalResourceId : pyval) (reason : option string) : Response.body :=
  {| Response.Status := status;
     Response.Reason := reason_or_default ctx reason;
     Response.PhysicalResourceId :=
       py_or physicalResourceId
         (match Event.PhysicalResourceId event with
          | Some p => PStr p
          | None => PStr (log_stream_name ctx)
          end);
     Response.StackId := Event.StackId event;
     Response.RequestId := Event.RequestId event;
     Response.LogicalResourceId := Event.LogicalResourceId event;
     Response.NoEcho := false;
     Response.Data := data |}.

(** [cfn_send] sends its response and returns, whatever the transport
    does. *)
Lemma cfn_send_run event ctx status data pid reason w t :
  cfn_send event ctx status data pid reason w t
  = (t ++ [RequestsPut (Event.ResponseURL event) (sent event ctx status data pid reason)],
     inr tt).
Proof.
  unfold cfn_send, try_except, bind, invoke, ret. fold (sent event ctx status data pid reason).
  destruct (w t _); reflexivity.
Qed.

Lemma cfn_send_reports f event ctx status data pid reason (ok : Response.body -> Prop) :
  ok (sent event ctx status data pid reason) ->
  reports f (cfn_send event ctx status data pid reason) (Event.ResponseURL event) ok.
Proof.
  intros Hok w t. exists [], (inr tt).
  split; [reflexivity|]. split; [reflexivity|]. split; [discriminate|].
  exists (sent event ctx status data pid reason). now rewrite cfn_send_run.
Qed.

(** The requests the handler gets past its first lines with: the
    properties hold a [Config] mapping, the old properties are a mapping,
    and a cluster name can be settled on. *)
Record Classified (event : Event.event) (config : dict) (old_config cluster_name : pyval)
  : Prop := {
  classified_config :
    getitem (Event.ResourceProperties event) "Config" = inr (PDict config);
  classified_old_config :
    get (old_props event) "Config" (PDict []) = inr old_config;
  classified_name :
    determine_cluster_name (Event.RequestType event) (Event.RequestId event)
      (of_option (Event.PhysicalResourceId event)) config = inr cluster_name
}.

Lemma handler_body_classified event ctx config old_config cluster_name :
  Classified event config old_config cluster_name ->
  handler_body event ctx
  = reconcile event ctx (of_option (Event.PhysicalResourceId event)) cluster_name
      (dict_set config "name" cluster_name) old_config.
Proof.
  intros [Hc Ho Hn]. unfold handler_body, bind, lift. rewrite Hc, Ho, Hn. reflexivity.
Qed.

(** [update] catches nothing and sends nothing. *)
Lemma update_plain f request_id physical_id cluster_name config old_config vpc role version :
  f (EksDescribeCluster physical_id) = false ->
  (forall c, f (EksCreateCluster c) = false) ->
  (forall n v, f (EksUpdateClusterVersion n v) = false) ->
  plain f (update request_id physical_id cluster_name config old_config vpc role version).
Proof.
  intros Hd Hc Hu. unfold update.
  repeat first
    [ apply plain_invoke; [auto | reflexivity]
    | progress plain_steps ].
Qed.

(** The end of every path but Delete: wait, describe, respond. *)
Lemma converge_reports f event ctx (m : M pyval) :
  plain f m ->
  (forall n d k, f (EksWaitClusterActive n d k) = false) ->
  (forall n, f (EksDescribeCluster n) = false) ->
  reports f
    (bind m (fun cluster_name =>
       bind (invoke (EksWaitClusterActive cluster_name 30 26)) (fun _ =>
       bind (invoke (EksDescribeCluster cluster_name)) (fun resp =>
       bind (lift (attributes resp)) (fun attrs =>
       cfn_send event ctx CFN_SUCCESS attrs cluster_name None)))))
    (Event.ResponseURL event)
    (fun b => Response.Status b = CFN_SUCCESS).
Proof.
  intros Hm Hw Hd.
  apply reports_bind; [assumption|intros name].
  apply reports_bind; [apply plain_invoke; [apply Hw|reflexivity]|intros _].
  apply reports_bind; [apply plain_invoke; [apply Hd|reflexivity]|intros resp].
  apply reports_bind; [apply plain_lift|intros attrs].
  now apply cfn_send_reports.
Qed.


(** From the body to the handler: the response is sent last; it is the
    body's SUCCESS response, or the FAILED response [cfn_error] makes of
    the exception the body raised. *)
Lemma handler_reports f event ctx ok :
  reports f (handler_body event ctx) (Event.ResponseURL event) ok ->
  forall w, exists d b,
      run w event ctx = d ++ [RequestsPut (Event.ResponseURL event) b]
      /\ none_of f d
      /\ none_of is_put d
      /\ (forall c e, first_raise w [] d = Some (c, e) ->
                      snd (handler_body event ctx w []) = inl e)
      /\ match snd (handler_body event ctx w []) with
         | inl e => b = sent event ctx CFN_FAILED [] PNone (Some (exn_str e))
         | inr _ => ok b
         end.
Proof.
  intros H w. destruct (H w []) as (d & r & N & P & R & E).
  unfold run, handler, try_except. destruct r as [e|[]].
  - rewrite E. simpl. unfold cfn_error. rewrite cfn_send_run. simpl.
    exists d, (sent event ctx CFN_FAILED [] PNone (Some (exn_str e))). auto.
  - destruct E as (b & E & Hok). rewrite E. simpl.
    exists d, b. auto.
Qed.

(** C1 (as amended).  On an Update whose old configuration is a mapping,
    [should_replace_cluster] answers, and answers "replace" exactly when
    the resolved cluster name differs from the old physical id, or the old
    and new [resourcesVpcConfig] differ, or the old and new [roleArn]
    differ, by [!=] of Python.  In particular, when the old and new
    configurations agree on every field but [version] and the resolved name
    equals the old physical id, no replacement is required; the resolved
    name equals the physical id as soon as the configuration names no
    cluster.  The key order of the old and of the new [resourcesVpcConfig]
    mapping does not change the answer. *)
Theorem should_replace_cluster_decision :
  (forall physical_id cluster_name old_config vpc role,
      exists required,
        should_replace_cluster physical_id cluster_name (PDict old_config) vpc role
        = inr required
        /\ (required = true <->
            py_ne physical_id cluster_name = true
            \/ py_ne (dict_get old_config "resourcesVpcConfig") vpc = true
            \/ py_ne (dict_get old_config "roleArn") role = true))
  /\ (forall request_id physical_id old_config config cluster_name,
         equal_except "version" old_config config ->
         determine_cluster_name "Update" request_id physical_id config = inr cluster_name ->
         py_eq physical_id cluster_name = true ->
         should_replace_cluster physical_id cluster_name (PDict old_config)
           (dict_get (dict_set config "name" cluster_name) "resourcesVpcConfig")
           (dict_get (dict_set config "name" cluster_name) "roleArn")
         = inr false)
  /\ (forall request_id p old_config config,
         equal_except "version" old_config config ->
         is_none (dict_get config "name") = true ->
         p <> "" ->
         determine_cluster_name "Update" request_id (PStr p) config = inr (PStr p)
         /\ should_replace_cluster (PStr p) (PStr p) (PDict old_config)
              (dict_get (dict_set config "name" (PStr p)) "resourcesVpcConfig")
              (dict_get (dict_set config "name" (PStr p)) "roleArn")
            = inr false)
  /\ (forall physical_id cluster_name old_config old_vpc old_vpc' vpc vpc' role,
         Permutation old_vpc old_vpc' ->
         Permutation vpc vpc' ->
         NoDup (keys vpc) ->
         should_replace_cluster physical_id cluster_name
           (PDict (dict_set old_config "resourcesVpcConfig" (PDict old_vpc))) (PDict vpc) role
         = should_replace_cluster physical_id cluster_name
             (PDict (dict_set old_config "resourcesVpcConfig" (PDict old_vpc')))
             (PDict vpc') role).
Proof.
  assert (particular : forall physical_id old_config config cluster_name,
             equal_except "version" old_config config ->
             py_eq physical_id cluster_name = true ->
             should_replace_cluster physical_id cluster_name (PDict old_config)
               (dict_get (dict_set config "name" cluster_name) "resourcesVpcConfig")
               (dict_get (dict_set config "name" cluster_name) "roleArn")
             = inr false).
  { intros physical_id old_config config cluster_name Heq Hname.
    rewrite should_replace_cluster_eq.
    rewrite !dict_get_set_other by discriminate.
    unfold py_ne. rewrite Hname.
    rewrite (Heq "resourcesVpcConfig") by discriminate.
    rewrite (Heq "roleArn") by discriminate.
    reflexivity. }
  split; [|split; [|split]].
  - intros. eexists. split; [apply should_replace_cluster_eq|].
    rewrite !orb_true_iff. tauto.
  - intros request_id physical_id old_config config cluster_name Heq _ Hname.
    now apply particular.
  - intros request_id p old_config config Heq Hnone Hp. split.
    + now apply determine_cluster_name_physical_id.
    + apply particular; [assumption|]. simpl. apply String.eqb_refl.
  - intros physical_id cluster_name old_config old_vpc old_vpc' vpc vpc' role Hold Hnew Hnd.
    rewrite !should_replace_cluster_eq, !dict_get_set_same.
    rewrite !dict_get_set_other by discriminate.
    unfold py_ne.
    rewrite (py_eq_permutation_l _ _ _ Hold), (py_eq_permutation_r _ _ _ Hnew Hnd).
    reflexivity.
Qed.

Lemma version_change_equal_except :
  equal_except "version"
    (Scenarios.cluster_config None "arn:aws:iam::1:role/eks" (Some "1.20"))
    (Scenarios.cluster_config None "arn:aws:iam::1:role/eks" (Some "1.21")).
Proof.
  intros k Hk. unfold dict_get, dict_get_default. simpl.
  destruct (String.eqb k "roleArn"); [reflexivity|].
  destruct (String.eqb k "resourcesVpcConfig"); [reflexivity|].
  destruct (String.eqb_spec k "version"); [contradiction|reflexivity].
Defined.

(** Scenario C at the evaluator: only the version changes and the cluster
    goes by its physical id, so no replacement. *)
Lemma should_replace_cluster_decision_witness :
  determine_cluster_name "Update" "req-43" (PStr "prod")
    (Scenarios.cluster_config None "arn:aws:iam::1:role/eks" (Some "1.21"))
  = inr (PStr "prod")
  /\ should_replace_cluster (PStr "prod") (PStr "prod")
       (PDict (Scenarios.cluster_config None "arn:aws:iam::1:role/eks" (Some "1.20")))
       (dict_get (dict_set (Scenarios.cluster_config None "arn:aws:iam::1:role/eks" (Some "1.21"))
                           "name" (PStr "prod")) "resourcesVpcConfig")
       (dict_get (dict_set (Scenarios.cluster_config None "arn:aws:iam::1:role/eks" (Some "1.21"))
                           "name" (PStr "prod")) "roleArn")
     = inr false.
Proof.
  apply (proj1 (proj2 (proj2 should_replace_cluster_decision)) "req-43" "prod").
  - exact version_change_equal_except.
  - reflexivity.
  - discriminate.
Defined.

(** C1, the claim as first stated, fails: the old and the new
    configuration differ in [version] only, both name the cluster "prod",
    but an earlier replacement left the physical id "cluster-req-42"; the
    evaluator asks for a replacement and the handler creates a cluster. *)
Lemma version_change_renamed_replaces :
  (forall k, k <> "version" ->
     assoc k (Scenarios.cluster_config (Some "prod") "arn:aws:iam::1:role/eks" (Some "1.20"))
     = assoc k (Scenarios.cluster_config (Some "prod") "arn:aws:iam::1:role/eks" (Some "1.21")))
  /\ determine_cluster_name "Update" "req-46" (PStr "cluster-req-42")
       (Scenarios.cluster_config (Some "prod") "arn:aws:iam::1:role/eks" (Some "1.21"))
     = inr (PStr "prod")
  /\ should_replace_cluster (PStr "cluster-req-42") (PStr "prod")
       (PDict (Scenarios.cluster_config (Some "prod") "arn:aws:iam::1:role/eks" (Some "1.20")))
       (dict_get (Scenarios.cluster_config (Some "prod") "arn:aws:iam::1:role/eks" (Some "1.21"))
                 "resourcesVpcConfig")
       (dict_get (Scenarios.cluster_config (Some "prod") "arn:aws:iam::1:role/eks" (Some "1.21"))
                 "roleArn")
     = inr true
  /\ map is_create (run (Scenarios.cooperative "1.20") Scenarios.version_change_renamed
                        Scenarios.ctx)
     = [false; true; false; false; false].
Proof.
  split; [|repeat split].
  intros k Hk. simpl.
  destruct (String.eqb k "name"); [reflexivity|].
  destruct (String.eqb k "roleArn"); [reflexivity|].
  destruct (String.eqb k "resourcesVpcConfig"); [reflexivity|].
  destruct (String.eqb_spec k "version"); [contradiction|reflexivity].
Qed.

(** *** Running the handler on a classified request *)

Lemma run_classified w event ctx config old_config cluster_name :
  Classified event config old_config cluster_name ->
  run w event ctx
  = fst (try_except
           (reconcile event ctx (of_option (Event.PhysicalResourceId event)) cluster_name
                      (dict_set config "name" cluster_name) old_config)
           (fun e => cfn_error event ctx (exn_str e)) w []).
Proof.
  intros H. unfold run, handler. now rewrite (handler_body_classified _ ctx _ _ _ H).
Qed.

(** The physical id of a response sent with the request's own id. *)
Lemma sent_physical_id_same event ctx status data p reason :
  Event.PhysicalResourceId event = Some p ->
  Response.PhysicalResourceId (sent event ctx status data (PStr p) reason) = PStr p.
Proof. intros H. simpl. rewrite H. unfold py_or. now destruct (truthy _). Qed.

(** The physical id of a response sent without one. *)
Lemma sent_physical_id_default event ctx status data p reason :
  Event.PhysicalResourceId event = Some p ->
  Response.PhysicalResourceId (sent event ctx status data PNone reason) = PStr p.
Proof. intros H. simpl. now rewrite H. Qed.

(** When no replacement is required, the request has a physical id and
    the cluster goes by it. *)
Lemma no_replacement_name event config old_config cluster_name vpc role :
  Classified event config old_config cluster_name ->
  should_replace_cluster (of_option (Event.PhysicalResourceId event)) cluster_name
    old_config vpc role = inr false ->
  exists p, Event.PhysicalResourceId event = Some p /\ cluster_name = PStr p.
Proof.
  intros [_ _ Hn] Hr. apply determine_cluster_name_not_none in Hn.
  unfold should_replace_cluster in Hr.
  destruct (py_ne _ cluster_name) eqn:E; [discriminate|].
  apply py_ne_false in E.
  destruct (Event.PhysicalResourceId event) as [p|]; simpl in E.
  - exists p. split; [reflexivity|]. destruct cluster_name; try discriminate.
    apply String.eqb_eq in E. now subst.
  - destruct cluster_name; discriminate.
Qed.

(** C9.  A Create request without a name in its configuration and
    without a physical id gets the cluster name ["cluster-" ++ RequestId]:
    the handler settles on it, and creates the cluster under it first of
    all, whatever the world; so two such requests with the same request id
    get the same name, whatever else they hold. *)
Theorem create_name_from_request_id :
  forall event config old_config,
    Event.RequestType event = "Create" ->
    truthy (of_option (Event.PhysicalResourceId event)) = false ->
    getitem (Event.ResourceProperties event) "Config" = inr (PDict config) ->
    get (old_props event) "Config" (PDict []) = inr old_config ->
    is_none (dict_get config "name") = true ->
    determine_cluster_name (Event.RequestType event) (Event.RequestId event)
      (of_option (Event.PhysicalResourceId event)) config
    = inr (PStr ("cluster-" ++ Event.RequestId event)%string)
    /\ (forall w ctx, exists t,
           run w event ctx
           = EksCreateCluster
               (dict_set config "name" (PStr ("cluster-" ++ Event.RequestId event)%string))
             :: t)
    /\ (forall event' config',
           Event.RequestType event' = "Create" ->
           truthy (of_option (Event.PhysicalResourceId event')) = false ->
           is_none (dict_get config' "name") = true ->
           Event.RequestId event' = Event.RequestId event ->
           determine_cluster_name (Event.RequestType event') (Event.RequestId event')
             (of_option (Event.PhysicalResourceId event')) config'
           = determine_cluster_name (Event.RequestType event) (Event.RequestId event)
               (of_option (Event.PhysicalResourceId event)) config).
Proof.
  intros event config old_config Hty Hp Hc Ho Hn.
  assert (Hname : forall ev cfg,
             Event.RequestType ev = "Create" ->
             truthy (of_option (Event.PhysicalResourceId ev)) = false ->
             is_none (dict_get cfg "name") = true ->
             determine_cluster_name (Event.RequestType ev) (Event.RequestId ev)
               (of_option (Event.PhysicalResourceId ev)) cfg
             = inr (PStr ("cluster-" ++ Event.RequestId ev)%string)).
  { intros ev cfg H1 H2 H3. unfold determine_cluster_name. now rewrite H3, H2, H1. }
  split; [now apply Hname|split].
  - intros w ctx.
    rewrite (run_classified w event ctx config old_config
               (PStr ("cluster-" ++ Event.RequestId event)%string))
      by (constructor; auto).
    unfold try_except, reconcile. rewrite Hty. simpl.
    unfold cfn_error, cfn_send, try_except, bind, invoke, lift, ret.
    repeat match goal with
           | |- context [match ?x with _ => _ end] =>
               lazymatch x with
               | context [match _ with _ => _ end] => fail
               | _ => destruct x
               end
           end; simpl; eexists; reflexivity.
  - intros event' config' H1 H2 H3 H4. rewrite !Hname by assumption. now rewrite H4.
Qed.

Lemma create_name_from_request_id_witness :
  exists t,
    run (Scenarios.cooperative "1.20") Scenarios.create_unnamed Scenarios.ctx
    = EksCreateCluster
        (dict_set (Scenarios.cluster_config None "arn:aws:iam::1:role/eks" (Some "1.20"))
                  "name" (PStr "cluster-req-41"))
      :: t.
Proof.
  apply (proj1 (proj2 (create_name_from_request_id Scenarios.create_unnamed
                         (Scenarios.cluster_config None "arn:aws:iam::1:role/eks" (Some "1.20"))
                         (PDict []) eq_refl eq_refl eq_refl eq_refl eq_refl))).
Defined.

Lemma plain_bind_value f {A B} (a : A) (k : A -> M B) :
  plain f (k a) -> plain f (bind (lift (inr a)) k).
Proof. intros H w t. exact (H w t). Qed.

Lemma none_of_run f w event ctx ok :
  reports f (handler_body event ctx) (Event.ResponseURL event) ok ->
  (forall url b, f (RequestsPut url b) = false) ->
  none_of f (run w event ctx).
Proof.
  intros H Hf. destruct (handler_reports f event ctx ok H w) as (d & b & E & N & _).
  rewrite E. apply none_of_app; [assumption|]. apply none_of_one, Hf.
Qed.

(** *** Update requests *)

Section Update.

Variables (event : Event.event) (ctx : context).
Variables (config old_config : dict) (cluster_name : pyval).

Hypothesis request_is_update : Event.RequestType event = "Update".
Hypothesis request_classified : Classified event config (PDict old_config) cluster_name.

(** The configuration once the name is written into it (line 58). *)
Let named : dict := dict_set config "name" cluster_name.
Let physical_id : pyval := of_option (Event.PhysicalResourceId event).
Let url : string := Event.ResponseURL event.

Lemma update_run w :
  run w event ctx
  = fst (try_except
           (bind (update (Event.RequestId event) physical_id cluster_name named
                         (PDict old_config) (dict_get named "resourcesVpcConfig")
                         (dict_get named "roleArn") (dict_get named "version"))
              (fun cluster_name =>
                 bind (invoke (EksWaitClusterActive cluster_name 30 26)) (fun _ =>
                 bind (invoke (EksDescribeCluster cluster_name)) (fun resp =>
                 bind (lift (attributes resp)) (fun attrs =>
                 cfn_send event ctx CFN_SUCCESS attrs cluster_name None)))))
           (fun e => cfn_error event ctx (exn_str e)) w []).
Proof.
  rewrite (run_classified _ _ _ _ _ _ request_classified).
  unfold reconcile. rewrite request_is_update. reflexivity.
Qed.

(** An Update deletes nothing, in any world. *)
Lemma update_never_deletes w : none_of is_delete (run w event ctx).
Proof.
  apply none_of_run with (ok := fun b => Response.Status b = CFN_SUCCESS); [|reflexivity].
  rewrite (handler_body_classified _ ctx _ _ _ request_classified).
  unfold reconcile. rewrite request_is_update. simpl.
  apply converge_reports; try reflexivity.
  now apply update_plain.
Qed.

Section Replacement.

Hypothesis replacement_required :
  should_replace_cluster physical_id cluster_name (PDict old_config)
    (dict_get named "resourcesVpcConfig") (dict_get named "roleArn") = inr true.
Hypothesis name_is_physical_id : py_eq cluster_name physical_id = true.

Lemma replacement_run w described current created waited resp attrs :
  let new_name := PStr ("cluster-" ++ Event.RequestId event)%string in
  let replacement := dict_set named "name" new_name in
  w [] (EksDescribeCluster physical_id) = inr described ->
  getitem described "cluster" = inr current ->
  w [EksDescribeCluster physical_id] (EksCreateCluster replacement) = inr created ->
  w [EksDescribeCluster physical_id; EksCreateCluster replacement]
    (EksWaitClusterActive new_name 30 26) = inr waited ->
  w [EksDescribeCluster physical_id; EksCreateCluster replacement;
     EksWaitClusterActive new_name 30 26]
    (EksDescribeCluster new_name) = inr resp ->
  attributes resp = inr attrs ->
  run w event ctx
  = [EksDescribeCluster physical_id; EksCreateCluster replacement;
     EksWaitClusterActive new_name 30 26; EksDescribeCluster new_name;
     RequestsPut url (sent event ctx CFN_SUCCESS attrs new_name None)].
Proof.
  intros new_name replacement H1 H2 H3 H4 H5 H6.
  rewrite update_run.
  unfold try_except, update, bind, lift, invoke, ret. simpl.
  rewrite H1, H2, replacement_required, name_is_physical_id. simpl.
  unfold new_cluster_name. fold new_name. fold replacement.
  rewrite H3. simpl. rewrite H4. simpl.
  rewrite H5, H6. rewrite cfn_send_run. reflexivity.
Qed.

(** C2 (as amended).  An Update that requires a replacement while the
    cluster goes by its physical id: the new name is ["cluster-" ++
    RequestId], made of the request id and not of the old name; the
    handler creates a cluster of that name from the new configuration and,
    in a world where the calls succeed, answers SUCCESS with the new name as
    physical id.  No Update deletes a cluster, in any world. *)
Theorem replacement_creates_new_cluster :
  let new_name := PStr ("cluster-" ++ Event.RequestId event)%string in
  let replacement := dict_set named "name" new_name in
  (forall w, none_of is_delete (run w event ctx))
  /\ (forall w described current created waited resp attrs,
         w [] (EksDescribeCluster physical_id) = inr described ->
         getitem described "cluster" = inr current ->
         w [EksDescribeCluster physical_id] (EksCreateCluster replacement) = inr created ->
         w [EksDescribeCluster physical_id; EksCreateCluster replacement]
           (EksWaitClusterActive new_name 30 26) = inr waited ->
         w [EksDescribeCluster physical_id; EksCreateCluster replacement;
            EksWaitClusterActive new_name 30 26]
           (EksDescribeCluster new_name) = inr resp ->
         attributes resp = inr attrs ->
         exists body,
           run w event ctx
           = [EksDescribeCluster physical_id; EksCreateCluster replacement;
              EksWaitClusterActive new_name 30 26; EksDescribeCluster new_name;
              RequestsPut url body]
           /\ Response.Status body = "SUCCESS"%string
           /\ Response.PhysicalResourceId body = new_name
           /\ Response.Data body = attrs).
Proof.
  intros new_name replacement. split; [exact update_never_deletes|].
  intros w described current created waited resp attrs H1 H2 H3 H4 H5 H6.
  exists (sent event ctx CFN_SUCCESS attrs new_name None).
  split; [now apply replacement_run with described current created waited resp|].
  repeat split.
Qed.

End Replacement.

Section InPlace.

Hypothesis no_replacement :
  should_replace_cluster physical_id cluster_name (PDict old_config)
    (dict_get named "resourcesVpcConfig") (dict_get named "roleArn") = inr false.

Lemma in_place_never_creates w : none_of is_create (run w event ctx).
Proof.
  apply none_of_run with (ok := fun b => Response.Status b = CFN_SUCCESS); [|reflexivity].
  rewrite (handler_body_classified _ ctx _ _ _ request_classified).
  unfold reconcile. rewrite request_is_update. simpl.
  apply converge_reports; try reflexivity.
  unfold update.
  apply plain_bind; [now apply plain_invoke|intros described].
  apply plain_bind; [apply plain_lift|intros current].
  fold named. fold physical_id. rewrite no_replacement.
  apply plain_bind_value. plain_steps.
Qed.

Lemma in_place_physical_id :
  exists p, Event.PhysicalResourceId event = Some p /\ cluster_name = PStr p.
Proof. exact (no_replacement_name _ _ _ _ _ _ request_classified no_replacement). Qed.

Lemma named_version : dict_get named "version" = dict_get config "version".
Proof. unfold named. now rewrite dict_get_set_other by discriminate. Qed.

Lemma in_place_name : cluster_name = physical_id /\ is_none physical_id = false.
Proof.
  destruct in_place_physical_id as (p & Hp & Hname).
  unfold physical_id. rewrite Hp, Hname. now split.
Qed.

Lemma sent_physical_id status data reason :
  Response.PhysicalResourceId (sent event ctx status data physical_id reason) = physical_id
  /\ Response.PhysicalResourceId (sent event ctx status data PNone reason) = physical_id.
Proof.
  destruct in_place_physical_id as (p & Hp & _). unfold physical_id. rewrite Hp.
  split; [now apply sent_physical_id_same | now apply sent_physical_id_default].
Qed.

(** C5.  An Update that requires no replacement, whose old configuration
    pins a version and whose new one has none, while the cluster runs some
    version (so the wanted version, [None], differs from it): after the
    describe call the handler raises, and the one response is FAILED, with
    the reason "Version cannot be changed ... to undefined" and the physical
    id of the request.  Nothing else is called: no update, no create. *)
Theorem version_unset_rejected :
  forall w described current actual,
    is_none (dict_get old_config "version") = false ->
    is_none (dict_get config "version") = true ->
    w [] (EksDescribeCluster physical_id) = inr described ->
    getitem described "cluster" = inr current ->
    getitem current "version" = inr actual ->
    py_ne (dict_get config "version") actual = true ->
    exists body,
      run w event ctx = [EksDescribeCluster physical_id; RequestsPut url body]
      /\ Response.Status body = "FAILED"%string
      /\ Response.Reason body
         = ("Version cannot be changed from a specific value ("
            ++ py_str (dict_get old_config "version") ++ ") to undefined")%string
      /\ Response.PhysicalResourceId body = physical_id
      /\ is_none physical_id = false.
Proof.
  intros w described current actual Hold Hnew H1 H2 H3 Hne.
  eexists. split.
  - rewrite update_run.
    unfold try_except, update, bind, lift, invoke, ret, raise. simpl.
    rewrite H1, H2, no_replacement. simpl.
    fold (dict_get old_config "version"). rewrite named_version, Hold, Hnew. simpl.
    rewrite H3, Hne. simpl.
    unfold cfn_error. rewrite cfn_send_run. reflexivity.
  - split; [reflexivity|]. split; [reflexivity|].
    split; [apply sent_physical_id | apply in_place_name].
Qed.

(** The trace of an Update in place: [calls] are the EKS calls between the
    first describe and the wait. *)
Definition in_place_trace (name : pyval) (calls : trace) (body : Response.body) : trace :=
  [EksDescribeCluster name] ++ calls
  ++ [EksWaitClusterActive name 30 26; EksDescribeCluster name; RequestsPut url body].

(** C7 (as amended).  An Update that requires no replacement has a
    physical id, under which the cluster goes, and never creates a cluster,
    in any world.  The version the handler compares the wanted one with is
    the one the cluster runs, as [describe_cluster] reports it, not the one
    of the old configuration: when the wanted version is set and differs
    from it, the handler calls [update_cluster_version], and nothing else,
    before it waits; when neither configuration has a version, or the
    wanted version is the one the cluster runs, it calls nothing before it
    waits.  In both cases, in a world where the calls succeed, the response
    is SUCCESS with the physical id of the request. *)
Theorem update_in_place :
  (cluster_name = physical_id /\ is_none physical_id = false)
  /\ (forall w, none_of is_create (run w event ctx))
  /\ (forall w described current actual updated waited resp attrs,
         let version := dict_get config "version" in
         w [] (EksDescribeCluster physical_id) = inr described ->
         getitem described "cluster" = inr current ->
         getitem current "version" = inr actual ->
         is_none version = false ->
         py_ne version actual = true ->
         w [EksDescribeCluster physical_id] (EksUpdateClusterVersion physical_id version)
         = inr updated ->
         w [EksDescribeCluster physical_id; EksUpdateClusterVersion physical_id version]
           (EksWaitClusterActive physical_id 30 26) = inr waited ->
         w [EksDescribeCluster physical_id; EksUpdateClusterVersion physical_id version;
            EksWaitClusterActive physical_id 30 26]
           (EksDescribeCluster physical_id) = inr resp ->
         attributes resp = inr attrs ->
         exists body,
           run w event ctx
           = in_place_trace physical_id [EksUpdateClusterVersion physical_id version] body
           /\ Response.Status body = "SUCCESS"%string
           /\ Response.PhysicalResourceId body = physical_id
           /\ Response.Data body = attrs)
  /\ (forall w described current waited resp attrs,
         let version := dict_get config "version" in
         w [] (EksDescribeCluster physical_id) = inr described ->
         getitem described "cluster" = inr current ->
         (is_none (dict_get old_config "version") = true /\ is_none version = true)
         \/ (exists actual,
                getitem current "version" = inr actual /\ py_ne version actual = false) ->
         w [EksDescribeCluster physical_id] (EksWaitClusterActive physical_id 30 26)
         = inr waited ->
         w [EksDescribeCluster physical_id; EksWaitClusterActive physical_id 30 26]
           (EksDescribeCluster physical_id) = inr resp ->
         attributes resp = inr attrs ->
         exists body,
           run w event ctx = in_place_trace physical_id [] body
           /\ Response.Status body = "SUCCESS"%string
           /\ Response.PhysicalResourceId body = physical_id
           /\ Response.Data body = attrs).
Proof.
  destruct in_place_name as [Hname Hpid].
  split; [now split|]. split; [exact in_place_never_creates|].
  split.
  - intros w described current actual updated waited resp attrs version
           H1 H2 H3 Hset Hne H4 H5 H6 H7.
    exists (sent event ctx CFN_SUCCESS attrs physical_id None).
    split; [|repeat split; apply sent_physical_id].
    rewrite update_run.
    unfold try_except, update, bind, lift, invoke, ret, raise. simpl.
    rewrite H1, H2, no_replacement. simpl.
    fold (dict_get old_config "version"). rewrite named_version. fold version.
    rewrite Hset, andb_false_r, H3, Hne, Hname. simpl.
    rewrite H4. simpl. rewrite H5. simpl. rewrite H6, H7.
    rewrite cfn_send_run. reflexivity.
  - intros w described current waited resp attrs version H1 H2 Hsame H4 H5 H6.
    exists (sent event ctx CFN_SUCCESS attrs physical_id None).
    split; [|repeat split; apply sent_physical_id].
    rewrite update_run.
    unfold try_except, update, bind, lift, invoke, ret, raise. simpl.
    rewrite H1, H2, no_replacement. simpl.
    fold (dict_get old_config "version"). rewrite named_version. fold version.
    destruct Hsame as [[Ho Hv]|(actual & H3 & Hv)].
    + rewrite Ho, Hv, Hname. simpl. rewrite H4. simpl. rewrite H5, H6.
      rewrite cfn_send_run. reflexivity.
    + destruct (is_none (dict_get old_config "version") && is_none version);
        [|rewrite H3, Hv]; rewrite Hname; simpl; rewrite H4; simpl; rewrite H5, H6;
        rewrite cfn_send_run; reflexivity.
Qed.

End InPlace.
End Update.

(** *** The scenarios of the specification *)

Lemma classified_scenario request_type request_id p config old_config :
  is_none (dict_get config "name") = true ->
  p <> ""%string ->
  Classified
    (Scenarios.cluster_request request_type request_id (Some p) config (Some old_config))
    config (PDict old_config) (PStr p).
Proof.
  intros Hn Hp. constructor; try reflexivity.
  simpl. now apply determine_cluster_name_physical_id.
Defined.

(** Scenario B: the role changes; the new cluster is "cluster-req-42". *)
Lemma replacement_creates_new_cluster_witness :
  exists body,
    run (Scenarios.cooperative "1.20") Scenarios.role_change Scenarios.ctx
    = [EksDescribeCluster (PStr "prod");
       EksCreateCluster
         (dict_set (Scenarios.cluster_config None "arn:aws:iam::1:role/new" (Some "1.20"))
                   "name" (PStr "cluster-req-42"));
       EksWaitClusterActive (PStr "cluster-req-42") 30 26;
       EksDescribeCluster (PStr "cluster-req-42");
       RequestsPut (Event.ResponseURL Scenarios.role_change) body]
    /\ Response.Status body = "SUCCESS"%string
    /\ Response.PhysicalResourceId body = PStr "cluster-req-42"
    /\ Response.Data body
       = [("Name", PStr "cluster-req-42");
          ("Endpoint", PStr "https://c.eks.amazonaws.com");
          ("Arn", PStr "arn:aws:eks:eu-west-1:1:cluster/c");
          ("CertificateAuthorityData", PStr "LS0t")].
Proof.
  refine (proj2 (replacement_creates_new_cluster Scenarios.role_change Scenarios.ctx
                   (Scenarios.cluster_config None "arn:aws:iam::1:role/new" (Some "1.20"))
                   (Scenarios.cluster_config None "arn:aws:iam::1:role/old" (Some "1.20"))
                   (PStr "prod") eq_refl _ eq_refl eq_refl)
                (Scenarios.cooperative "1.20") _ _ _ _ _ _
                eq_refl eq_refl eq_refl eq_refl eq_refl eq_refl).
  apply classified_scenario; [reflexivity|discriminate].
Defined.

(** C2, the claim as first stated, fails: in scenario B the new physical
    id is "cluster-req-42", which does not start with the old name "prod". *)
Lemma role_change_name_not_from_old_name :
  map Response.PhysicalResourceId
      (responses (run (Scenarios.cooperative "1.20") Scenarios.role_change Scenarios.ctx))
  = [PStr "cluster-req-42"]
  /\ map Response.Status
         (responses (run (Scenarios.cooperative "1.20") Scenarios.role_change Scenarios.ctx))
     = ["SUCCESS"%string]
  /\ Event.PhysicalResourceId Scenarios.role_change = Some "prod"%string
  /\ String.prefix "prod" "cluster-req-42" = false.
Proof. repeat split. Qed.

(** Scenario D: the version is dropped. *)
Lemma version_unset_rejected_witness :
  exists body,
    run (Scenarios.cooperative "1.20") Scenarios.version_unset Scenarios.ctx
    = [EksDescribeCluster (PStr "prod");
       RequestsPut (Event.ResponseURL Scenarios.version_unset) body]
    /\ Response.Status body = "FAILED"%string
    /\ Response.Reason body
       = "Version cannot be changed from a specific value (1.20) to undefined"%string
    /\ Response.PhysicalResourceId body = PStr "prod"
    /\ is_none (PStr "prod") = false.
Proof.
  refine (version_unset_rejected Scenarios.version_unset Scenarios.ctx
            (Scenarios.cluster_config None "arn:aws:iam::1:role/eks" None)
            (Scenarios.cluster_config None "arn:aws:iam::1:role/eks" (Some "1.20"))
            (PStr "prod") eq_refl _ eq_refl
            (Scenarios.cooperative "1.20") _ _ (PStr "1.20")
            eq_refl eq_refl eq_refl eq_refl eq_refl eq_refl).
  apply classified_scenario; [reflexivity|discriminate].
Defined.

(** Scenario C: only the version changes, from "1.20", which the cluster
    runs, to "1.21". *)
Lemma update_in_place_witness :
  exists body,
    run (Scenarios.cooperative "1.20") Scenarios.version_change Scenarios.ctx
    = [EksDescribeCluster (PStr "prod");
       EksUpdateClusterVersion (PStr "prod") (PStr "1.21");
       EksWaitClusterActive (PStr "prod") 30 26;
       EksDescribeCluster (PStr "prod");
       RequestsPut (Event.ResponseURL Scenarios.version_change) body]
    /\ Response.Status body = "SUCCESS"%string
    /\ Response.PhysicalResourceId body = PStr "prod"
    /\ Response.Data body
       = [("Name", PStr "prod");
          ("Endpoint", PStr "https://c.eks.amazonaws.com");
          ("Arn", PStr "arn:aws:eks:eu-west-1:1:cluster/c");
          ("CertificateAuthorityData", PStr "LS0t")].
Proof.
  refine (proj1 (proj2 (proj2
            (update_in_place Scenarios.version_change Scenarios.ctx
               (Scenarios.cluster_config None "arn:aws:iam::1:role/eks" (Some "1.21"))
               (Scenarios.cluster_config None "arn:aws:iam::1:role/eks" (Some "1.20"))
               (PStr "prod") eq_refl _ eq_refl)))
            (Scenarios.cooperative "1.20") _ _ (PStr "1.20") _ _ _ _
            eq_refl eq_refl eq_refl eq_refl eq_refl eq_refl eq_refl eq_refl eq_refl).
  apply classified_scenario; [reflexivity|discriminate].
Defined.

(** C7, the claim as first stated, fails: the old and the new
    configuration are the same, so no field changed, but the cluster runs
    "1.19" and the handler calls [update_cluster_version]. *)
Lemma no_change_updates_version :
  Event.OldResourceProperties Scenarios.no_change
  = Some (Event.ResourceProperties Scenarios.no_change)
  /\ run (Scenarios.cooperative "1.19") Scenarios.no_change Scenarios.ctx
     = [EksDescribeCluster (PStr "prod");
        EksUpdateClusterVersion (PStr "prod") (PStr "1.20");
        EksWaitClusterActive (PStr "prod") 30 26;
        EksDescribeCluster (PStr "prod");
        RequestsPut (Event.ResponseURL Scenarios.no_change)
          (sent Scenarios.no_change Scenarios.ctx CFN_SUCCESS
             [("Name", PStr "prod");
              ("Endpoint", PStr "https://c.eks.amazonaws.com");
              ("Arn", PStr "arn:aws:eks:eu-west-1:1:cluster/c");
              ("CertificateAuthorityData", PStr "LS0t")]
             (PStr "prod") None)].
Proof. split; reflexivity. Qed.

End ClusterResourceSpec.

(** ** The legacy helm-chart handler *)

Module HelmChartSpec.
Import Py Effects HelmChart PyFacts Traces.
Local Open Scope list_scope.

(** The response [cfn_send] builds. *)
Definition sent (event : Event.event) (ctx : context) (status : string) (data : dict)
    (physicalResourceId : pyval) (reason : option string) : Response.body :=
  {| Response.Status := status;
     Response.Reason := reason_or_default ctx reason;
     Response.PhysicalResourceId := py_or physicalResourceId (PStr (log_stream_name ctx));
     Response.StackId := Event.StackId event;
     Response.RequestId := Event.RequestId event;
     Response.LogicalResourceId := Event.LogicalResourceId event;
     Response.NoEcho := false;
     Response.Data := data |}.

(** The text [handler] reports an exception with. *)
Definition failure_reason (e : exn) : string :=
  match e with
  | KeyError _ => ("invalid request. Missing '" ++ exn_str e ++ "'")%string
  | _ => exn_str e
  end.

Lemma chart_cfn_send_run event ctx status data pid reason w t :
  cfn_send event ctx status data pid reason w t
  = (t ++ [RequestsPut (Event.ResponseURL event) (sent event ctx status data pid reason)],
     inr tt).
Proof.
  unfold cfn_send, try_except, bind, invoke, ret. fold (sent event ctx status data pid reason).
  destruct (w t _); reflexivity.
Qed.

Lemma cfn_send_settles sw event ctx status data pid reason (ok : Response.body -> Prop) :
  ok (sent event ctx status data pid reason) ->
  settles sw (cfn_send event ctx status data pid reason) (Event.ResponseURL event) ok.
Proof.
  intros Hok w t. exists [], (inr tt).
  split; [reflexivity|]. split; [discriminate|].
  exists (sent event ctx status data pid reason). now rewrite chart_cfn_send_run.
Qed.

(** [helm] raises the failure of the command again, and any other
    exception as it is. *)
Lemma helm_run env verb release chart repo file namespace version w t :
  helm env verb release chart repo file namespace version w t
  = (t ++ [CheckOutput (helm_command env verb release chart repo file namespace version)
                       (Environ.outdir env)],
     match w t (CheckOutput (helm_command env verb release chart repo file namespace version)
                            (Environ.outdir env)) with
     | inr _ => inr tt
     | inl (CalledProcessError _ output) => inl (ExceptionBytes output)
     | inl e => inl e
     end).
Proof.
  unfold helm, try_except, bind, invoke, ret, raise.
  destruct (w t _) as [[]|]; reflexivity.
Qed.

Lemma helm_passes sw env verb release chart repo file namespace version :
  passes sw (helm env verb release chart repo file namespace version).
Proof.
  intros w t. eexists. eexists. split; [apply helm_run|].
  split; [now apply none_of_one|].
  intros c e. simpl. destruct (w t _) as [e0|]; [|discriminate].
  intros [= <- <-]. left. destruct e0; eexists; split; try reflexivity; try (now left).
  right. eauto.
Qed.

(** The failure of an uninstall is caught and goes no further. *)
Lemma uninstall_swallowed env release namespace :
  passes is_uninstall
    (try_except (helm env "uninstall" release PNone PNone PNone namespace PNone)
                (fun _ => ret tt)).
Proof.
  intros w t. unfold try_except. rewrite helm_run.
  exists [CheckOutput (helm_command env "uninstall" release PNone PNone PNone namespace PNone)
                      (Environ.outdir env)], (inr tt).
  split.
  - destruct (w t _) as [[]|]; reflexivity.
  - split; [reflexivity|]. intros c e. simpl.
    destruct (w t _); [|discriminate]. intros [= <- <-]. now right.
Qed.

(** The commands the handler runs: [aws eks update-kubeconfig], and helm
    with the properties of the request. *)
Definition login (env : Environ.environ) (cluster_name : string) : call :=
  CheckCall [PStr "aws"; PStr "eks"; PStr "update-kubeconfig";
             PStr "--name"; PStr cluster_name;
             PStr "--kubeconfig"; PStr (Environ.kubeconfig env)].

Definition uninstall (env : Environ.environ) (props : dict) (release : pyval) : call :=
  CheckOutput (helm_command env "uninstall" release PNone PNone PNone
                            (dict_get props "Namespace") PNone)
              (Environ.outdir env).

Definition upgrade (env : Environ.environ) (props : dict) (release chart : pyval) : call :=
  CheckOutput (helm_command env "upgrade" release chart (dict_get props "Repository") PNone
                            (dict_get props "Namespace") (dict_get props "Version"))
              (Environ.outdir env).

(** The response after helm, for a request that is not a Create: the
    physical id is relayed, and required. *)
Definition relayed (event : Event.event) (ctx : context) : Response.body :=
  if truthy (of_option (Event.PhysicalResourceId event))
  then sent event ctx CFN_SUCCESS [] (of_option (Event.PhysicalResourceId event)) None
  else sent event ctx CFN_FAILED [] PNone
         (Some ("invalid request: request type is '" ++ Event.RequestType event
                ++ "' but 'PhysicalResourceId' is not defined")%string).

Section Handler.
Variable json_loads : pyval -> result pyval.
Variables (env : Environ.environ) (event : Event.event) (ctx : context).

(** The part of the body all requests go through, up to the response. *)
Lemma handler_body_settles (ok : Response.body -> Prop) :
  (forall status data pid reason,
      Event.RequestType event = "Create"%string \/ truthy (of_option (Event.PhysicalResourceId event)) = true ->
      ok (sent event ctx status data pid reason)) ->
  (forall data pid reason, ok (sent event ctx CFN_FAILED data pid reason)) ->
  settles is_uninstall (handler_body json_loads env event ctx) (Event.ResponseURL event) ok.
Proof.
  intros Hsuccess Hfailed. unfold handler_body.
  do 6 (apply settles_bind; [apply passes_lift|intros ?]).
  destruct (Environ.CLUSTER_NAME env) as [cluster_name|];
    [|apply cfn_send_settles, Hfailed].
  apply settles_bind; [now apply passes_invoke|intros _].
  apply settles_bind.
  { destruct (_ && _); [|apply passes_ret].
    apply passes_bind; [apply passes_lift|intros values].
    apply passes_bind; [now apply passes_invoke|intros _]. apply passes_ret. }
  intros values_file.
  apply settles_bind.
  { destruct (_ || _); [apply helm_passes|].
    destruct (String.eqb _ "Delete"); [apply uninstall_swallowed|apply passes_ret]. }
  intros _.
  destruct (String.eqb_spec (Event.RequestType event) "Create") as [Hc|Hc].
  - apply settles_bind; [now apply passes_invoke|intros uuid].
    apply cfn_send_settles, Hsuccess. now left.
  - destruct (truthy _) eqn:Hp; simpl; apply cfn_send_settles; [|apply Hfailed].
    apply Hsuccess. now right.
Qed.

(** Every run of the handler ends with its one response; a failure of a
    call that is not an uninstall makes the body raise, and what the body
    raises is reported FAILED. *)
Lemma handler_outcome (ok : Response.body -> Prop) w :
  settles is_uninstall (handler_body json_loads env event ctx) (Event.ResponseURL event) ok ->
  exists d body,
    run json_loads w env event ctx = d ++ [RequestsPut (Event.ResponseURL event) body]
    /\ none_of is_put d
    /\ (forall c e, first_raise w [] d = Some (c, e) ->
          (exists e', snd (handler_body json_loads env event ctx w []) = inl e'
                      /\ reraised e e')
          \/ is_uninstall c = true)
    /\ (forall e', snd (handler_body json_loads env event ctx w []) = inl e' ->
          body = sent event ctx CFN_FAILED [] PNone (Some (failure_reason e')))
    /\ (forall a, snd (handler_body json_loads env event ctx w []) = inr a -> ok body).
Proof.
  intros H. destruct (H w []) as (d & r & P & R & E).
  unfold run, handler, try_except. destruct r as [e|[]].
  - rewrite E. simpl.
    exists d, (sent event ctx CFN_FAILED [] PNone (Some (failure_reason e))).
    split; [destruct e; unfold cfn_error; now rewrite chart_cfn_send_run|].
    split; [assumption|]. split; [exact R|]. split; [now intros e' [= <-]|discriminate].
  - destruct E as (b & E & Hok). rewrite E. simpl. exists d, b.
    split; [reflexivity|]. split; [assumption|]. split; [exact R|].
    split; [discriminate|now intros _ _].
Qed.

(** Without a physical id, a request that is not a Create is answered
    FAILED, in any world. *)
Lemma no_physical_id_failed w :
  Event.RequestType event <> "Create"%string ->
  truthy (of_option (Event.PhysicalResourceId event)) = false ->
  exists d body,
    run json_loads w env event ctx = d ++ [RequestsPut (Event.ResponseURL event) body]
    /\ none_of is_put d
    /\ Response.Status body = "FAILED"%string.
Proof.
  intros Hty Hp.
  destruct (handler_outcome (fun b => Response.Status b = "FAILED"%string) w)
    as (d & body & E & N & _ & Hraised & Hreturned).
  { apply handler_body_settles; [|reflexivity].
    intros status data pid reason [H|H]; [contradiction|congruence]. }
  exists d, body. split; [exact E|]. split; [exact N|].
  destruct (snd (handler_body json_loads env event ctx w [])) as [e|a].
  - now rewrite (Hraised e eq_refl).
  - now apply (Hreturned a).
Qed.

End Handler.

(** *** Requests that get as far as helm *)

Section Reached.
Variable json_loads : pyval -> result pyval.
Variables (env : Environ.environ) (event : Event.event) (ctx : context).
Variables (props : dict) (release chart : pyval) (cluster_name : string).

Hypothesis properties : Event.ResourceProperties event = PDict props.
Hypothesis has_release : assoc "Release" props = Some release.
Hypothesis has_chart : assoc "Chart" props = Some chart.
Hypothesis has_cluster : Environ.CLUSTER_NAME env = Some cluster_name.

Let physical_id : pyval := of_option (Event.PhysicalResourceId event).
Let url : string := Event.ResponseURL event.
Let login : call := login env cluster_name.
Let uninstall : call := uninstall env props release.
Let upgrade : call := upgrade env props release chart.
Let relayed : Response.body := relayed event ctx.

(** A Delete runs the uninstall and answers without a look at its
    outcome. *)
Lemma chart_delete_run w logged :
  Event.RequestType event = "Delete"%string ->
  w [] login = inr logged ->
  run json_loads w env event ctx = [login; uninstall; RequestsPut url relayed].
Proof.
  intros Hty Hlogin.
  unfold run, handler, handler_body, try_except, bind, lift, invoke, ret.
  rewrite properties, Hty, has_cluster. simpl. rewrite has_release, has_chart. simpl.
  change (CheckCall _) with login. rewrite Hlogin. rewrite helm_run. simpl.
  fold (dict_get props "Namespace").
  change (CheckOutput _ _) with uninstall.
  assert (Hrelayed : relayed
            = if truthy physical_id then sent event ctx CFN_SUCCESS [] physical_id None
              else sent event ctx CFN_FAILED [] PNone
                     (Some "invalid request: request type is 'Delete' but 'PhysicalResourceId' is not defined"%string)).
  { unfold relayed, HelmChartSpec.relayed. now rewrite Hty. }
  rewrite Hrelayed. fold physical_id.
  destruct (w [login] uninstall) as [[]|]; destruct (truthy physical_id); simpl;
    unfold cfn_error; rewrite chart_cfn_send_run; reflexivity.
Qed.

(** An Update without values runs the upgrade and, when it succeeds,
    answers. *)
Lemma chart_update_run w logged upgraded :
  Event.RequestType event = "Update"%string ->
  is_none (dict_get props "Values") = true ->
  w [] login = inr logged ->
  w [login] upgrade = inr upgraded ->
  run json_loads w env event ctx = [login; upgrade; RequestsPut url relayed].
Proof.
  intros Hty Hvalues Hlogin Hupgrade.
  unfold run, handler, handler_body, try_except, bind, lift, invoke, ret.
  rewrite properties, Hty, has_cluster. simpl. rewrite has_release, has_chart. simpl.
  change (CheckCall _) with login. rewrite Hlogin.
  fold (dict_get props "Values"). rewrite Hvalues. simpl.
  rewrite helm_run. simpl.
  fold (dict_get props "Namespace") (dict_get props "Repository") (dict_get props "Version").
  change (CheckOutput _ _) with upgrade. rewrite Hupgrade. simpl.
  assert (Hrelayed : relayed
            = if truthy physical_id then sent event ctx CFN_SUCCESS [] physical_id None
              else sent event ctx CFN_FAILED [] PNone
                     (Some "invalid request: request type is 'Update' but 'PhysicalResourceId' is not defined"%string)).
  { unfold relayed, HelmChartSpec.relayed. now rewrite Hty. }
  rewrite Hrelayed. fold physical_id.
  destruct (truthy physical_id); simpl; unfold cfn_error; rewrite chart_cfn_send_run; reflexivity.
Qed.

(** An Update without values whose upgrade fails. *)
Lemma chart_update_failed_run w logged msg output :
  Event.RequestType event = "Update"%string ->
  is_none (dict_get props "Values") = true ->
  w [] login = inr logged ->
  w [login] upgrade = inl (CalledProcessError msg output) ->
  run json_loads w env event ctx
  = [login; upgrade;
     RequestsPut url (sent event ctx CFN_FAILED [] PNone (Some (bytes_repr output)))].
Proof.
  intros Hty Hvalues Hlogin Hupgrade.
  unfold run, handler, handler_body, try_except, bind, lift, invoke, ret.
  rewrite properties, Hty, has_cluster. simpl. rewrite has_release, has_chart. simpl.
  change (CheckCall _) with login. rewrite Hlogin.
  fold (dict_get props "Values"). rewrite Hvalues. simpl.
  rewrite helm_run. simpl.
  fold (dict_get props "Namespace") (dict_get props "Repository") (dict_get props "Version").
  change (CheckOutput _ _) with upgrade. rewrite Hupgrade. simpl.
  unfold cfn_error. rewrite chart_cfn_send_run. reflexivity.
Qed.

End Reached.

Lemma relayed_physical_id event ctx p :
  Event.PhysicalResourceId event = Some p ->
  p <> ""%string ->
  relayed event ctx = sent event ctx CFN_SUCCESS [] (PStr p) None
  /\ Response.PhysicalResourceId (relayed event ctx) = PStr p.
Proof.
  intros Hp Hne. unfold relayed. rewrite Hp. simpl.
  destruct (String.eqb_spec p ""); [contradiction|]. simpl. split; [reflexivity|].
  unfold py_or. simpl. destruct (String.eqb_spec p ""); [contradiction|reflexivity].
Qed.

Lemma relayed_missing event ctx :
  truthy (of_option (Event.PhysicalResourceId event)) = false ->
  Response.Status (relayed event ctx) = "FAILED"%string
  /\ Response.Reason (relayed event ctx)
     = ("invalid request: request type is '" ++ Event.RequestType event
        ++ "' but 'PhysicalResourceId' is not defined")%string.
Proof. intros Hp. unfold relayed. rewrite Hp. now split. Qed.

End HelmChartSpec.

(** ** The helm command of the kubectl handler *)

Module KubectlHelmSpec.
Import Py Effects KubectlHelm Traces.
Local Open Scope list_scope.

Section Attempts.
Variables (cmnd : list pyval) (cwd : string).

Let run_helm : call := CheckOutput cmnd cwd.

(** A run that succeeds ends the loop. *)
Lemma attempts_success retry output w t v :
  w t run_helm = inr v ->
  attempts cmnd cwd (S retry) output w t = (t ++ [run_helm], inr tt).
Proof.
  intros H. simpl. unfold try_except, bind, invoke, ret. fold run_helm. now rewrite H.
Qed.

(** A run that fails with "Broken pipe" in its output leaves one attempt
    less. *)
Lemma attempts_transient retry output w t msg failed :
  w t run_helm = inl (CalledProcessError msg failed) ->
  contains "Broken pipe" failed = true ->
  attempts cmnd cwd (S retry) output w t
  = attempts cmnd cwd retry failed w (t ++ [run_helm]).
Proof.
  intros H Hc. simpl. unfold try_except, bind, invoke, ret. fold run_helm.
  now rewrite H, Hc.
Qed.

(** A run that fails without "Broken pipe" in its output ends the loop
    with an exception holding the output. *)
Lemma attempts_permanent retry output w t msg failed :
  w t run_helm = inl (CalledProcessError msg failed) ->
  contains "Broken pipe" failed = false ->
  attempts cmnd cwd (S retry) output w t = (t ++ [run_helm], inl (ExceptionBytes failed)).
Proof.
  intros H Hc. simpl. unfold try_except, bind, invoke, ret, raise. fold run_helm.
  now rewrite H, Hc.
Qed.


End Attempts.



End KubectlHelmSpec.

(** ** The two legacy handlers side by side *)

Module HandlersSpec.
Import Py Effects Traces.
Local Open Scope list_scope.



(** *** Delete *)

Lemma cluster_delete_run w event ctx config old_config cluster_name :
  Event.RequestType event = "Delete"%string ->
  ClusterResourceSpec.Classified event config old_config cluster_name ->
  ClusterResource.run w event ctx
  = fst (try_except
           (bind (invoke (EksDeleteCluster cluster_name)) (fun _ =>
            bind (invoke (EksWaitClusterDeleted cluster_name)) (fun _ =>
            ClusterResource.cfn_send event ctx CFN_SUCCESS [] cluster_name None)))
           (fun e => ClusterResource.cfn_error event ctx (exn_str e)) w []).
Proof.
  intros Hty Hc. rewrite (ClusterResourceSpec.run_classified _ _ _ _ _ _ Hc).
  unfold ClusterResource.reconcile. now rewrite Hty.
Qed.

(** *** Errors and the response *)




(** *** The physical id of a response that is given none *)

(** C8.  [cfn_send] of the cluster handler falls back on the physical id
    of the request, as its comment says it must; [cfn_send] of the
    helm-chart handler falls back on the log stream name and never reads
    the request's physical id: an Update of the release "prod/7d3c" whose
    upgrade fails is answered FAILED with the log stream name as physical
    id. *)
Theorem helm_chart_failure_loses_physical_id :
  (forall event ctx status data reason w t p,
      Event.PhysicalResourceId event = Some p ->
      ClusterResource.cfn_send event ctx status data PNone reason w t
      = (t ++ [RequestsPut (Event.ResponseURL event)
                 (ClusterResourceSpec.sent event ctx status data PNone reason)], inr tt)
      /\ Response.PhysicalResourceId (ClusterResourceSpec.sent event ctx status data PNone reason) = PStr p)
  /\ (forall event ctx status data reason w t,
         HelmChart.cfn_send event ctx status data PNone reason w t
         = (t ++ [RequestsPut (Event.ResponseURL event)
                    (HelmChartSpec.sent event ctx status data PNone reason)], inr tt)
         /\ Response.PhysicalResourceId (HelmChartSpec.sent event ctx status data PNone reason)
            = PStr (log_stream_name ctx))
  /\ (forall json_loads w env event ctx props release chart cluster_name logged msg output,
         Event.RequestType event = "Update"%string ->
         Event.ResourceProperties event = PDict props ->
         assoc "Release" props = Some release ->
         assoc "Chart" props = Some chart ->
         Environ.CLUSTER_NAME env = Some cluster_name ->
         is_none (dict_get props "Values") = true ->
         w [] (HelmChartSpec.login env cluster_name) = inr logged ->
         w [HelmChartSpec.login env cluster_name]
           (HelmChartSpec.upgrade env props release chart)
         = inl (CalledProcessError msg output) ->
         map (fun b => (Response.Status b, Response.PhysicalResourceId b))
             (responses (HelmChart.run json_loads w env event ctx))
         = [("FAILED"%string, PStr (log_stream_name ctx))])
  /\ Event.PhysicalResourceId (Scenarios.chart_request "Update" (Some "prod/7d3c"))
     = Some "prod/7d3c"%string
  /\ map (fun b => (Response.Status b, Response.PhysicalResourceId b))
         (responses
            (HelmChart.run Scenarios.no_values
               (Scenarios.helm_fails "Error: UPGRADE FAILED: timed out waiting for the condition")
               Scenarios.env (Scenarios.chart_request "Update" (Some "prod/7d3c"))
               Scenarios.ctx))
     = [("FAILED"%string, PStr "2019/11/04/[$LATEST]6c1f")].
Proof.
  split; [|split; [|split; [|split]]].
  - intros event ctx status data reason w t p Hp. split.
    + apply ClusterResourceSpec.cfn_send_run.
    + now apply ClusterResourceSpec.sent_physical_id_default.
  - intros event ctx status data reason w t.
    split; [apply HelmChartSpec.chart_cfn_send_run | reflexivity].
  - intros json_loads w env event ctx props release chart cluster_name logged msg output
           Hty Hprops Hr Hch Hcl Hv H1 H2.
    now rewrite (HelmChartSpec.chart_update_failed_run json_loads env event ctx props release
                   chart cluster_name Hprops Hr Hch Hcl w logged msg output Hty Hv H1 H2).
  - reflexivity.
  - reflexivity.
Qed.

End HandlersSpec.

(** * More of the handlers *)

(** ** Which calls a computation issues *)

Module Issues.
Import Py Effects.
Local Open Scope list_scope.

Definition is_wait_deleted (c : call) : bool :=
  match c with EksWaitClusterDeleted _ => true | _ => false end.

Definition is_describe (c : call) : bool :=
  match c with EksDescribeCluster _ => true | _ => false end.

Definition is_wait_active (c : call) : bool :=
  match c with EksWaitClusterActive _ _ _ => true | _ => false end.

Definition is_update (c : call) : bool :=
  match c with EksUpdateClusterVersion _ _ => true | _ => false end.

Definition is_write (c : call) : bool :=
  match c with WriteJsonFile _ _ => true | _ => false end.

Definition is_helm (c : call) : bool :=
  match c with CheckOutput _ _ => true | _ => false end.

Definition is_check_call (c : call) : bool :=
  match c with CheckCall _ => true | _ => false end.

Definition is_uuid (c : call) : bool :=
  match c with Uuid4 => true | _ => false end.

(** Every call of [d] satisfies [f]. *)
Definition all_of (f : call -> bool) (d : trace) : Prop := forallb f d = true.

(** [issues f m]: [m] only appends to the trace, and only calls that
    satisfy [f]. *)
Definition issues (f : call -> bool) {A} (m : M A) : Prop :=
  forall w t, exists d r, m w t = (t ++ d, r) /\ all_of f d.

Section Rules.
Variable f : call -> bool.

Lemma issues_ret {A} (a : A) : issues f (ret a).
Proof. intros w t. exists [], (inr a). unfold ret. now rewrite app_nil_r. Qed.

Lemma issues_raise {A} (e : exn) : issues f (@raise A e).
Proof. intros w t. exists [], (inl e). unfold raise. now rewrite app_nil_r. Qed.

Lemma issues_lift {A} (r : result A) : issues f (lift r).
Proof. intros w t. exists [], r. unfold lift. now rewrite app_nil_r. Qed.

Lemma issues_invoke (c : call) : f c = true -> issues f (invoke c).
Proof.
  intros Hc w t. exists [c], (w t c). split; [reflexivity|].
  unfold all_of. simpl. now rewrite Hc.
Qed.

Lemma issues_bind {A B} (m : M A) (k : A -> M B) :
  issues f m -> (forall a, issues f (k a)) -> issues f (bind m k).
Proof.
  intros Hm Hk w t. unfold bind.
  destruct (Hm w t) as (d1 & r1 & E1 & F1). rewrite E1.
  destruct r1 as [e|a]; [now exists d1, (inl e)|].
  destruct (Hk a w (t ++ d1)) as (d2 & r2 & E2 & F2). rewrite E2.
  exists (d1 ++ d2), r2. rewrite app_assoc. split; [reflexivity|].
  unfold all_of in *. now rewrite forallb_app, F1, F2.
Qed.

Lemma issues_try_except {A} (m : M A) (h : exn -> M A) :
  issues f m -> (forall e, issues f (h e)) -> issues f (try_except m h).
Proof.
  intros Hm Hh w t. unfold try_except.
  destruct (Hm w t) as (d1 & r1 & E1 & F1). rewrite E1.
  destruct r1 as [e|a]; [|now exists d1, (inr a)].
  destruct (Hh e w (t ++ d1)) as (d2 & r2 & E2 & F2). rewrite E2.
  exists (d1 ++ d2), r2. rewrite app_assoc. split; [reflexivity|].
  unfold all_of in *. now rewrite forallb_app, F1, F2.
Qed.

End Rules.

(** Walk through a computation: binds, handlers, calls and tests. *)
Ltac issues_steps :=
  repeat first
    [ apply issues_ret
    | apply issues_raise
    | apply issues_lift
    | apply issues_invoke; reflexivity
    | apply issues_bind; [|intros]
    | apply issues_try_except; [|intros]
    | match goal with
      | |- issues _ (if ?b then _ else _) => destruct b
      | |- issues _ (match ?x with _ => _ end) => destruct x
      | |- issues _ (let '(_, _) := ?x in _) => destruct x
      end ].

End Issues.

(** ** More requests and worlds *)

Module MoreScenarios.
Import Py Effects.

Definition eks_config : dict :=
  Scenarios.cluster_config None "arn:aws:iam::1:role/eks" (Some "1.20").

(** An Update that names no cluster and has no physical id. *)
Definition update_without_id : Event.event :=
  Scenarios.cluster_request "Update" "req-48" None
    (Scenarios.cluster_config None "arn:aws:iam::1:role/eks" (Some "1.21"))
    (Some eks_config).

(** A request of a type that does not exist. *)
Definition replace_request : Event.event :=
  Scenarios.cluster_request "Replace" "req-49" (Some "prod") eks_config None.

(** Scenario A: a Create that names the cluster. *)
Definition create_prod : Event.event :=
  Scenarios.cluster_request "Create" "req-40" None
    (Scenarios.cluster_config (Some "prod") "arn:aws:iam::1:role/eks" (Some "1.20")) None.

(** An Update that renames the cluster "prod" to "blue". *)
Definition rename_to_blue : Event.event :=
  Scenarios.cluster_request "Update" "req-50" (Some "prod")
    (Scenarios.cluster_config (Some "blue") "arn:aws:iam::1:role/eks" (Some "1.20"))
    (Some (Scenarios.cluster_config (Some "prod") "arn:aws:iam::1:role/eks" (Some "1.20"))).

(** A release request without [Release]. *)
Definition chart_without_release : Event.event :=
  {| Event.RequestType := "Delete";
     Event.StackId := "arn:aws:cloudformation:eu-west-1:1:stack/app/1";
     Event.RequestId := "req-52";
     Event.LogicalResourceId := "Ingress";
     Event.ResponseURL := "https://cloudformation-custom-resource-response/put";
     Event.PhysicalResourceId := Some "prod/7d3c";
     Event.ResourceProperties := PDict [("Chart", PStr "nginx-ingress")];
     Event.OldResourceProperties := None |}.

(** A release request with values. *)
Definition chart_with_values (request_type : string) : Event.event :=
  {| Event.RequestType := request_type;
     Event.StackId := "arn:aws:cloudformation:eu-west-1:1:stack/app/1";
     Event.RequestId := "req-53";
     Event.LogicalResourceId := "Ingress";
     Event.ResponseURL := "https://cloudformation-custom-resource-response/put";
     Event.PhysicalResourceId := Some "prod/7d3c";
     Event.ResourceProperties := PDict [("Release", PStr "ingress");
                                        ("Chart", PStr "nginx-ingress");
                                        ("Values", PStr "{}")];
     Event.OldResourceProperties := None |}.

(** A parser that knows one text, the empty object. *)
Definition loads_empty (text : pyval) : result pyval :=
  match text with
  | PStr "{}" => inr (PDict [])
  | _ => inl (OtherError "Expecting value: line 1 column 1 (char 0)")
  end.

(** The properties of a chart for the helm handler of the kubectl
    provider, and a request with them. *)
Definition kubectl_props : dict :=
  [("ClusterName", PStr "prod");
   ("RoleArn", PStr "arn:aws:iam::1:role/kubectl");
   ("Release", PStr "ingress");
   ("Chart", PStr "nginx-ingress");
   ("Timeout", PStr "300s")].

Definition kubectl_request (request_type : string) : Event.event :=
  {| Event.RequestType := request_type;
     Event.StackId := "arn:aws:cloudformation:eu-west-1:1:stack/app/1";
     Event.RequestId := "req-54";
     Event.LogicalResourceId := "Ingress";
     Event.ResponseURL := "https://cloudformation-custom-resource-response/put";
     Event.PhysicalResourceId := Some "ingress";
     Event.ResourceProperties := PDict kubectl_props;
     Event.OldResourceProperties := None |}.

(** A world in which all succeeds and [uuid4] gives one id. *)
Definition all_well : world :=
  fun _ c =>
    match c with
    | Uuid4 => inr (PStr "1b4e28ba-2fa1-11d2-883f-0016d3cca427")
    | PathIsFile _ => inr (PBool true)
    | _ => inr PNone
    end.

(** A world in which the kubeconfig is written and helm fails with
    [output]. *)
Definition helm_down (output : string) : world :=
  fun _ c =>
    match c with
    | CheckOutput _ _ =>
        inl (CalledProcessError "Command 'helm' returned non-zero exit status 1." output)
    | PathIsFile _ => inr (PBool true)
    | _ => inr PNone
    end.

(** A world in which the login fails. *)
Definition no_credentials : world :=
  fun _ c =>
    match c with
    | CheckCall _ => inl (CalledProcessError "Command 'aws' returned non-zero exit status 255." "")
    | _ => inr PNone
    end.

End MoreScenarios.

(** ** The cluster handler: the other paths *)

Module ClusterResourceMore.
Import Py Effects ClusterResource PyFacts Traces ClusterResourceSpec Issues.
Local Open Scope list_scope.

(** X1.  A request that is not a Create, names no cluster and has no
    physical id (or an empty one) is answered FAILED, "unexpected error.
    cannot determine cluster name", and nothing is called but the PUT of
    that response. *)
Theorem unnamed_cluster_rejected :
  forall w event ctx config old_config,
    Event.RequestType event <> "Create"%string ->
    getitem (Event.ResourceProperties event) "Config" = inr (PDict config) ->
    get (old_props event) "Config" (PDict []) = inr old_config ->
    is_none (dict_get config "name") = true ->
    truthy (of_option (Event.PhysicalResourceId event)) = false ->
    run w event ctx
    = [RequestsPut (Event.ResponseURL event)
         (sent event ctx CFN_FAILED [] PNone
            (Some "unexpected error. cannot determine cluster name"%string))].
Proof.
  intros w event ctx config old_config Hty Hc Ho Hn Hp.
  unfold run, handler, handler_body, try_except, bind, lift.
  rewrite Hc, Ho. unfold determine_cluster_name. rewrite Hn, Hp.
  destruct (String.eqb_spec (Event.RequestType event) "Create"); [contradiction|].
  simpl. unfold cfn_error. now rewrite cfn_send_run.
Qed.

Lemma unnamed_cluster_rejected_witness :
  run (Scenarios.cooperative "1.20") MoreScenarios.update_without_id Scenarios.ctx
  = [RequestsPut "https://cloudformation-custom-resource-response/put"
       {| Response.Status := "FAILED";
          Response.Reason := "unexpected error. cannot determine cluster name";
          Response.PhysicalResourceId := PStr "2019/11/04/[$LATEST]6c1f";
          Response.StackId := "arn:aws:cloudformation:eu-west-1:1:stack/app/1";
          Response.RequestId := "req-48";
          Response.LogicalResourceId := "Cluster";
          Response.NoEcho := false;
          Response.Data := [] |}].
Proof.
  refine (unnamed_cluster_rejected (Scenarios.cooperative "1.20")
            MoreScenarios.update_without_id Scenarios.ctx
            (Scenarios.cluster_config None "arn:aws:iam::1:role/eks" (Some "1.21"))
            (PDict MoreScenarios.eks_config)
            _ eq_refl eq_refl eq_refl eq_refl).
  discriminate.
Defined.

(** X2.  A request whose type is none of Create, Update and Delete, once
    its cluster name is settled, is answered FAILED, "Invalid request type
    ...", and nothing is called but the PUT of that response. *)
Theorem unknown_request_type_rejected :
  forall w event ctx config old_config cluster_name,
    Classified event config old_config cluster_name ->
    Event.RequestType event <> "Delete"%string ->
    Event.RequestType event <> "Create"%string ->
    Event.RequestType event <> "Update"%string ->
    run w event ctx
    = [RequestsPut (Event.ResponseURL event)
         (sent event ctx CFN_FAILED [] PNone
            (Some ("Invalid request type " ++ Event.RequestType event)%string))].
Proof.
  intros w event ctx config old_config cluster_name Hc Hd Hcr Hu.
  rewrite (run_classified _ _ _ _ _ _ Hc).
  unfold try_except, reconcile, bind, raise.
  destruct (String.eqb_spec (Event.RequestType event) "Delete"); [contradiction|].
  destruct (String.eqb_spec (Event.RequestType event) "Create"); [contradiction|].
  destruct (String.eqb_spec (Event.RequestType event) "Update"); [contradiction|].
  simpl. unfold cfn_error. now rewrite cfn_send_run.
Qed.

Lemma unknown_request_type_rejected_witness :
  map (fun b => (Response.Status b, Response.Reason b))
      (responses
         (run (Scenarios.cooperative "1.20") MoreScenarios.replace_request Scenarios.ctx))
  = [("FAILED"%string, "Invalid request type Replace"%string)].
Proof.
  rewrite (unknown_request_type_rejected (Scenarios.cooperative "1.20")
             MoreScenarios.replace_request Scenarios.ctx MoreScenarios.eks_config
             (PDict []) (PStr "prod")); try discriminate; [reflexivity|].
  constructor; reflexivity.
Defined.

(** *** Create and rename *)

Section Create.
Variables (event : Event.event) (ctx : context).
Variables (config : dict) (old_config cluster_name : pyval).

Hypothesis request_is_create : Event.RequestType event = "Create"%string.
Hypothesis request_classified : Classified event config old_config cluster_name.

Let named : dict := dict_set config "name" cluster_name.
Let url : string := Event.ResponseURL event.

Lemma create_run w :
  run w event ctx
  = fst (try_except
           (bind (bind (invoke (EksCreateCluster named)) (fun _ => ret cluster_name))
              (fun cluster_name =>
                 bind (invoke (EksWaitClusterActive cluster_name 30 26)) (fun _ =>
                 bind (invoke (EksDescribeCluster cluster_name)) (fun resp =>
                 bind (lift (attributes resp)) (fun attrs =>
                 cfn_send event ctx CFN_SUCCESS attrs cluster_name None)))))
           (fun e => cfn_error event ctx (exn_str e)) w []).
Proof.
  rewrite (run_classified _ _ _ _ _ _ request_classified).
  unfold reconcile. rewrite request_is_create. reflexivity.
Qed.

(** X3.  A Create whose cluster name is settled: the configuration, with
    the name written into it, goes to [create_cluster]; then the handler
    waits for the cluster to be active (every 30 seconds, 26 times at most),
    describes it and answers SUCCESS with the name as physical id and the
    attributes of the description as data.  When [create_cluster] raises,
    nothing else is called and the answer is FAILED; when the description
    lacks an attribute, the answer is FAILED although the cluster was
    created.  Whatever the world, a Create issues no delete and no version
    update. *)
Theorem create_outcomes :
  (forall w,
      all_of (fun c => is_create c || is_wait_active c || is_describe c || is_put c)
             (run w event ctx))
  /\ (forall w e,
         w [] (EksCreateCluster named) = inl e ->
         run w event ctx
         = [EksCreateCluster named;
            RequestsPut url (sent event ctx CFN_FAILED [] PNone (Some (exn_str e)))])
  /\ (forall w created waited resp attrs,
         w [] (EksCreateCluster named) = inr created ->
         w [EksCreateCluster named] (EksWaitClusterActive cluster_name 30 26) = inr waited ->
         w [EksCreateCluster named; EksWaitClusterActive cluster_name 30 26]
           (EksDescribeCluster cluster_name) = inr resp ->
         attributes resp = inr attrs ->
         run w event ctx
         = [EksCreateCluster named; EksWaitClusterActive cluster_name 30 26;
            EksDescribeCluster cluster_name;
            RequestsPut url (sent event ctx CFN_SUCCESS attrs cluster_name None)])
  /\ (forall w created waited resp e,
         w [] (EksCreateCluster named) = inr created ->
         w [EksCreateCluster named] (EksWaitClusterActive cluster_name 30 26) = inr waited ->
         w [EksCreateCluster named; EksWaitClusterActive cluster_name 30 26]
           (EksDescribeCluster cluster_name) = inr resp ->
         attributes resp = inl e ->
         run w event ctx
         = [EksCreateCluster named; EksWaitClusterActive cluster_name 30 26;
            EksDescribeCluster cluster_name;
            RequestsPut url (sent event ctx CFN_FAILED [] PNone (Some (exn_str e)))]).
Proof.
  split; [|split; [|split]].
  - intros w.
    assert (H : issues (fun c => is_create c || is_wait_active c || is_describe c || is_put c)
                       (handler event ctx)).
    { unfold handler.
      rewrite (handler_body_classified _ ctx _ _ _ request_classified).
      unfold reconcile, cfn_error, cfn_send. rewrite request_is_create. simpl.
      issues_steps. }
    destruct (H w []) as (d & r & E & F). unfold run. now rewrite E.
  - intros w e H. rewrite create_run.
    unfold try_except, bind, invoke, ret. rewrite H. simpl.
    unfold cfn_error. now rewrite cfn_send_run.
  - intros w created waited resp attrs H1 H2 H3 H4. rewrite create_run.
    unfold try_except, bind, invoke, ret, lift. rewrite H1. simpl. rewrite H2. simpl.
    rewrite H3, H4. now rewrite cfn_send_run.
  - intros w created waited resp e H1 H2 H3 H4. rewrite create_run.
    unfold try_except, bind, invoke, ret, lift. rewrite H1. simpl. rewrite H2. simpl.
    rewrite H3, H4. simpl. unfold cfn_error. now rewrite cfn_send_run.
Qed.

End Create.

(** Scenario A of the specification: a Create of the cluster "prod". *)
Lemma create_outcomes_witness :
  run (Scenarios.cooperative "1.20") MoreScenarios.create_prod Scenarios.ctx
  = [EksCreateCluster
       (Scenarios.cluster_config (Some "prod") "arn:aws:iam::1:role/eks" (Some "1.20"));
     EksWaitClusterActive (PStr "prod") 30 26;
     EksDescribeCluster (PStr "prod");
     RequestsPut "https://cloudformation-custom-resource-response/put"
       {| Response.Status := "SUCCESS";
          Response.Reason := "See the details in CloudWatch Log Stream: 2019/11/04/[$LATEST]6c1f";
          Response.PhysicalResourceId := PStr "prod";
          Response.StackId := "arn:aws:cloudformation:eu-west-1:1:stack/app/1";
          Response.RequestId := "req-40";
          Response.LogicalResourceId := "Cluster";
          Response.NoEcho := false;
          Response.Data := [("Name", PStr "prod");
                            ("Endpoint", PStr "https://c.eks.amazonaws.com");
                            ("Arn", PStr "arn:aws:eks:eu-west-1:1:cluster/c");
                            ("CertificateAuthorityData", PStr "LS0t")] |}].
Proof.
  refine (proj1 (proj2 (proj2
            (create_outcomes MoreScenarios.create_prod Scenarios.ctx
               (Scenarios.cluster_config (Some "prod") "arn:aws:iam::1:role/eks" (Some "1.20"))
               (PDict []) (PStr "prod") eq_refl _)))
            (Scenarios.cooperative "1.20") (PDict []) (PDict [])
            (Scenarios.described (PStr "prod") "1.20") _
            eq_refl eq_refl eq_refl eq_refl).
  constructor; reflexivity.
Defined.

(** The physical id of the event compares the same from both sides. *)
Lemma py_eq_of_option (o : option string) (v : pyval) :
  py_eq v (of_option o) = py_eq (of_option o) v.
Proof. destruct o as [p|], v; simpl; try reflexivity. apply String.eqb_sym. Qed.

(** X4.  An Update whose cluster name is not the physical id: whatever the
    old configuration is, a replacement is required, and the new cluster is
    created under the name of the request; no name is made up.  When the
    calls succeed the answer is SUCCESS with that name as physical id. *)
Theorem rename_creates_under_given_name :
  forall event ctx config old_config cluster_name,
    Event.RequestType event = "Update"%string ->
    Classified event config old_config cluster_name ->
    py_ne (of_option (Event.PhysicalResourceId event)) cluster_name = true ->
    let physical_id := of_option (Event.PhysicalResourceId event) in
    let named := dict_set config "name" cluster_name in
    (forall vpc role,
        should_replace_cluster physical_id cluster_name old_config vpc role = inr true)
    /\ (forall w described current created waited resp attrs,
           w [] (EksDescribeCluster physical_id) = inr described ->
           getitem described "cluster" = inr current ->
           w [EksDescribeCluster physical_id] (EksCreateCluster named) = inr created ->
           w [EksDescribeCluster physical_id; EksCreateCluster named]
             (EksWaitClusterActive cluster_name 30 26) = inr waited ->
           w [EksDescribeCluster physical_id; EksCreateCluster named;
              EksWaitClusterActive cluster_name 30 26]
             (EksDescribeCluster cluster_name) = inr resp ->
           attributes resp = inr attrs ->
           run w event ctx
           = [EksDescribeCluster physical_id; EksCreateCluster named;
              EksWaitClusterActive cluster_name 30 26; EksDescribeCluster cluster_name;
              RequestsPut (Event.ResponseURL event)
                (sent event ctx CFN_SUCCESS attrs cluster_name None)]).
Proof.
  intros event ctx config old_config cluster_name Hty Hc Hne physical_id named.
  assert (Hreplace : forall vpc role,
             should_replace_cluster physical_id cluster_name old_config vpc role = inr true).
  { intros vpc role. unfold should_replace_cluster, physical_id. now rewrite Hne. }
  split; [exact Hreplace|].
  intros w described current created waited resp attrs H1 H2 H3 H4 H5 H6.
  rewrite (run_classified _ _ _ _ _ _ Hc).
  unfold reconcile, try_except, update, bind, lift, invoke, ret. rewrite Hty. simpl.
  unfold physical_id, named in *.
  rewrite H1, H2, Hreplace. rewrite py_eq_of_option.
  unfold py_ne in Hne.
  destruct (py_eq (of_option (Event.PhysicalResourceId event)) cluster_name);
    [discriminate|]. simpl.
  rewrite H3. simpl. rewrite H4. simpl. rewrite H5, H6.
  now rewrite cfn_send_run.
Qed.

Lemma rename_creates_under_given_name_witness :
  map is_create (run (Scenarios.cooperative "1.20") MoreScenarios.rename_to_blue Scenarios.ctx)
  = [false; true; false; false; false]
  /\ map Response.PhysicalResourceId
         (responses (run (Scenarios.cooperative "1.20") MoreScenarios.rename_to_blue
                         Scenarios.ctx))
     = [PStr "blue"].
Proof.
  rewrite (proj2 (rename_creates_under_given_name MoreScenarios.rename_to_blue Scenarios.ctx
                    (Scenarios.cluster_config (Some "blue") "arn:aws:iam::1:role/eks"
                                              (Some "1.20"))
                    (PDict (Scenarios.cluster_config (Some "prod") "arn:aws:iam::1:role/eks"
                                                     (Some "1.20")))
                    (PStr "blue") eq_refl
                    (Build_Classified MoreScenarios.rename_to_blue
                       (Scenarios.cluster_config (Some "blue") "arn:aws:iam::1:role/eks"
                                                 (Some "1.20"))
                       (PDict (Scenarios.cluster_config (Some "prod")
                                 "arn:aws:iam::1:role/eks" (Some "1.20")))
                       (PStr "blue") eq_refl eq_refl eq_refl) eq_refl)
                 (Scenarios.cooperative "1.20")
                 (Scenarios.described (PStr "prod") "1.20") _ (PDict []) (PDict [])
                 (Scenarios.described (PStr "blue") "1.20") _
                 eq_refl eq_refl eq_refl eq_refl eq_refl eq_refl).
  split; reflexivity.
Defined.

(** *** What every run answers *)

(** The responses of the handler: the FAILED one [cfn_error] makes of an
    exception, the SUCCESS of a Delete, and the SUCCESS that carries the
    attributes of a description. *)
Inductive answer (event : Event.event) (ctx : context) : Response.body -> Prop :=
| answer_failed (e : exn) :
    answer event ctx (sent event ctx CFN_FAILED [] PNone (Some (exn_str e)))
| answer_deleted (name : pyval) :
    Event.RequestType event = "Delete"%string ->
    answer event ctx (sent event ctx CFN_SUCCESS [] name None)
| answer_active (resp : pyval) (attrs : dict) (name : pyval) :
    Event.RequestType event <> "Delete"%string ->
    attributes resp = inr attrs ->
    answer event ctx (sent event ctx CFN_SUCCESS attrs name None).

Lemma reports_bind_lift f {A B} (r : result A) (k : A -> M B) url ok :
  (forall a, r = inr a -> reports f (k a) url ok) -> reports f (bind (lift r) k) url ok.
Proof.
  destruct r as [e|a]; intros H.
  - exact (reports_raise f e url ok).
  - exact (H a eq_refl).
Qed.

Lemma body_answers event ctx :
  reports (fun _ => false) (handler_body event ctx) (Event.ResponseURL event)
          (answer event ctx).
Proof.
  unfold handler_body.
  apply reports_bind; [apply plain_lift|intros config].
  apply reports_bind; [apply plain_lift|intros old_config].
  destruct config;
    try (apply reports_bind; [apply plain_lift|intros; apply reports_raise]).
  apply reports_bind; [apply plain_lift|intros cluster_name].
  unfold reconcile.
  destruct (String.eqb_spec (Event.RequestType event) "Delete") as [Hd|Hd].
  - apply reports_bind; [now apply plain_invoke|intros _].
    apply reports_bind; [now apply plain_invoke|intros _].
    apply cfn_send_reports. now constructor.
  - apply reports_bind.
    { destruct (String.eqb (Event.RequestType event) "Create"); [plain_steps|].
      destruct (String.eqb (Event.RequestType event) "Update");
        [now apply update_plain|apply plain_raise]. }
    intros name.
    apply reports_bind; [now apply plain_invoke|intros _].
    apply reports_bind; [now apply plain_invoke|intros resp].
    apply reports_bind_lift. intros attrs Hattrs.
    apply cfn_send_reports. now apply answer_active with resp.
Qed.

(** The handler returns, and its last call is the PUT of its one
    response. *)
Lemma handler_answers w event ctx :
  exists d body,
    handler event ctx w [] = (d ++ [RequestsPut (Event.ResponseURL event) body], inr tt)
    /\ none_of is_put d
    /\ answer event ctx body.
Proof.
  destruct (body_answers event ctx w []) as (d & r & _ & N & _ & E).
  unfold handler, try_except. destruct r as [e|[]].
  - rewrite E. unfold cfn_error. rewrite cfn_send_run.
    exists d, (sent event ctx CFN_FAILED [] PNone (Some (exn_str e))).
    repeat split; [assumption|constructor].
  - destruct E as (b & E & Hok). rewrite E. now exists d, b.
Qed.

Lemma run_answers w event ctx :
  exists body, responses (run w event ctx) = [body] /\ answer event ctx body.
Proof.
  destruct (handler_answers w event ctx) as (d & body & E & N & A).
  exists body. split; [|exact A]. unfold run. rewrite E. simpl.
  rewrite responses_app, (none_of_put_responses d N). reflexivity.
Qed.

(** What [attributes] returns, when it returns. *)
Lemma attributes_inr resp attrs :
  attributes resp = inr attrs ->
  exists cluster ca name endpoint arn data,
    getitem resp "cluster" = inr cluster
    /\ getitem cluster "name" = inr name
    /\ getitem cluster "endpoint" = inr endpoint
    /\ getitem cluster "arn" = inr arn
    /\ getitem cluster "certificateAuthority" = inr ca
    /\ getitem ca "data" = inr data
    /\ attrs = [("Name", name); ("Endpoint", endpoint); ("Arn", arn);
                ("CertificateAuthorityData", data)].
Proof.
  unfold attributes.
  destruct (getitem resp "cluster") as [|cluster] eqn:H1; [discriminate|].
  destruct (getitem cluster "name") as [|name] eqn:H2; [discriminate|].
  destruct (getitem cluster "endpoint") as [|endpoint] eqn:H3; [discriminate|].
  destruct (getitem cluster "arn") as [|arn] eqn:H4; [discriminate|].
  destruct (getitem cluster "certificateAuthority") as [|ca] eqn:H5; [discriminate|].
  destruct (getitem ca "data") as [|data] eqn:H6; [discriminate|].
  intros [= <-]. exists cluster, ca, name, endpoint, arn, data. repeat split; assumption.
Qed.

(** [concludes m url ok]: [m] sends no response and raises, or returns
    after exactly one response, sent last; [ok] relates the response to the
    world and to the trace it was sent after. *)
Definition concludes (m : M unit) (url : string)
    (ok : world -> trace -> Response.body -> Prop) : Prop :=
  forall w t, exists d r,
      none_of is_put d
      /\ match r with
         | inl e => m w t = (t ++ d, inl e)
         | inr a => exists b, m w t = (t ++ d ++ [RequestsPut url b], inr a) /\ ok w (t ++ d) b
         end.

Lemma concludes_raise (e : exn) url ok : concludes (raise e) url ok.
Proof.
  intros w t. exists [], (inl e). split; [reflexivity|]. unfold raise. now rewrite app_nil_r.
Qed.

Lemma concludes_bind {A} (m : M A) (k : A -> M unit) url ok :
  plain (fun _ => false) m -> (forall a, concludes (k a) url ok) -> concludes (bind m k) url ok.
Proof.
  intros Hm Hk w t. unfold bind.
  destruct (Hm w t) as (d1 & r1 & E1 & _ & P1 & _). rewrite E1.
  destruct r1 as [e|a]; [now exists d1, (inl e)|].
  destruct (Hk a w (t ++ d1)) as (d2 & r2 & P2 & E2).
  exists (d1 ++ d2), r2. split; [now apply none_of_app|].
  destruct r2 as [e|u].
  - now rewrite E2, app_assoc.
  - destruct E2 as (b & E2 & Hok). exists b. rewrite E2.
    now rewrite !app_assoc in *.
Qed.

(** What a response has to do with the calls before it: the SUCCESS of a
    Delete follows anything; the SUCCESS of another request follows a
    [describe_cluster] of the cluster it names, and its data are the
    attributes of what the world answered to that call. *)
Inductive follows (event : Event.event) (ctx : context) (w : world)
    : trace -> Response.body -> Prop :=
| follows_delete (t : trace) (name : pyval) :
    Event.RequestType event = "Delete"%string ->
    follows event ctx w t (sent event ctx CFN_SUCCESS [] name None)
| follows_describe (t : trace) (name resp : pyval) (attrs : dict) :
    Event.RequestType event <> "Delete"%string ->
    w t (EksDescribeCluster name) = inr resp ->
    attributes resp = inr attrs ->
    follows event ctx w (t ++ [EksDescribeCluster name])
            (sent event ctx CFN_SUCCESS attrs name None).

(** The end of every path but Delete: the cluster is described, and the
    response carries what the description holds. *)
Lemma describe_concludes event ctx name :
  Event.RequestType event <> "Delete"%string ->
  concludes (bind (invoke (EksDescribeCluster name)) (fun resp =>
             bind (lift (attributes resp)) (fun attrs =>
             cfn_send event ctx CFN_SUCCESS attrs name None)))
            (Event.ResponseURL event) (follows event ctx).
Proof.
  intros Hd w t. unfold bind, invoke, lift.
  destruct (w t (EksDescribeCluster name)) as [e|resp] eqn:E.
  - exists [EksDescribeCluster name], (inl e). split; [reflexivity|reflexivity].
  - destruct (attributes resp) as [e|attrs] eqn:Hattrs.
    + exists [EksDescribeCluster name], (inl e). split; reflexivity.
    + exists [EksDescribeCluster name], (inr tt). split; [reflexivity|].
      exists (sent event ctx CFN_SUCCESS attrs name None).
      rewrite cfn_send_run, <- app_assoc. split; [reflexivity|].
      now apply follows_describe with resp.
Qed.

Lemma body_concludes event ctx :
  concludes (handler_body event ctx) (Event.ResponseURL event) (follows event ctx).
Proof.
  unfold handler_body.
  apply concludes_bind; [apply plain_lift|intros config].
  apply concludes_bind; [apply plain_lift|intros old_config].
  destruct config;
    try (apply concludes_bind; [apply plain_lift|intros; apply concludes_raise]).
  apply concludes_bind; [apply plain_lift|intros cluster_name].
  unfold reconcile.
  destruct (String.eqb_spec (Event.RequestType event) "Delete") as [Hd|Hd].
  - apply concludes_bind; [now apply plain_invoke|intros _].
    apply concludes_bind; [now apply plain_invoke|intros _].
    intros w t. exists [], (inr tt). split; [reflexivity|].
    exists (sent event ctx CFN_SUCCESS [] cluster_name None).
    rewrite cfn_send_run, app_nil_r. split; [reflexivity|]. now constructor.
  - apply concludes_bind.
    { destruct (String.eqb (Event.RequestType event) "Create"); [plain_steps|].
      destruct (String.eqb (Event.RequestType event) "Update");
        [now apply update_plain|apply plain_raise]. }
    intros name.
    apply concludes_bind; [now apply plain_invoke|intros _].
    now apply describe_concludes.
Qed.

(** The handler returns after its one response; a response that is not
    the FAILED one of [cfn_error] follows the calls as [follows] says. *)
Lemma handler_concludes w event ctx :
  exists d body,
    handler event ctx w [] = (d ++ [RequestsPut (Event.ResponseURL event) body], inr tt)
    /\ none_of is_put d
    /\ ((exists e, body = sent event ctx CFN_FAILED [] PNone (Some (exn_str e)))
        \/ follows event ctx w d body).
Proof.
  destruct (body_concludes event ctx w []) as (d & r & N & E).
  unfold handler, try_except. destruct r as [e|[]].
  - rewrite E. unfold cfn_error. rewrite cfn_send_run.
    exists d, (sent event ctx CFN_FAILED [] PNone (Some (exn_str e))).
    split; [reflexivity|]. split; [assumption|]. left. now exists e.
  - destruct E as (b & E & Hok). rewrite E. exists d, b.
    split; [reflexivity|]. split; [assumption|]. now right.
Qed.

(** X5.  The data of the response, in any world: the run ends with the
    one response; a FAILED response and the response to a Delete carry no
    data; before a SUCCESS response to another request, the last call is the
    [describe_cluster] of the cluster the response names, and the data are
    the four attributes Name, Endpoint, Arn and CertificateAuthorityData
    read off what the world answered to that call. *)
Theorem response_data :
  forall w event ctx,
  exists d body,
    run w event ctx = d ++ [RequestsPut (Event.ResponseURL event) body]
    /\ responses (run w event ctx) = [body]
    /\ (Response.Status body = "FAILED"%string -> Response.Data body = [])
    /\ (Event.RequestType event = "Delete"%string -> Response.Data body = [])
    /\ (Response.Status body = "SUCCESS"%string ->
        Event.RequestType event <> "Delete"%string ->
        exists t name resp cluster ca,
          d = t ++ [EksDescribeCluster name]
          /\ w t (EksDescribeCluster name) = inr resp
          /\ body = sent event ctx CFN_SUCCESS (Response.Data body) name None
          /\ getitem resp "cluster" = inr cluster
          /\ getitem cluster "certificateAuthority" = inr ca
          /\ keys (Response.Data body)
             = ["Name"; "Endpoint"; "Arn"; "CertificateAuthorityData"]%string
          /\ getitem cluster "name" = inr (dict_get (Response.Data body) "Name")
          /\ getitem cluster "endpoint" = inr (dict_get (Response.Data body) "Endpoint")
          /\ getitem cluster "arn" = inr (dict_get (Response.Data body) "Arn")
          /\ getitem ca "data"
             = inr (dict_get (Response.Data body) "CertificateAuthorityData")).
Proof.
  intros w event ctx. destruct (handler_concludes w event ctx) as (d & body & E & N & A).
  exists d, body. unfold run. rewrite E. cbn [fst].
  split; [reflexivity|].
  split; [rewrite responses_app, (none_of_put_responses d N); reflexivity|].
  destruct A as [[e ->]|A].
  - repeat split; try reflexivity. discriminate.
  - destruct A as [t name Hd|t name resp attrs Hd Hw Hattrs].
    + repeat split; try reflexivity. intros _ H. contradiction.
    + split; [discriminate|]. split; [intros H; contradiction|]. intros _ _.
      destruct (attributes_inr resp attrs Hattrs)
        as (cluster & ca & n & en & arn & data & H1 & H2 & H3 & H4 & H5 & H6 & ->).
      exists t, name, resp, cluster, ca. repeat split; assumption.
Qed.

(** A Create of the cluster "prod": the data are those of the description
    the world gave. *)
Lemma response_data_witness :
  exists d body,
    run (Scenarios.cooperative "1.20") MoreScenarios.create_prod Scenarios.ctx
    = d ++ [RequestsPut (Event.ResponseURL MoreScenarios.create_prod) body]
    /\ d = [EksCreateCluster
              (Scenarios.cluster_config (Some "prod") "arn:aws:iam::1:role/eks" (Some "1.20"));
            EksWaitClusterActive (PStr "prod") 30 26]
           ++ [EksDescribeCluster (PStr "prod")]
    /\ Response.Data body
       = [("Name", PStr "prod");
          ("Endpoint", PStr "https://c.eks.amazonaws.com");
          ("Arn", PStr "arn:aws:eks:eu-west-1:1:cluster/c");
          ("CertificateAuthorityData", PStr "LS0t")].
Proof.
  destruct (response_data (Scenarios.cooperative "1.20") MoreScenarios.create_prod
              Scenarios.ctx) as (d & body & E & _).
  exists d, body. split; [exact E|].
  apply app_inj_tail in E. destruct E as [<- [= <-]]. split; reflexivity.
Defined.

(** X6.  The physical id of a FAILED response, in any world: the physical
    id of the request when it has one, so that a failed Update or Delete
    does not change it; the name of the log stream otherwise. *)
Theorem failed_response_physical_id :
  forall w event ctx,
  exists body,
    responses (run w event ctx) = [body]
    /\ (Response.Status body = "FAILED"%string ->
        Response.PhysicalResourceId body
        = match Event.PhysicalResourceId event with
          | Some p => PStr p
          | None => PStr (log_stream_name ctx)
          end).
Proof.
  intros w event ctx. destruct (run_answers w event ctx) as (body & E & A).
  exists body. split; [exact E|].
  destruct A as [e|name Hd|resp attrs name Hd Hattrs]; simpl; try discriminate.
  reflexivity.
Qed.

(** X7.  Which EKS operations a request can lead to, in any world: only a
    Delete deletes a cluster, and it does nothing else; only an Update
    updates a version. *)
Theorem operations_by_request_type :
  forall w event ctx,
    (Event.RequestType event <> "Delete"%string ->
     all_of (fun c => negb (is_delete c) && negb (is_wait_deleted c)) (run w event ctx))
    /\ (Event.RequestType event = "Delete"%string ->
        all_of (fun c => is_delete c || is_wait_deleted c || is_put c) (run w event ctx))
    /\ (Event.RequestType event <> "Update"%string ->
        all_of (fun c => negb (is_update c)) (run w event ctx)).
Proof.
  intros w event ctx.
  assert (Hrun : forall f, issues f (handler event ctx) -> all_of f (run w event ctx)).
  { intros f H. destruct (H w []) as (d & r & E & F). unfold run. now rewrite E. }
  repeat split; intros Hty; apply Hrun;
    unfold handler, handler_body, reconcile, update, cfn_error, cfn_send.
  - destruct (String.eqb_spec (Event.RequestType event) "Delete"); [contradiction|].
    issues_steps.
  - rewrite Hty. simpl. issues_steps.
  - destruct (String.eqb_spec (Event.RequestType event) "Update"); [contradiction|].
    issues_steps.
Qed.

End ClusterResourceMore.

(** ** The helm-chart handler: the other paths *)

Module HelmChartMore.
Import Py Effects HelmChart PyFacts Traces HelmChartSpec Issues.
Local Open Scope list_scope.

(** The file the values are written to. *)
Definition values_file (env : Environ.environ) : string :=
  path_join (Environ.outdir env) "values.yaml".

(** [helm upgrade] with the values file. *)
Definition upgrade_with_values (env : Environ.environ) (props : dict) (release chart : pyval)
    : call :=
  CheckOutput (helm_command env "upgrade" release chart (dict_get props "Repository")
                            (PStr (values_file env))
                            (dict_get props "Namespace") (dict_get props "Version"))
              (Environ.outdir env).

(** The responses of the handler: FAILED with a reason, or SUCCESS with a
    physical id that is not empty; neither carries data. *)
Inductive answer (event : Event.event) (ctx : context) : Response.body -> Prop :=
| answer_failed (msg : string) :
    answer event ctx (sent event ctx CFN_FAILED [] PNone (Some msg))
| answer_success (physical_id : pyval) :
    truthy physical_id = true ->
    answer event ctx (sent event ctx CFN_SUCCESS [] physical_id None).

Lemma allocated_id_truthy (cluster_name : string) (uuid : pyval) :
  truthy (PStr (cluster_name ++ "/" ++ py_str uuid)%string) = true.
Proof. simpl. now destruct cluster_name. Qed.

Section Handler.
Variable json_loads : pyval -> result pyval.
Variables (env : Environ.environ) (event : Event.event) (ctx : context).

Lemma chart_body_answers :
  settles is_uninstall (handler_body json_loads env event ctx) (Event.ResponseURL event)
          (answer event ctx).
Proof.
  unfold handler_body.
  do 6 (apply settles_bind; [apply passes_lift|intros ?]).
  destruct (Environ.CLUSTER_NAME env) as [cluster_name|];
    [|apply cfn_send_settles; constructor].
  apply settles_bind; [now apply passes_invoke|intros _].
  apply settles_bind.
  { destruct (_ && _); [|apply passes_ret].
    apply passes_bind; [apply passes_lift|intros values].
    apply passes_bind; [now apply passes_invoke|intros _]. apply passes_ret. }
  intros file.
  apply settles_bind.
  { destruct (_ || _); [apply helm_passes|].
    destruct (String.eqb _ "Delete"); [apply uninstall_swallowed|apply passes_ret]. }
  intros _.
  destruct (String.eqb (Event.RequestType event) "Create").
  - apply settles_bind; [now apply passes_invoke|intros uuid].
    apply cfn_send_settles. constructor. apply allocated_id_truthy.
  - destruct (truthy (of_option (Event.PhysicalResourceId event))) eqn:Hp; simpl;
      apply cfn_send_settles; now constructor.
Qed.

(** The handler returns, and its last call is the PUT of its one
    response. *)
Lemma chart_handler_answers w :
  exists d body,
    handler json_loads env event ctx w []
    = (d ++ [RequestsPut (Event.ResponseURL event) body], inr tt)
    /\ none_of is_put d
    /\ answer event ctx body.
Proof.
  destruct (chart_body_answers w []) as (d & r & N & _ & E).
  unfold handler, try_except. destruct r as [e|[]].
  - rewrite E.
    exists d, (sent event ctx CFN_FAILED [] PNone (Some (failure_reason e))).
    split; [|split; [assumption|constructor]].
    destruct e; unfold cfn_error; now rewrite chart_cfn_send_run.
  - destruct E as (b & E & Hok). rewrite E. now exists d, b.
Qed.

End Handler.

(** *** Requests that do not get as far as helm *)

(** X8.  Without CLUSTER_NAME in the environment a request that has its
    release and chart is answered FAILED, "CLUSTER_NAME is missing in
    environment", and no command is run. *)
Theorem cluster_name_required :
  forall json_loads w env event ctx props release chart,
    Event.ResourceProperties event = PDict props ->
    assoc "Release" props = Some release ->
    assoc "Chart" props = Some chart ->
    Environ.CLUSTER_NAME env = None ->
    run json_loads w env event ctx
    = [RequestsPut (Event.ResponseURL event)
         (sent event ctx CFN_FAILED [] PNone
            (Some "CLUSTER_NAME is missing in environment"%string))].
Proof.
  intros json_loads w env event ctx props release chart Hprops Hr Hc Hcl.
  unfold run, handler, handler_body, try_except, bind, lift.
  rewrite Hprops, Hcl. simpl. rewrite Hr, Hc. simpl.
  unfold cfn_error. now rewrite chart_cfn_send_run.
Qed.

Lemma cluster_name_required_witness :
  map (fun b => (Response.Status b, Response.Reason b))
      (responses
         (run Scenarios.no_values (Scenarios.helm_fails "")
              {| Environ.CLUSTER_NAME := None; Environ.TEST_OUTDIR := None |}
              (Scenarios.chart_request "Create" None) Scenarios.ctx))
  = [("FAILED"%string, "CLUSTER_NAME is missing in environment"%string)].
Proof.
  rewrite (cluster_name_required Scenarios.no_values (Scenarios.helm_fails "")
             {| Environ.CLUSTER_NAME := None; Environ.TEST_OUTDIR := None |}
             (Scenarios.chart_request "Create" None) Scenarios.ctx
             _ (PStr "ingress") (PStr "nginx-ingress") eq_refl eq_refl eq_refl eq_refl).
  reflexivity.
Defined.

(** X9.  A request whose properties lack [Release], or have it and lack
    [Chart], is answered FAILED with the reason "invalid request. Missing
    ''Release''" (or ''Chart''; the key comes in quotes of its own), whatever
    its type, a Delete included, and whatever the environment; no command
    is run. *)
Theorem release_and_chart_required :
  forall json_loads w env event ctx props,
    Event.ResourceProperties event = PDict props ->
    (assoc "Release" props = None ->
     run json_loads w env event ctx
     = [RequestsPut (Event.ResponseURL event)
          (sent event ctx CFN_FAILED [] PNone
             (Some "invalid request. Missing ''Release''"%string))])
    /\ (forall release,
           assoc "Release" props = Some release ->
           assoc "Chart" props = None ->
           run json_loads w env event ctx
           = [RequestsPut (Event.ResponseURL event)
                (sent event ctx CFN_FAILED [] PNone
                   (Some "invalid request. Missing ''Chart''"%string))]).
Proof.
  intros json_loads w env event ctx props Hprops. split.
  - intros Hr. unfold run, handler, handler_body, try_except, bind, lift.
    rewrite Hprops. simpl. rewrite Hr. simpl.
    unfold cfn_error. now rewrite chart_cfn_send_run.
  - intros release Hr Hc. unfold run, handler, handler_body, try_except, bind, lift.
    rewrite Hprops. simpl. rewrite Hr, Hc. simpl.
    unfold cfn_error. now rewrite chart_cfn_send_run.
Qed.

Lemma release_and_chart_required_witness :
  map (fun b => (Response.Status b, Response.Reason b))
      (responses
         (run Scenarios.no_values MoreScenarios.all_well Scenarios.env
              MoreScenarios.chart_without_release Scenarios.ctx))
  = [("FAILED"%string, "invalid request. Missing ''Release''"%string)].
Proof.
  rewrite (proj1 (release_and_chart_required Scenarios.no_values MoreScenarios.all_well
                    Scenarios.env MoreScenarios.chart_without_release Scenarios.ctx
                    _ eq_refl) eq_refl).
  reflexivity.
Defined.

(** *** Install and upgrade *)

Section Reached.
Variable json_loads : pyval -> result pyval.
Variables (env : Environ.environ) (event : Event.event) (ctx : context).
Variables (props : dict) (release chart : pyval) (cluster_name : string).

Hypothesis properties : Event.ResourceProperties event = PDict props.
Hypothesis has_release : assoc "Release" props = Some release.
Hypothesis has_chart : assoc "Chart" props = Some chart.
Hypothesis has_cluster : Environ.CLUSTER_NAME env = Some cluster_name.

Let url : string := Event.ResponseURL event.
Let login : call := login env cluster_name.
Let upgrade : call := upgrade env props release chart.
Let upgrade_with_values : call := upgrade_with_values env props release chart.
Let values_text : pyval := dict_get props "Values".
Let write (values : pyval) : call := WriteJsonFile (values_file env) values.

(** The handler up to the values, for a request that is not a Delete. *)
Lemma install_run w logged :
  Event.RequestType event = "Create"%string \/ Event.RequestType event = "Update"%string ->
  w [] login = inr logged ->
  handler json_loads env event ctx w []
  = try_except
      (bind
         (if negb (is_none values_text) then
            bind (lift (json_loads values_text)) (fun values =>
            bind (invoke (write values)) (fun _ => ret (PStr (values_file env))))
          else ret PNone)
         (fun file =>
            bind (helm env "upgrade" release chart (dict_get props "Repository") file
                       (dict_get props "Namespace") (dict_get props "Version"))
              (fun _ =>
                 if String.eqb (Event.RequestType event) "Create" then
                   bind (invoke Uuid4) (fun uuid =>
                   cfn_send event ctx CFN_SUCCESS []
                     (PStr (cluster_name ++ "/" ++ py_str uuid)%string) None)
                 else if negb (truthy (of_option (Event.PhysicalResourceId event))) then
                   cfn_error event ctx
                     ("invalid request: request type is '" ++ Event.RequestType event
                      ++ "' but 'PhysicalResourceId' is not defined")%string
                 else cfn_send event ctx CFN_SUCCESS []
                        (of_option (Event.PhysicalResourceId event)) None)))
      (fun e =>
         match e with
         | KeyError _ =>
             cfn_error event ctx ("invalid request. Missing '" ++ exn_str e ++ "'")%string
         | _ => cfn_error event ctx (exn_str e)
         end) w [login].
Proof.
  intros Hty Hlogin.
  unfold handler, handler_body, try_except, bind, lift, invoke.
  rewrite properties, has_cluster. simpl. rewrite has_release, has_chart. simpl.
  change (CheckCall _) with login. rewrite Hlogin.
  fold (dict_get props "Values") (dict_get props "Namespace")
       (dict_get props "Repository") (dict_get props "Version").
  fold values_text.
  destruct Hty as [Hty|Hty]; rewrite Hty; reflexivity.
Qed.

Lemma run_handler w : run json_loads w env event ctx = fst (handler json_loads env event ctx w []).
Proof. reflexivity. Qed.

(** X10.  A Create without values whose upgrade succeeds gets a physical
    id of its own, the cluster name, a slash and a fresh uuid, whatever
    physical id the request came with; the answer is SUCCESS. *)
Theorem create_allocates_physical_id :
  forall w logged upgraded uuid,
    Event.RequestType event = "Create"%string ->
    is_none values_text = true ->
    w [] login = inr logged ->
    w [login] upgrade = inr upgraded ->
    w [login; upgrade] Uuid4 = inr uuid ->
    exists body,
      run json_loads w env event ctx = [login; upgrade; Uuid4; RequestsPut url body]
      /\ Response.Status body = "SUCCESS"%string
      /\ Response.PhysicalResourceId body = PStr (cluster_name ++ "/" ++ py_str uuid)%string.
Proof.
  intros w logged upgraded uuid Hty Hv H1 H2 H3.
  exists (sent event ctx CFN_SUCCESS [] (PStr (cluster_name ++ "/" ++ py_str uuid)%string) None).
  split.
  - rewrite run_handler, (install_run w logged (or_introl Hty) H1).
    unfold try_except, bind, ret, invoke. rewrite Hv, Hty. simpl.
    rewrite helm_run. change (CheckOutput _ _) with upgrade. rewrite H2. simpl.
    rewrite H3. now rewrite chart_cfn_send_run.
  - split; [reflexivity|]. cbn [Response.PhysicalResourceId sent].
    unfold py_or. now rewrite allocated_id_truthy.
Qed.

(** X11.  A Create or an Update with values: the text is parsed and the
    result written to [values.yaml] in the scratch directory, before helm
    runs; helm then gets the file with [--values].  When the text does not
    parse, or the file cannot be written, the answer is FAILED and helm is
    not run. *)
Theorem values_written_before_upgrade :
  forall w logged,
    Event.RequestType event = "Create"%string \/ Event.RequestType event = "Update"%string ->
    is_none values_text = false ->
    w [] login = inr logged ->
    (forall e,
        json_loads values_text = inl e ->
        run json_loads w env event ctx
        = [login;
           RequestsPut url (sent event ctx CFN_FAILED [] PNone (Some (failure_reason e)))])
    /\ (forall values e,
           json_loads values_text = inr values ->
           w [login] (write values) = inl e ->
           run json_loads w env event ctx
           = [login; write values;
              RequestsPut url (sent event ctx CFN_FAILED [] PNone (Some (failure_reason e)))])
    /\ (forall values written,
           json_loads values_text = inr values ->
           w [login] (write values) = inr written ->
           exists rest,
             run json_loads w env event ctx
             = login :: write values :: upgrade_with_values :: rest
             /\ all_of (fun c => negb (is_helm c) && negb (is_write c)) rest).
Proof.
  intros w logged Hty Hv H1. rewrite run_handler, (install_run w logged Hty H1).
  unfold try_except, bind, lift, ret, invoke. rewrite Hv. simpl.
  split; [|split].
  - intros e He. rewrite He. simpl.
    destruct e; unfold cfn_error; now rewrite chart_cfn_send_run.
  - intros values e He Hw. rewrite He. simpl. fold (write values). rewrite Hw. simpl.
    destruct e; unfold cfn_error; now rewrite chart_cfn_send_run.
  - intros values written He Hw. rewrite He. simpl. fold (write values). rewrite Hw.
    rewrite helm_run. change (CheckOutput _ _) with upgrade_with_values.
    destruct (w [login; write values] upgrade_with_values) as [e|upgraded]; simpl.
    + destruct e; simpl; unfold cfn_error; rewrite chart_cfn_send_run;
        eexists; split; reflexivity.
    + destruct (String.eqb (Event.RequestType event) "Create").
      * unfold bind, invoke.
        destruct (w [login; write values; upgrade_with_values] Uuid4) as [e|uuid]; simpl.
        -- destruct e; unfold cfn_error; rewrite chart_cfn_send_run;
             eexists; split; reflexivity.
        -- rewrite chart_cfn_send_run. eexists. split; reflexivity.
      * destruct (negb _); unfold cfn_error; rewrite chart_cfn_send_run;
          eexists; split; reflexivity.
Qed.

(** X12.  A Create or an Update without values whose upgrade exits
    non-zero is answered FAILED with the [repr] of the captured output,
    [b'...'], for reason; a Create then asks for no uuid.  Any other
    exception of the run is answered FAILED with its message. *)
Theorem upgrade_failure_reported :
  forall w logged,
    Event.RequestType event = "Create"%string \/ Event.RequestType event = "Update"%string ->
    is_none values_text = true ->
    w [] login = inr logged ->
    (forall msg output,
        w [login] upgrade = inl (CalledProcessError msg output) ->
        exists body,
          run json_loads w env event ctx = [login; upgrade; RequestsPut url body]
          /\ Response.Status body = "FAILED"%string
          /\ Response.Reason body = bytes_repr output)
    /\ (forall e,
           w [login] upgrade = inl e ->
           (forall msg output, e <> CalledProcessError msg output) ->
           run json_loads w env event ctx
           = [login; upgrade;
              RequestsPut url (sent event ctx CFN_FAILED [] PNone (Some (failure_reason e)))]).
Proof.
  intros w logged Hty Hv H1. rewrite run_handler, (install_run w logged Hty H1).
  unfold try_except, bind, ret. rewrite Hv. simpl.
  rewrite helm_run. change (CheckOutput _ _) with upgrade.
  split.
  - intros msg output H2. rewrite H2. simpl.
    exists (sent event ctx CFN_FAILED [] PNone (Some (bytes_repr output))).
    split; [unfold cfn_error; now rewrite chart_cfn_send_run|].
    split; reflexivity.
  - intros e H2 Hne. rewrite H2.
    destruct e; simpl; unfold cfn_error; try (now rewrite chart_cfn_send_run).
    exfalso. now apply (Hne msg output).
Qed.

End Reached.

(** A Create that comes with a physical id gets a new one. *)
Lemma create_allocates_physical_id_witness :
  exists body,
    run Scenarios.no_values MoreScenarios.all_well Scenarios.env
        (Scenarios.chart_request "Create" (Some "prod/7d3c")) Scenarios.ctx
    = [CheckCall [PStr "aws"; PStr "eks"; PStr "update-kubeconfig"; PStr "--name";
                  PStr "prod"; PStr "--kubeconfig"; PStr "/tmp/kubeconfig"];
       CheckOutput [PStr "helm"; PStr "upgrade"; PStr "ingress"; PStr "nginx-ingress";
                    PStr "--install"; PStr "--namespace"; PStr "kube-system";
                    PStr "--kubeconfig"; PStr "/tmp/kubeconfig"] "/tmp";
       Uuid4;
       RequestsPut "https://cloudformation-custom-resource-response/put" body]
    /\ Response.Status body = "SUCCESS"%string
    /\ Response.PhysicalResourceId body = PStr "prod/1b4e28ba-2fa1-11d2-883f-0016d3cca427".
Proof.
  exact (create_allocates_physical_id Scenarios.no_values Scenarios.env
           (Scenarios.chart_request "Create" (Some "prod/7d3c")) Scenarios.ctx
           _ (PStr "ingress") (PStr "nginx-ingress") "prod"
           eq_refl eq_refl eq_refl eq_refl
           MoreScenarios.all_well PNone PNone
           (PStr "1b4e28ba-2fa1-11d2-883f-0016d3cca427")
           eq_refl eq_refl eq_refl eq_refl eq_refl).
Defined.

(** An Update with the values "{}". *)
Lemma values_written_before_upgrade_witness :
  exists rest,
    run MoreScenarios.loads_empty MoreScenarios.all_well Scenarios.env
        (MoreScenarios.chart_with_values "Update") Scenarios.ctx
    = CheckCall [PStr "aws"; PStr "eks"; PStr "update-kubeconfig"; PStr "--name";
                 PStr "prod"; PStr "--kubeconfig"; PStr "/tmp/kubeconfig"]
      :: WriteJsonFile "/tmp/values.yaml" (PDict [])
      :: CheckOutput [PStr "helm"; PStr "upgrade"; PStr "ingress"; PStr "nginx-ingress";
                      PStr "--install"; PStr "--values"; PStr "/tmp/values.yaml";
                      PStr "--kubeconfig"; PStr "/tmp/kubeconfig"] "/tmp"
      :: rest
    /\ all_of (fun c => negb (is_helm c) && negb (is_write c)) rest.
Proof.
  exact (proj2 (proj2
           (values_written_before_upgrade MoreScenarios.loads_empty Scenarios.env
              (MoreScenarios.chart_with_values "Update") Scenarios.ctx
              _ (PStr "ingress") (PStr "nginx-ingress") "prod"
              eq_refl eq_refl eq_refl eq_refl
              MoreScenarios.all_well PNone (or_intror eq_refl) eq_refl eq_refl))
           (PDict []) PNone eq_refl eq_refl).
Defined.

(** A Create whose upgrade fails. *)
Lemma upgrade_failure_reported_witness :
  exists body,
    run Scenarios.no_values (Scenarios.helm_fails "Error: UPGRADE FAILED") Scenarios.env
        (Scenarios.chart_request "Create" None) Scenarios.ctx
    = [CheckCall [PStr "aws"; PStr "eks"; PStr "update-kubeconfig"; PStr "--name";
                  PStr "prod"; PStr "--kubeconfig"; PStr "/tmp/kubeconfig"];
       CheckOutput [PStr "helm"; PStr "upgrade"; PStr "ingress"; PStr "nginx-ingress";
                    PStr "--install"; PStr "--namespace"; PStr "kube-system";
                    PStr "--kubeconfig"; PStr "/tmp/kubeconfig"] "/tmp";
       RequestsPut "https://cloudformation-custom-resource-response/put" body]
    /\ Response.Status body = "FAILED"%string
    /\ Response.Reason body = "b'Error: UPGRADE FAILED'"%string.
Proof.
  exact (proj1
           (upgrade_failure_reported Scenarios.no_values Scenarios.env
              (Scenarios.chart_request "Create" None) Scenarios.ctx
              _ (PStr "ingress") (PStr "nginx-ingress") "prod"
              eq_refl eq_refl eq_refl eq_refl
              (Scenarios.helm_fails "Error: UPGRADE FAILED") PNone
              (or_introl eq_refl) eq_refl eq_refl)
           "Command 'helm' returned non-zero exit status 1."%string
           "Error: UPGRADE FAILED"%string eq_refl).
Defined.

(** X13.  Which commands a request can lead to, in any world: a Delete
    runs the login and the uninstall and nothing else, so it parses and
    writes no values; a request that is not a Delete runs no uninstall;
    only a Create asks for a uuid. *)
Theorem commands_by_request_type :
  forall json_loads w env event ctx,
    (Event.RequestType event = "Delete"%string ->
     all_of (fun c => is_check_call c || is_uninstall c || is_put c)
            (run json_loads w env event ctx))
    /\ (Event.RequestType event <> "Delete"%string ->
        all_of (fun c => negb (is_uninstall c)) (run json_loads w env event ctx))
    /\ (Event.RequestType event <> "Create"%string ->
        all_of (fun c => negb (is_uuid c)) (run json_loads w env event ctx)).
Proof.
  intros json_loads w env event ctx.
  assert (Hrun : forall f, issues f (handler json_loads env event ctx) ->
                           all_of f (run json_loads w env event ctx)).
  { intros f H. destruct (H w []) as (d & r & E & F). unfold run. now rewrite E. }
  repeat split; intros Hty; apply Hrun;
    unfold handler, handler_body, helm, cfn_error, cfn_send.
  - rewrite Hty. simpl. issues_steps.
  - destruct (String.eqb_spec (Event.RequestType event) "Delete"); [contradiction|].
    issues_steps.
  - destruct (String.eqb_spec (Event.RequestType event) "Create"); [contradiction|].
    issues_steps.
Qed.

Lemma commands_by_request_type_witness :
  all_of (fun c => is_check_call c || is_uninstall c || is_put c)
         (run MoreScenarios.loads_empty MoreScenarios.all_well Scenarios.env
              (MoreScenarios.chart_with_values "Delete") Scenarios.ctx).
Proof.
  exact (proj1 (commands_by_request_type MoreScenarios.loads_empty MoreScenarios.all_well
                  Scenarios.env (MoreScenarios.chart_with_values "Delete") Scenarios.ctx)
               eq_refl).
Defined.

End HelmChartMore.

(** ** The helm handler of the kubectl provider *)

Module KubectlHelmMore.
Import Py Effects KubectlHelm Traces KubectlHelmSpec Issues.
Local Open Scope list_scope.

(** *** The retry loop, whatever the world *)

Section Loop.
Variables (cmnd : list pyval) (cwd : string).

Let run_helm : call := CheckOutput cmnd cwd.

(** The run failed with "Broken pipe" in its output. *)
Definition broken_pipe (answer : result pyval) : Prop :=
  exists msg output,
    answer = inl (CalledProcessError msg output) /\ contains "Broken pipe" output = true.

(** What the loop returns after [k] runs of which the last got [answer],
    with [retry] runs allowed. *)
Definition loop_result (retry k : nat) (answer : result pyval) (r : result unit) : Prop :=
  match answer with
  | inr _ => r = inr tt
  | inl (CalledProcessError _ output) =>
      if contains "Broken pipe" output
      then k = retry
           /\ r = inl (ExceptionMsg ("Operation failed after " ++ str_of_nat maxAttempts
                                     ++ " attempts: " ++ bytes_repr output)%string)
      else r = inl (ExceptionBytes output)
  | inl e => r = inl e
  end.

Lemma repeat_snoc (k : nat) : run_helm :: repeat run_helm k = repeat run_helm k ++ [run_helm].
Proof. induction k as [|k IH]; simpl; [reflexivity|]. now rewrite <- IH. Qed.

Lemma attempts_stop retry :
  forall output w t,
  exists k r,
    attempts cmnd cwd (S retry) output w t = (t ++ repeat run_helm k, r)
    /\ 1 <= k <= S retry
    /\ (forall i, i < k - 1 -> broken_pipe (w (t ++ repeat run_helm i) run_helm))
    /\ loop_result (S retry) k (w (t ++ repeat run_helm (k - 1)) run_helm) r.
Proof.
  induction retry as [|retry IH]; intros output w t.
  - (* the last run allowed *)
    destruct (w t run_helm) as [e|v] eqn:E.
    + destruct e as [key|m|m|m failed|m|b|m];
        try (exists 1; eexists; simpl; unfold try_except, bind, invoke, ret, raise;
             fold run_helm; rewrite app_nil_r, E; repeat split; try lia;
             intros i Hi; lia).
      destruct (contains "Broken pipe" failed) eqn:Hc.
      * exists 1. eexists. rewrite (attempts_transient _ _ _ _ _ _ _ _ E Hc). simpl.
        unfold raise. split; [reflexivity|]. split; [lia|]. split; [intros i Hi; lia|].
        simpl. rewrite app_nil_r, E. simpl. rewrite Hc. now split.
      * exists 1. eexists. rewrite (attempts_permanent _ _ _ _ _ _ _ _ E Hc). simpl.
        split; [reflexivity|]. split; [lia|]. split; [intros i Hi; lia|].
        simpl. rewrite app_nil_r, E. simpl. now rewrite Hc.
    + exists 1, (inr tt). rewrite (attempts_success _ _ _ _ _ _ _ E). simpl.
      split; [reflexivity|]. split; [lia|]. split; [intros i Hi; lia|].
      simpl. now rewrite app_nil_r, E.
  - destruct (w t run_helm) as [e|v] eqn:E.
    + destruct e as [key|m|m|m failed|m|b|m];
        try (exists 1; eexists; simpl; unfold try_except, bind, invoke, ret, raise;
             fold run_helm; rewrite app_nil_r, E; repeat split; try lia;
             intros i Hi; lia).
      destruct (contains "Broken pipe" failed) eqn:Hc.
      * rewrite (attempts_transient _ _ _ _ _ _ _ _ E Hc). fold run_helm.
        destruct (IH failed w (t ++ [run_helm])) as (k & r & Hk & Hle & Hbefore & Hlast).
        exists (S k), r. rewrite Hk. simpl. rewrite <- app_assoc. simpl.
        split; [reflexivity|]. split; [lia|]. split.
        -- intros i Hi. destruct i as [|i].
           ++ simpl. rewrite app_nil_r. exists m, failed. now split.
           ++ simpl. replace (t ++ run_helm :: repeat run_helm i)
                       with ((t ++ [run_helm]) ++ repeat run_helm i)
                by now rewrite <- app_assoc.
              apply Hbefore. lia.
        -- replace (k - 0) with (S (k - 1)) by lia. cbn [repeat].
           replace (t ++ run_helm :: repeat run_helm (k - 1))
             with ((t ++ [run_helm]) ++ repeat run_helm (k - 1))
             by now rewrite <- app_assoc.
           unfold loop_result in *.
           destruct (w ((t ++ [run_helm]) ++ repeat run_helm (k - 1)) run_helm)
             as [e'|v']; [|assumption].
           destruct e' as [key|m1|m1|m1 out|m1|b1|m1]; try assumption.
           destruct (contains "Broken pipe" out); [|assumption].
           destruct Hlast as [-> ->]. now split.
      * exists 1. eexists. rewrite (attempts_permanent _ _ _ _ _ _ _ _ E Hc). simpl.
        split; [reflexivity|]. split; [lia|]. split; [intros i Hi; lia|].
        simpl. rewrite app_nil_r, E. simpl. now rewrite Hc.
    + exists 1, (inr tt). rewrite (attempts_success _ _ _ _ _ _ _ E). simpl.
      split; [reflexivity|]. split; [lia|]. split; [intros i Hi; lia|].
      simpl. now rewrite app_nil_r, E.
Qed.

End Loop.

(** [helm] is the loop with three runs allowed. *)
Lemma helm_loop env verb release chart repo file namespace version wait timeout
    create_namespace w t :
  let run_helm :=
    CheckOutput (helm_command env verb release chart repo file namespace version wait
                              timeout create_namespace)
                (Environ.outdir env) in
  exists k r,
    helm env verb release chart repo file namespace version wait timeout create_namespace
         w t
    = (t ++ repeat run_helm k, r)
    /\ 1 <= k <= 3
    /\ (forall i, i < k - 1 -> broken_pipe (w (t ++ repeat run_helm i) run_helm))
    /\ loop_result 3 k (w (t ++ repeat run_helm (k - 1)) run_helm) r.
Proof. intros run_helm. unfold helm, maxAttempts. apply attempts_stop. Qed.

(** X14.  The retry loop of [helm], in any world: the command runs
    between one and three times; every run but the last failed with "Broken
    pipe" in its output; the last run decides the result: [helm] returns
    when it succeeded, raises the captured output when it failed without
    "Broken pipe", raises what the run raised when that was not a failed
    exit, and raises "Operation failed after 3 attempts: ..." when it failed
    with "Broken pipe", which happens after three runs only. *)
Theorem helm_stops_at_first_other_outcome :
  forall env verb release chart repo file namespace version wait timeout create_namespace w t,
    let run_helm :=
      CheckOutput (helm_command env verb release chart repo file namespace version wait
                                timeout create_namespace)
                  (Environ.outdir env) in
    exists k r,
      helm env verb release chart repo file namespace version wait timeout create_namespace
           w t
      = (t ++ repeat run_helm k, r)
      /\ 1 <= k <= 3
      /\ (forall i, i < k - 1 -> broken_pipe (w (t ++ repeat run_helm i) run_helm))
      /\ loop_result 3 k (w (t ++ repeat run_helm (k - 1)) run_helm) r.
Proof.
  intros env verb release chart repo file namespace version wait timeout create_namespace
         w t.
  apply helm_loop.
Qed.

(** The loop issues nothing but runs of its command. *)
Lemma attempts_issues f cmnd cwd retry :
  f (CheckOutput cmnd cwd) = true ->
  forall output, issues f (attempts cmnd cwd retry output).
Proof.
  intros Hf. induction retry as [|retry IH]; intros output; simpl.
  - apply issues_raise.
  - apply issues_try_except.
    + apply issues_bind; [now apply issues_invoke|intros _; apply issues_ret].
    + intros e. destruct e; try apply issues_raise.
      destruct (negb _); [apply issues_raise|apply IH].
Qed.

(** *** The handler *)

(** [aws eks update-kubeconfig] with the role of the request. *)
Definition login (env : Environ.environ) (cluster_name role_arn : pyval) : call :=
  CheckCall [PStr "aws"; PStr "eks"; PStr "update-kubeconfig";
             PStr "--role-arn"; role_arn;
             PStr "--name"; cluster_name;
             PStr "--kubeconfig"; PStr (Environ.kubeconfig env)].

Definition uninstall (env : Environ.environ) (props : dict) (release : pyval) : call :=
  CheckOutput (helm_command env "uninstall" release PNone PNone PNone
                            (dict_get props "Namespace") PNone (PBool false)
                            (dict_get props "Timeout") PNone)
              (Environ.outdir env).

Definition upgrade (env : Environ.environ) (props : dict) (release chart : pyval) : call :=
  CheckOutput (helm_command env "upgrade" release chart (dict_get props "Repository") PNone
                            (dict_get props "Namespace") (dict_get props "Version")
                            (dict_get_default props "Wait" (PBool false))
                            (dict_get props "Timeout") (dict_get props "CreateNamespace"))
              (Environ.outdir env).

(** The calls before helm: the login, the test of the kubeconfig file and,
    when it is there, the change of its mode to 0o600. *)
Definition prepare (env : Environ.environ) (cluster_name role_arn is_file : pyval) : trace :=
  [login env cluster_name role_arn; PathIsFile (Environ.kubeconfig env)]
  ++ (if truthy is_file then [Chmod (Environ.kubeconfig env) 384] else []).

(** X15.  [helm_handler] reads [ClusterName], [RoleArn], [Release] and
    [Chart], in that order, before it runs anything: the first that is
    missing is a [KeyError] that leaves the handler, with no command run. *)
Theorem required_properties :
  forall json_loads env event w props,
    Event.ResourceProperties event = PDict props ->
    (assoc "ClusterName" props = None ->
     helm_handler json_loads env event w [] = ([], inl (KeyError "ClusterName")))
    /\ (forall cluster_name,
           assoc "ClusterName" props = Some cluster_name ->
           assoc "RoleArn" props = None ->
           helm_handler json_loads env event w [] = ([], inl (KeyError "RoleArn")))
    /\ (forall cluster_name role_arn,
           assoc "ClusterName" props = Some cluster_name ->
           assoc "RoleArn" props = Some role_arn ->
           assoc "Release" props = None ->
           helm_handler json_loads env event w [] = ([], inl (KeyError "Release")))
    /\ (forall cluster_name role_arn release,
           assoc "ClusterName" props = Some cluster_name ->
           assoc "RoleArn" props = Some role_arn ->
           assoc "Release" props = Some release ->
           assoc "Chart" props = None ->
           helm_handler json_loads env event w [] = ([], inl (KeyError "Chart"))).
Proof.
  intros json_loads env event w props Hprops.
  unfold helm_handler, bind, lift. rewrite Hprops. simpl.
  repeat split.
  - now intros ->.
  - now intros cluster_name -> ->.
  - now intros cluster_name role_arn -> -> ->.
  - now intros cluster_name role_arn release -> -> -> ->.
Qed.

Lemma required_properties_witness :
  helm_handler Scenarios.no_values Scenarios.env MoreScenarios.chart_without_release
               MoreScenarios.all_well []
  = ([], inl (KeyError "ClusterName")).
Proof.
  exact (proj1 (required_properties Scenarios.no_values Scenarios.env
                  MoreScenarios.chart_without_release MoreScenarios.all_well _ eq_refl)
               eq_refl).
Defined.

Section Reached.
Variable json_loads : pyval -> result pyval.
Variables (env : Environ.environ) (event : Event.event).
Variables (props : dict) (cluster_name role_arn release chart : pyval).

Hypothesis properties : Event.ResourceProperties event = PDict props.
Hypothesis has_cluster : assoc "ClusterName" props = Some cluster_name.
Hypothesis has_role : assoc "RoleArn" props = Some role_arn.
Hypothesis has_release : assoc "Release" props = Some release.
Hypothesis has_chart : assoc "Chart" props = Some chart.

Let login : call := login env cluster_name role_arn.
Let is_file : call := PathIsFile (Environ.kubeconfig env).
Let chmod : call := Chmod (Environ.kubeconfig env) 384.
Let uninstall : call := uninstall env props release.
Let upgrade : call := upgrade env props release chart.

(** The handler once the kubeconfig is written and protected. *)
Lemma prepared_run w logged found :
  w [] login = inr logged ->
  w [login] is_file = inr found ->
  (truthy found = true -> exists changed, w [login; is_file] chmod = inr changed) ->
  helm_handler json_loads env event w []
  = bind
      (if negb (String.eqb (Event.RequestType event) "Delete")
          && negb (is_none (dict_get props "Values")) then
         bind (lift (json_loads (dict_get props "Values"))) (fun values =>
         bind (invoke (WriteJsonFile (path_join (Environ.outdir env) "values.yaml") values))
              (fun _ => ret (PStr (path_join (Environ.outdir env) "values.yaml"))))
       else ret PNone)
      (fun file =>
         if String.eqb (Event.RequestType event) "Create"
            || String.eqb (Event.RequestType event) "Update" then
           helm env "upgrade" release chart (dict_get props "Repository") file
                (dict_get props "Namespace") (dict_get props "Version")
                (dict_get_default props "Wait" (PBool false))
                (dict_get props "Timeout") (dict_get props "CreateNamespace")
         else if String.eqb (Event.RequestType event) "Delete" then
           try_except (helm env "uninstall" release PNone PNone PNone
                            (dict_get props "Namespace") PNone (PBool false)
                            (dict_get props "Timeout") PNone)
                      (fun _ => ret tt)
         else ret tt)
      w (prepare env cluster_name role_arn found).
Proof.
  intros H1 H2 H3.
  unfold helm_handler, bind at 1 2 3 4 5 6 7 8 9 10 11 12 13 14, lift, invoke.
  rewrite properties. simpl. rewrite has_cluster, has_role, has_release, has_chart. simpl.
  change (CheckCall _) with login. rewrite H1.
  change (PathIsFile _) with is_file. simpl. rewrite H2.
  unfold prepare. change (KubectlHelmMore.login env cluster_name role_arn) with login.
  change (PathIsFile _) with is_file.
  destruct (truthy found) eqn:Hf.
  - destruct (H3 eq_refl) as (changed & H4).
    unfold bind at 1. unfold invoke, ret. change (Chmod _ _) with chmod. simpl.
    rewrite H4. reflexivity.
  - reflexivity.
Qed.

(** X16.  A Delete whose login succeeded returns normally, whatever
    helm does: after the preparation it runs [helm uninstall] between one
    and three times, writes no values file, and no error of the uninstall
    leaves the handler. *)
Theorem delete_returns w logged found :
  Event.RequestType event = "Delete"%string ->
  w [] login = inr logged ->
  w [login] is_file = inr found ->
  (truthy found = true -> exists changed, w [login; is_file] chmod = inr changed) ->
  exists k,
    1 <= k <= 3
    /\ helm_handler json_loads env event w []
       = (prepare env cluster_name role_arn found ++ repeat uninstall k, inr tt).
Proof.
  intros Hty H1 H2 H3. rewrite (prepared_run w logged found H1 H2 H3), Hty.
  change (negb ("Delete" =? "Delete")%string && _) with false. cbv iota.
  unfold bind at 1. unfold ret at 1.
  change (("Delete" =? "Create")%string || ("Delete" =? "Update")%string) with false.
  change ("Delete" =? "Delete")%string with true. cbv iota.
  destruct (helm_loop env "uninstall" release PNone PNone PNone
              (dict_get props "Namespace") PNone (PBool false) (dict_get props "Timeout")
              PNone w (prepare env cluster_name role_arn found))
    as (k & r & E & Hk & _).
  exists k. split; [exact Hk|]. unfold try_except. rewrite E.
  destruct r as [e|[]]; reflexivity.
Qed.

(** X17.  On a Create or an Update without values nothing is caught: after
    the preparation the handler runs [helm upgrade --install] between one
    and three times and ends as the retry loop does, so that a failed
    upgrade leaves the handler as an exception. *)
Theorem upgrade_result_escapes w logged found :
  Event.RequestType event = "Create"%string \/ Event.RequestType event = "Update"%string ->
  dict_get props "Values" = PNone ->
  w [] login = inr logged ->
  w [login] is_file = inr found ->
  (truthy found = true -> exists changed, w [login; is_file] chmod = inr changed) ->
  let prepared := prepare env cluster_name role_arn found in
  exists k r,
    helm_handler json_loads env event w [] = (prepared ++ repeat upgrade k, r)
    /\ 1 <= k <= 3
    /\ (forall i, i < k - 1 -> broken_pipe (w (prepared ++ repeat upgrade i) upgrade))
    /\ loop_result 3 k (w (prepared ++ repeat upgrade (k - 1)) upgrade) r.
Proof.
  intros Hty Hv H1 H2 H3 prepared. rewrite (prepared_run w logged found H1 H2 H3).
  rewrite Hv. change (is_none PNone) with true.
  rewrite andb_false_r. unfold bind at 1. unfold ret at 1.
  assert (Hcu : (Event.RequestType event =? "Create")%string
                || (Event.RequestType event =? "Update")%string = true)
    by (destruct Hty as [-> | ->]; reflexivity).
  rewrite Hcu.
  exact (helm_loop env "upgrade" release chart
           (dict_get props "Repository") PNone (dict_get props "Namespace")
           (dict_get props "Version") (dict_get_default props "Wait" (PBool false))
           (dict_get props "Timeout") (dict_get props "CreateNamespace") w prepared).
Qed.

(** X18.  A failed login leaves the handler as it is raised, on a Delete
    too: helm is not run and nothing is written. *)
Theorem login_failure_escapes w e :
  w [] login = inl e ->
  helm_handler json_loads env event w [] = ([login], inl e).
Proof.
  intros H1.
  unfold helm_handler, bind, lift, invoke.
  rewrite properties. simpl. rewrite has_cluster, has_role, has_release, has_chart. simpl.
  change (CheckCall _) with login. now rewrite H1.
Qed.

End Reached.

Lemma delete_returns_witness :
  exists k,
    1 <= k <= 3
    /\ helm_handler Scenarios.no_values Scenarios.env (MoreScenarios.kubectl_request "Delete")
                    (MoreScenarios.helm_down "Error: uninstall: Release not loaded") []
       = (prepare Scenarios.env (PStr "prod") (PStr "arn:aws:iam::1:role/kubectl")
                  (PBool true)
          ++ repeat (uninstall Scenarios.env MoreScenarios.kubectl_props (PStr "ingress")) k,
          inr tt).
Proof.
  refine (delete_returns Scenarios.no_values Scenarios.env
            (MoreScenarios.kubectl_request "Delete") MoreScenarios.kubectl_props
            (PStr "prod") (PStr "arn:aws:iam::1:role/kubectl") (PStr "ingress")
            (PStr "nginx-ingress") eq_refl eq_refl eq_refl eq_refl eq_refl
            (MoreScenarios.helm_down "Error: uninstall: Release not loaded")
            PNone (PBool true) eq_refl eq_refl eq_refl _).
  intros _. exists PNone. reflexivity.
Defined.

Lemma upgrade_result_escapes_witness :
  exists k r,
    helm_handler Scenarios.no_values Scenarios.env (MoreScenarios.kubectl_request "Update")
                 (MoreScenarios.helm_down "Error: chart not found") []
    = (prepare Scenarios.env (PStr "prod") (PStr "arn:aws:iam::1:role/kubectl") (PBool true)
       ++ repeat (upgrade Scenarios.env MoreScenarios.kubectl_props (PStr "ingress")
                          (PStr "nginx-ingress")) k,
       r)
    /\ 1 <= k <= 3
    /\ (forall i,
           i < k - 1 ->
           broken_pipe
             (MoreScenarios.helm_down "Error: chart not found"
                (prepare Scenarios.env (PStr "prod") (PStr "arn:aws:iam::1:role/kubectl")
                         (PBool true)
                 ++ repeat (upgrade Scenarios.env MoreScenarios.kubectl_props (PStr "ingress")
                                    (PStr "nginx-ingress")) i)
                (upgrade Scenarios.env MoreScenarios.kubectl_props (PStr "ingress")
                         (PStr "nginx-ingress"))))
    /\ loop_result 3 k
         (MoreScenarios.helm_down "Error: chart not found"
            (prepare Scenarios.env (PStr "prod") (PStr "arn:aws:iam::1:role/kubectl")
                     (PBool true)
             ++ repeat (upgrade Scenarios.env MoreScenarios.kubectl_props (PStr "ingress")
                                (PStr "nginx-ingress")) (k - 1))
            (upgrade Scenarios.env MoreScenarios.kubectl_props (PStr "ingress")
                     (PStr "nginx-ingress")))
         r.
Proof.
  refine (upgrade_result_escapes Scenarios.no_values Scenarios.env
            (MoreScenarios.kubectl_request "Update") MoreScenarios.kubectl_props
            (PStr "prod") (PStr "arn:aws:iam::1:role/kubectl") (PStr "ingress")
            (PStr "nginx-ingress") eq_refl eq_refl eq_refl eq_refl eq_refl
            (MoreScenarios.helm_down "Error: chart not found")
            PNone (PBool true) (or_intror eq_refl) eq_refl eq_refl eq_refl _).
  intros _. exists PNone. reflexivity.
Defined.

Lemma login_failure_escapes_witness :
  helm_handler Scenarios.no_values Scenarios.env (MoreScenarios.kubectl_request "Delete")
               MoreScenarios.no_credentials []
  = ([login Scenarios.env (PStr "prod") (PStr "arn:aws:iam::1:role/kubectl")],
     inl (CalledProcessError
            "Command 'aws' returned non-zero exit status 255." "")).
Proof.
  exact (login_failure_escapes Scenarios.no_values Scenarios.env
           (MoreScenarios.kubectl_request "Delete") MoreScenarios.kubectl_props
           (PStr "prod") (PStr "arn:aws:iam::1:role/kubectl") (PStr "ingress")
           (PStr "nginx-ingress") eq_refl eq_refl eq_refl eq_refl eq_refl
           MoreScenarios.no_credentials _ eq_refl).
Defined.

Definition is_file_test (c : call) : bool :=
  match c with PathIsFile _ => true | _ => false end.

Definition is_chmod (c : call) : bool :=
  match c with Chmod _ _ => true | _ => false end.

(** X19.  What [helm_handler] does to the world, whatever the request and
    the world: it runs commands ([aws], [helm]), tests and protects the
    kubeconfig and writes the values file.  It sends no response to
    CloudFormation and calls no EKS operation. *)
Theorem commands_and_files_only :
  forall json_loads env event,
    issues (fun c => is_check_call c || is_file_test c || is_chmod c || is_write c
                     || is_helm c)
           (helm_handler json_loads env event).
Proof.
  intros json_loads env event. unfold helm_handler.
  repeat first
    [ apply attempts_issues; reflexivity
    | progress issues_steps
    | progress unfold helm ].
Qed.

End KubectlHelmMore.

(** ** Both legacy handlers: one response for every invocation *)

Module HandlersMore.
Import Py Effects Traces.
Local Open Scope list_scope.

(** What every response carries, whatever its status: the identifiers of
    the request, [NoEcho] off, a status CloudFormation knows and a reason
    that is not empty. *)
Record envelope (event : Event.event) (body : Response.body) : Prop :=
  { envelope_stack : Response.StackId body = Event.StackId event;
    envelope_request : Response.RequestId body = Event.RequestId event;
    envelope_resource : Response.LogicalResourceId body = Event.LogicalResourceId event;
    envelope_echo : Response.NoEcho body = false;
    envelope_status : Response.Status body = CFN_SUCCESS \/ Response.Status body = CFN_FAILED;
    envelope_reason : Response.Reason body <> ""%string }.

Lemma reason_or_default_not_empty ctx reason : reason_or_default ctx reason <> ""%string.
Proof.
  unfold reason_or_default. destruct reason as [r|]; [|discriminate].
  destruct (String.eqb_spec r ""); [discriminate|assumption].
Qed.

Lemma cluster_envelope event ctx status data pid reason :
  status = CFN_SUCCESS \/ status = CFN_FAILED ->
  envelope event (ClusterResourceSpec.sent event ctx status data pid reason).
Proof.
  intros H. constructor; simpl; try reflexivity; [exact H|].
  apply reason_or_default_not_empty.
Qed.

Lemma chart_envelope event ctx status data pid reason :
  status = CFN_SUCCESS \/ status = CFN_FAILED ->
  envelope event (HelmChartSpec.sent event ctx status data pid reason).
Proof.
  intros H. constructor; simpl; try reflexivity; [exact H|].
  apply reason_or_default_not_empty.
Qed.

(** X20.  Whatever the request and whatever the world does, also when the
    PUT itself fails, the cluster handler and the helm-chart handler return
    normally, and the last thing they do is to PUT one response, the only
    one, to the [ResponseURL] of the request.  The response carries the
    [StackId], [RequestId] and [LogicalResourceId] of the request, [NoEcho]
    off, the status SUCCESS or FAILED and a reason that is not empty; the
    response of the helm-chart handler has no data. *)
Theorem one_response_per_invocation :
  (forall w event ctx,
      exists d body,
        ClusterResource.handler event ctx w []
        = (d ++ [RequestsPut (Event.ResponseURL event) body], inr tt)
        /\ none_of is_put d
        /\ envelope event body)
  /\ (forall json_loads w env event ctx,
         exists d body,
           HelmChart.handler json_loads env event ctx w []
           = (d ++ [RequestsPut (Event.ResponseURL event) body], inr tt)
           /\ none_of is_put d
           /\ envelope event body
           /\ Response.Data body = []).
Proof.
  split.
  - intros w event ctx.
    destruct (ClusterResourceMore.handler_answers w event ctx) as (d & body & E & N & A).
    exists d, body. split; [exact E|]. split; [exact N|].
    destruct A; apply cluster_envelope; auto.
  - intros json_loads w env event ctx.
    destruct (HelmChartMore.chart_handler_answers json_loads env event ctx w)
      as (d & body & E & N & A).
    exists d, body. split; [exact E|]. split; [exact N|].
    destruct A; (split; [apply chart_envelope; auto|reflexivity]).
Qed.

End HandlersMore.

(** ** Delete of a cluster that is not there *)

Module DeleteSpec.
Import Py Effects Traces.
Local Open Scope list_scope.

(** A Delete of the cluster "prod", which a replacement once renamed: the
    configuration names it, the physical id is another. *)
Definition delete_renamed : Event.event :=
  Scenarios.cluster_request "Delete" "req-49" (Some "cluster-req-42")
    (Scenarios.cluster_config (Some "prod") "arn:aws:iam::1:role/eks" (Some "1.20")) None.

(** What [delete_cluster] raises for a cluster that is not there. *)
Definition not_found : exn :=
  OtherError "An error occurred (ResourceNotFoundException) when calling the DeleteCluster operation: No cluster found for name: prod.".

(** C3.  A Delete is not idempotent in the cluster handler.  Nothing
    there looks at what [delete_cluster] raises: whatever the exception, so
    also the one for a cluster that is not there, the handler calls nothing
    else and answers FAILED with the text of the exception; SUCCESS is
    answered only when [delete_cluster] and the wait for the deletion both
    return, and then with the cluster name the handler settled on, which is
    the name in the configuration when there is one and not the physical id
    of the request.  On the Delete of "prod" in a world without that cluster
    the answer is FAILED.  The other two Delete paths catch the error where
    it is raised: the helm-chart handler answers SUCCESS with the physical id
    of the request whatever the uninstall raises, and the helm handler of
    the kubectl provider returns normally. *)
Theorem absent_cluster_delete_fails :
  (forall w event ctx config old_config cluster_name,
      Event.RequestType event = "Delete"%string ->
      ClusterResourceSpec.Classified event config old_config cluster_name ->
      (forall e,
          w [] (EksDeleteCluster cluster_name) = inl e ->
          ClusterResource.run w event ctx
          = [EksDeleteCluster cluster_name;
             RequestsPut (Event.ResponseURL event)
               (ClusterResourceSpec.sent event ctx CFN_FAILED [] PNone (Some (exn_str e)))])
      /\ (forall deleted e,
             w [] (EksDeleteCluster cluster_name) = inr deleted ->
             w [EksDeleteCluster cluster_name] (EksWaitClusterDeleted cluster_name) = inl e ->
             ClusterResource.run w event ctx
             = [EksDeleteCluster cluster_name; EksWaitClusterDeleted cluster_name;
                RequestsPut (Event.ResponseURL event)
                  (ClusterResourceSpec.sent event ctx CFN_FAILED [] PNone (Some (exn_str e)))])
      /\ (forall deleted waited,
             w [] (EksDeleteCluster cluster_name) = inr deleted ->
             w [EksDeleteCluster cluster_name] (EksWaitClusterDeleted cluster_name)
             = inr waited ->
             ClusterResource.run w event ctx
             = [EksDeleteCluster cluster_name; EksWaitClusterDeleted cluster_name;
                RequestsPut (Event.ResponseURL event)
                  (ClusterResourceSpec.sent event ctx CFN_SUCCESS [] cluster_name None)]))
  /\ (Scenarios.cluster_gone [] (EksDeleteCluster (PStr "prod")) = inl not_found
      /\ map (fun b => (Response.Status b, Response.Reason b))
             (responses (ClusterResource.run Scenarios.cluster_gone Scenarios.delete_prod
                                             Scenarios.ctx))
         = [("FAILED"%string,
             "An error occurred (ResourceNotFoundException) when calling the DeleteCluster operation: No cluster found for name: prod."%string)])
  /\ (Event.PhysicalResourceId delete_renamed = Some "cluster-req-42"%string
      /\ ClusterResource.run (Scenarios.cooperative "1.20") delete_renamed Scenarios.ctx
         = [EksDeleteCluster (PStr "prod"); EksWaitClusterDeleted (PStr "prod");
            RequestsPut (Event.ResponseURL delete_renamed)
              (ClusterResourceSpec.sent delete_renamed Scenarios.ctx CFN_SUCCESS []
                 (PStr "prod") None)]
      /\ map Response.PhysicalResourceId
             (responses (ClusterResource.run (Scenarios.cooperative "1.20") delete_renamed
                                             Scenarios.ctx))
         = [PStr "prod"])
  /\ (forall json_loads w env event ctx props release chart cluster_name logged e p,
         Event.RequestType event = "Delete"%string ->
         Event.ResourceProperties event = PDict props ->
         assoc "Release" props = Some release ->
         assoc "Chart" props = Some chart ->
         Environ.CLUSTER_NAME env = Some cluster_name ->
         Event.PhysicalResourceId event = Some p ->
         p <> ""%string ->
         w [] (HelmChartSpec.login env cluster_name) = inr logged ->
         w [HelmChartSpec.login env cluster_name] (HelmChartSpec.uninstall env props release)
         = inl e ->
         HelmChart.run json_loads w env event ctx
         = [HelmChartSpec.login env cluster_name; HelmChartSpec.uninstall env props release;
            RequestsPut (Event.ResponseURL event)
              (HelmChartSpec.sent event ctx CFN_SUCCESS [] (PStr p) None)])
  /\ snd (KubectlHelm.helm_handler Scenarios.no_values Scenarios.env
            (MoreScenarios.kubectl_request "Delete")
            (MoreScenarios.helm_down
               "Error: uninstall: Release not loaded: ingress: release: not found") [])
     = inr tt.
Proof.
  split; [|split; [|split; [|split]]].
  - intros w event ctx config old_config cluster_name Hty Hc.
    rewrite (HandlersSpec.cluster_delete_run w event ctx config old_config cluster_name Hty Hc).
    unfold try_except, bind, invoke, ClusterResource.cfn_error. simpl.
    repeat split.
    + intros e H. rewrite H. simpl. now rewrite ClusterResourceSpec.cfn_send_run.
    + intros deleted e H1 H2. rewrite H1, H2. simpl.
      now rewrite ClusterResourceSpec.cfn_send_run.
    + intros deleted waited H1 H2. rewrite H1, H2.
      now rewrite ClusterResourceSpec.cfn_send_run.
  - split; reflexivity.
  - repeat split; reflexivity.
  - intros json_loads w env event ctx props release chart cluster_name logged e p
           Hty Hprops Hr Hch Hcl Hp Hne H1 _.
    rewrite (HelmChartSpec.chart_delete_run json_loads env event ctx props release chart
               cluster_name Hprops Hr Hch Hcl w logged Hty H1).
    now rewrite (proj1 (HelmChartSpec.relayed_physical_id event ctx p Hp Hne)).
  - reflexivity.
Qed.

(** The Delete of "prod" in a world without that cluster: the one call is
    [delete_cluster], the answer is FAILED. *)
Lemma absent_cluster_delete_fails_witness :
  ClusterResource.run Scenarios.cluster_gone Scenarios.delete_prod Scenarios.ctx
  = [EksDeleteCluster (PStr "prod");
     RequestsPut (Event.ResponseURL Scenarios.delete_prod)
       (ClusterResourceSpec.sent Scenarios.delete_prod Scenarios.ctx CFN_FAILED [] PNone
          (Some (exn_str not_found)))].
Proof.
  refine (proj1 (proj1 absent_cluster_delete_fails
                   Scenarios.cluster_gone Scenarios.delete_prod Scenarios.ctx
                   (Scenarios.cluster_config None "arn:aws:iam::1:role/eks" (Some "1.20"))
                   (PDict []) (PStr "prod") eq_refl _)
                not_found eq_refl).
  constructor; reflexivity.
Defined.

End DeleteSpec.

(** ** The helm-chart handler: the uninstall, and requests without a physical id *)

Module PhysicalIdSpec.
Import Py Effects HelmChart Traces HelmChartSpec.
Local Open Scope list_scope.

(** The text of the check of line 72. *)
Definition not_defined (request_type : string) : string :=
  ("invalid request: request type is '" ++ request_type
   ++ "' but 'PhysicalResourceId' is not defined")%string.

(** An Update that carries values and no physical id. *)
Definition update_with_values : Event.event :=
  {| Event.RequestType := "Update";
     Event.StackId := "arn:aws:cloudformation:eu-west-1:1:stack/app/1";
     Event.RequestId := "req-55";
     Event.LogicalResourceId := "Ingress";
     Event.ResponseURL := "https://cloudformation-custom-resource-response/put";
     Event.PhysicalResourceId := None;
     Event.ResourceProperties := PDict [("Release", PStr "ingress");
                                        ("Chart", PStr "nginx-ingress");
                                        ("Values", PStr "{}")];
     Event.OldResourceProperties := None |}.

Section Handler.
Variable json_loads : pyval -> result pyval.
Variables (env : Environ.environ) (event : Event.event) (ctx : context).

(** The response of a body that returns: the complaint about CLUSTER_NAME,
    the SUCCESS of a Create with its new id, or the relayed physical id. *)
Definition expected (b : Response.body) : Prop :=
  match Environ.CLUSTER_NAME env with
  | None =>
      b = sent event ctx CFN_FAILED [] PNone (Some "CLUSTER_NAME is missing in environment"%string)
  | Some cluster_name =>
      if String.eqb (Event.RequestType event) "Create"
      then exists uuid,
          b = sent event ctx CFN_SUCCESS [] (PStr (cluster_name ++ "/" ++ py_str uuid)%string)
                   None
      else b = relayed event ctx
  end.

Lemma body_expected :
  settles is_uninstall (handler_body json_loads env event ctx) (Event.ResponseURL event)
          expected.
Proof.
  unfold handler_body, expected.
  do 6 (apply settles_bind; [apply passes_lift|intros ?]).
  destruct (Environ.CLUSTER_NAME env) as [cluster_name|];
    [|now apply cfn_send_settles].
  apply settles_bind; [now apply passes_invoke|intros _].
  apply settles_bind.
  { destruct (_ && _); [|apply passes_ret].
    apply passes_bind; [apply passes_lift|intros values].
    apply passes_bind; [now apply passes_invoke|intros _]. apply passes_ret. }
  intros file.
  apply settles_bind.
  { destruct (_ || _); [apply helm_passes|].
    destruct (String.eqb _ "Delete"); [apply uninstall_swallowed|apply passes_ret]. }
  intros _.
  destruct (String.eqb (Event.RequestType event) "Create").
  - apply settles_bind; [now apply passes_invoke|intros uuid].
    apply cfn_send_settles. now exists uuid.
  - unfold relayed.
    destruct (truthy (of_option (Event.PhysicalResourceId event))); simpl;
      now apply cfn_send_settles.
Qed.

(** Without a physical id, in any world: the one response of a Delete or
    an Update is FAILED, and its reason is that of the exception when the
    body raised one, the complaint about CLUSTER_NAME when that is missing,
    and [not_defined] when the body got as far as the check. *)
Lemma no_physical_id_reason w :
  Event.RequestType event = "Delete"%string \/ Event.RequestType event = "Update"%string ->
  truthy (of_option (Event.PhysicalResourceId event)) = false ->
  exists d body,
    run json_loads w env event ctx = d ++ [RequestsPut (Event.ResponseURL event) body]
    /\ none_of is_put d
    /\ Response.Status body = "FAILED"%string
    /\ (forall e,
           snd (handler_body json_loads env event ctx w []) = inl e ->
           body = sent event ctx CFN_FAILED [] PNone (Some (failure_reason e)))
    /\ (forall a,
           snd (handler_body json_loads env event ctx w []) = inr a ->
           Response.Reason body
           = match Environ.CLUSTER_NAME env with
             | Some _ => not_defined (Event.RequestType event)
             | None => "CLUSTER_NAME is missing in environment"%string
             end).
Proof.
  intros Hty Hp.
  destruct (handler_outcome json_loads env event ctx expected w body_expected)
    as (d & body & E & N & _ & Hraised & Hreturned).
  exists d, body. split; [exact E|]. split; [exact N|].
  assert (Hnc : String.eqb (Event.RequestType event) "Create" = false)
    by (destruct Hty as [-> | ->]; reflexivity).
  assert (Hret : forall a, snd (handler_body json_loads env event ctx w []) = inr a ->
                           Response.Status body = "FAILED"%string
                           /\ Response.Reason body
                              = match Environ.CLUSTER_NAME env with
                                | Some _ => not_defined (Event.RequestType event)
                                | None => "CLUSTER_NAME is missing in environment"%string
                                end).
  { intros a Ha. specialize (Hreturned a Ha). unfold expected in Hreturned.
    destruct (Environ.CLUSTER_NAME env) as [cluster_name|].
    - rewrite Hnc in Hreturned. rewrite Hreturned.
      destruct (relayed_missing event ctx Hp) as [Hs Hr]. split; [exact Hs|exact Hr].
    - rewrite Hreturned. split; reflexivity. }
  split; [|split].
  - destruct (snd (handler_body json_loads env event ctx w [])) as [e|a] eqn:Hb.
    + now rewrite (Hraised e eq_refl).
    + exact (proj1 (Hret a eq_refl)).
  - exact Hraised.
  - intros a Ha. exact (proj2 (Hret a Ha)).
Qed.

End Handler.

Section Reached.
Variable json_loads : pyval -> result pyval.
Variables (env : Environ.environ) (event : Event.event) (ctx : context).
Variables (props : dict) (release chart : pyval) (cluster_name : string).

Hypothesis properties : Event.ResourceProperties event = PDict props.
Hypothesis has_release : assoc "Release" props = Some release.
Hypothesis has_chart : assoc "Chart" props = Some chart.
Hypothesis has_cluster : Environ.CLUSTER_NAME env = Some cluster_name.

Let url : string := Event.ResponseURL event.
Let login : call := login env cluster_name.
Let upgrade_with_values : call := HelmChartMore.upgrade_with_values env props release chart.
Let write (values : pyval) : call := WriteJsonFile (HelmChartMore.values_file env) values.

(** A failed login is the end of the body, whatever the request. *)
Lemma login_failed_run w e :
  w [] login = inl e ->
  run json_loads w env event ctx
  = [login; RequestsPut url (sent event ctx CFN_FAILED [] PNone (Some (failure_reason e)))].
Proof.
  intros H1.
  unfold run, handler, handler_body, try_except, bind, lift, invoke.
  rewrite properties, has_cluster. simpl. rewrite has_release, has_chart. simpl.
  change (CheckCall _) with login. rewrite H1. simpl.
  destruct e; unfold cfn_error; now rewrite chart_cfn_send_run.
Qed.

(** An Update with values that are parsed and written, and an upgrade
    that succeeds. *)
Lemma update_values_run w logged values written upgraded :
  Event.RequestType event = "Update"%string ->
  is_none (dict_get props "Values") = false ->
  w [] login = inr logged ->
  json_loads (dict_get props "Values") = inr values ->
  w [login] (write values) = inr written ->
  w [login; write values] upgrade_with_values = inr upgraded ->
  run json_loads w env event ctx
  = [login; write values; upgrade_with_values; RequestsPut url (relayed event ctx)].
Proof.
  intros Hty Hv H1 Hl Hw Hu.
  rewrite HelmChartMore.run_handler.
  rewrite (HelmChartMore.install_run json_loads env event ctx props release chart cluster_name
             properties has_release has_chart has_cluster w logged (or_intror Hty) H1).
  unfold login, write, upgrade_with_values, HelmChartMore.upgrade_with_values in *.
  unfold try_except, bind, lift, ret, invoke. rewrite Hv. simpl. rewrite Hl. simpl.
  rewrite Hw. rewrite helm_run, Hu. rewrite Hty. simpl.
  unfold relayed. rewrite Hty.
  destruct (truthy (of_option (Event.PhysicalResourceId event))); simpl;
    unfold cfn_error; now rewrite chart_cfn_send_run.
Qed.

End Reached.

(** C10 (as amended).  In the legacy helm-chart handler, a Delete request
    with a physical id (one that is not empty) that gets as far as the
    uninstall is answered SUCCESS with that physical id, whatever the
    uninstall raises.  A Delete or an Update request without a physical id
    is answered FAILED, in any world; the reason is "invalid request:
    request type is '...' but 'PhysicalResourceId' is not defined" when the
    body of the handler gets as far as the check of the physical id: for a
    Delete once the login has succeeded, whatever the uninstall does; for an
    Update once the login, the parsing and the writing of the values, when
    there are any, and the upgrade have succeeded.  When a step before the
    check raises, the reason is the one of that exception: so for a failed
    login, and for an Update whose upgrade exits non-zero. *)
Theorem uninstall_failure_ignored :
  forall json_loads env event ctx,
    (forall w props release chart cluster_name logged e p,
        Event.RequestType event = "Delete"%string ->
        Event.ResourceProperties event = PDict props ->
        assoc "Release" props = Some release ->
        assoc "Chart" props = Some chart ->
        Environ.CLUSTER_NAME env = Some cluster_name ->
        Event.PhysicalResourceId event = Some p ->
        p <> ""%string ->
        w [] (login env cluster_name) = inr logged ->
        w [login env cluster_name] (uninstall env props release) = inl e ->
        exists body,
          run json_loads w env event ctx
          = [login env cluster_name; uninstall env props release;
             RequestsPut (Event.ResponseURL event) body]
          /\ Response.Status body = "SUCCESS"%string
          /\ Response.PhysicalResourceId body = PStr p)
    /\ (forall w,
           Event.RequestType event = "Delete"%string
           \/ Event.RequestType event = "Update"%string ->
           truthy (of_option (Event.PhysicalResourceId event)) = false ->
           exists d body,
             run json_loads w env event ctx
             = d ++ [RequestsPut (Event.ResponseURL event) body]
             /\ none_of is_put d
             /\ Response.Status body = "FAILED"%string
             /\ (forall e,
                    snd (handler_body json_loads env event ctx w []) = inl e ->
                    body = sent event ctx CFN_FAILED [] PNone (Some (failure_reason e)))
             /\ (forall a,
                    snd (handler_body json_loads env event ctx w []) = inr a ->
                    Response.Reason body
                    = match Environ.CLUSTER_NAME env with
                      | Some _ => not_defined (Event.RequestType event)
                      | None => "CLUSTER_NAME is missing in environment"%string
                      end))
    /\ (forall w props release chart cluster_name,
           Event.RequestType event = "Delete"%string
           \/ Event.RequestType event = "Update"%string ->
           Event.ResourceProperties event = PDict props ->
           assoc "Release" props = Some release ->
           assoc "Chart" props = Some chart ->
           Environ.CLUSTER_NAME env = Some cluster_name ->
           truthy (of_option (Event.PhysicalResourceId event)) = false ->
           (forall e,
               w [] (login env cluster_name) = inl e ->
               run json_loads w env event ctx
               = [login env cluster_name;
                  RequestsPut (Event.ResponseURL event)
                    (sent event ctx CFN_FAILED [] PNone (Some (failure_reason e)))])
           /\ (forall logged,
                  Event.RequestType event = "Delete"%string ->
                  w [] (login env cluster_name) = inr logged ->
                  exists body,
                    run json_loads w env event ctx
                    = [login env cluster_name; uninstall env props release;
                       RequestsPut (Event.ResponseURL event) body]
                    /\ Response.Status body = "FAILED"%string
                    /\ Response.Reason body = not_defined "Delete")
           /\ (forall logged upgraded,
                  Event.RequestType event = "Update"%string ->
                  is_none (dict_get props "Values") = true ->
                  w [] (login env cluster_name) = inr logged ->
                  w [login env cluster_name] (upgrade env props release chart)
                  = inr upgraded ->
                  exists body,
                    run json_loads w env event ctx
                    = [login env cluster_name; upgrade env props release chart;
                       RequestsPut (Event.ResponseURL event) body]
                    /\ Response.Status body = "FAILED"%string
                    /\ Response.Reason body = not_defined "Update")
           /\ (forall logged values written upgraded,
                  Event.RequestType event = "Update"%string ->
                  is_none (dict_get props "Values") = false ->
                  w [] (login env cluster_name) = inr logged ->
                  json_loads (dict_get props "Values") = inr values ->
                  w [login env cluster_name]
                    (WriteJsonFile (HelmChartMore.values_file env) values) = inr written ->
                  w [login env cluster_name;
                     WriteJsonFile (HelmChartMore.values_file env) values]
                    (HelmChartMore.upgrade_with_values env props release chart)
                  = inr upgraded ->
                  exists body,
                    run json_loads w env event ctx
                    = [login env cluster_name;
                       WriteJsonFile (HelmChartMore.values_file env) values;
                       HelmChartMore.upgrade_with_values env props release chart;
                       RequestsPut (Event.ResponseURL event) body]
                    /\ Response.Status body = "FAILED"%string
                    /\ Response.Reason body = not_defined "Update")
           /\ (forall logged msg output,
                  Event.RequestType event = "Update"%string ->
                  is_none (dict_get props "Values") = true ->
                  w [] (login env cluster_name) = inr logged ->
                  w [login env cluster_name] (upgrade env props release chart)
                  = inl (CalledProcessError msg output) ->
                  run json_loads w env event ctx
                  = [login env cluster_name; upgrade env props release chart;
                     RequestsPut (Event.ResponseURL event)
                       (sent event ctx CFN_FAILED [] PNone (Some (bytes_repr output)))])).
Proof.
  intros json_loads env event ctx. split; [|split].
  - intros w props release chart cluster_name logged e p Hty Hprops Hr Hc Hcl Hp Hne H1 _.
    exists (relayed event ctx).
    split; [now apply chart_delete_run with chart logged|].
    destruct (relayed_physical_id event ctx p Hp Hne) as [Hrel Hid].
    split; [now rewrite Hrel | exact Hid].
  - intros w Hty Hp. now apply no_physical_id_reason.
  - intros w props release chart cluster_name Hty Hprops Hr Hc Hcl Hp.
    destruct (relayed_missing event ctx Hp) as [Hs Hreason].
    split; [|split; [|split; [|split]]].
    + intros e H1. now apply login_failed_run with props release chart.
    + intros logged Hd H1. exists (relayed event ctx).
      split; [now apply chart_delete_run with chart logged|].
      split; [exact Hs|]. now rewrite Hreason, Hd.
    + intros logged upgraded Hu Hv H1 H2. exists (relayed event ctx).
      split; [now apply chart_update_run with logged upgraded|].
      split; [exact Hs|]. now rewrite Hreason, Hu.
    + intros logged values written upgraded Hu Hv H1 Hl Hw H2. exists (relayed event ctx).
      split; [now apply update_values_run with logged written upgraded|].
      split; [exact Hs|]. now rewrite Hreason, Hu.
    + intros logged msg output Hu Hv H1 H2.
      now apply chart_update_failed_run with logged msg.
Qed.

(** A Delete of a release that is gone: helm fails, the answer is SUCCESS. *)
Lemma uninstall_failure_ignored_witness :
  exists body,
    run Scenarios.no_values
        (Scenarios.helm_fails "Error: uninstall: Release not loaded: ingress: release: not found")
        Scenarios.env (Scenarios.chart_request "Delete" (Some "prod/7d3c")) Scenarios.ctx
    = [CheckCall [PStr "aws"; PStr "eks"; PStr "update-kubeconfig"; PStr "--name";
                  PStr "prod"; PStr "--kubeconfig"; PStr "/tmp/kubeconfig"];
       CheckOutput [PStr "helm"; PStr "uninstall"; PStr "ingress"; PStr "--namespace";
                    PStr "kube-system"; PStr "--kubeconfig"; PStr "/tmp/kubeconfig"] "/tmp";
       RequestsPut "https://cloudformation-custom-resource-response/put" body]
    /\ Response.Status body = "SUCCESS"%string
    /\ Response.PhysicalResourceId body = PStr "prod/7d3c".
Proof.
  refine (proj1 (uninstall_failure_ignored Scenarios.no_values Scenarios.env
                   (Scenarios.chart_request "Delete" (Some "prod/7d3c")) Scenarios.ctx)
                (Scenarios.helm_fails _) _ (PStr "ingress") (PStr "nginx-ingress") "prod"
                PNone _ "prod/7d3c"
                eq_refl eq_refl eq_refl eq_refl eq_refl eq_refl _ eq_refl eq_refl).
  discriminate.
Defined.

(** C10, the claim as first stated, fails: an Update without a physical
    id whose upgrade exits non-zero, and a Delete without a physical id whose
    login fails, are answered FAILED with the reason of the failure, not with
    "invalid request ...". *)
Lemma earlier_failure_gives_the_reason :
  Event.PhysicalResourceId (Scenarios.chart_request "Update" None) = None
  /\ map (fun b => (Response.Status b, Response.Reason b))
         (responses
            (run Scenarios.no_values (Scenarios.helm_fails "Error: UPGRADE FAILED")
                 Scenarios.env (Scenarios.chart_request "Update" None) Scenarios.ctx))
     = [("FAILED"%string, "b'Error: UPGRADE FAILED'"%string)]
  /\ map (fun b => (Response.Status b, Response.Reason b))
         (responses
            (run Scenarios.no_values MoreScenarios.no_credentials
                 Scenarios.env (Scenarios.chart_request "Delete" None) Scenarios.ctx))
     = [("FAILED"%string, "Command 'aws' returned non-zero exit status 255."%string)].
Proof. repeat split; reflexivity. Qed.

End PhysicalIdSpec.
